(** * RedditShield: the filtering engine and the popup's persistence, verified

    A shallow embedding of [reddit-shield.js] (the content script) and of
    [popup.js] (the part that saves the form to [chrome.storage]).

    Conventions of the embedding:
    - a JavaScript string is a [string] of 8-bit characters; [toLowerCase]
      and [trim] are the ASCII case map and the ASCII white space, which is
      what the engine's string methods do on ASCII text;
    - a JavaScript [Set] of strings is the list of its members in insertion
      order (a [Set] iterates in that order and [add] ignores a member that
      is already there);
    - [getAttribute] returns [null] for a missing attribute: an attribute is
      an [option string];
    - an element is hidden when its computed [display] is ["none"], and
      assigning ["none"] to [style.display] makes it so;
    - the module-level variables of the content script are the fields of
      the record [engine]; a function that assigns them takes and returns
      the record;
    - a thrown [TypeError] ends the running function and every caller up to
      the event loop, and keeps the assignments made before it: functions
      that can throw return the state together with a [completion]. *)

From Stdlib Require Import Ascii.
From stdpp Require Import gmap strings list fin_maps.

(** ** Strings *)

Module Str.

(** [String.prototype.toLowerCase], one character. *)
Definition lower_char (c : ascii) : ascii :=
  let n := nat_of_ascii c in
  if (65 <=? n) && (n <=? 90) then ascii_of_nat (n + 32) else c.

Fixpoint toLowerCase (s : string) : string :=
  match s with
  | EmptyString => EmptyString
  | String c r => String (lower_char c) (toLowerCase r)
  end.

(** [s.slice(n)]: the string without its first [n] characters. *)
Fixpoint slice (n : nat) (s : string) : string :=
  match n, s with
  | 0, _ => s
  | S _, EmptyString => EmptyString
  | S m, String _ r => slice m r
  end.

(** [s.substring(0, n)]: the first [n] characters. *)
Fixpoint substring0 (n : nat) (s : string) : string :=
  match n, s with
  | 0, _ => EmptyString
  | S _, EmptyString => EmptyString
  | S m, String c r => String c (substring0 m r)
  end.

(** [s.startsWith(p)]. *)
Fixpoint starts_with (p s : string) : bool :=
  match p, s with
  | EmptyString, _ => true
  | String _ _, EmptyString => false
  | String a p', String b s' => Ascii.eqb a b && starts_with p' s'
  end.

(** [s.includes(sub)]: [sub] occurs in [s] at some position. *)
Fixpoint includes (s sub : string) : bool :=
  starts_with sub s ||
  match s with
  | EmptyString => false
  | String _ r => includes r sub
  end.

(** White space removed by [trim]. *)
Definition is_space (c : ascii) : bool :=
  let n := nat_of_ascii c in
  ((9 <=? n) && (n <=? 13)) || (n =? 32).

Fixpoint trim_start (s : string) : string :=
  match s with
  | EmptyString => EmptyString
  | String c r => if is_space c then trim_start r else s
  end.

Fixpoint trim_end (s : string) : string :=
  match s with
  | EmptyString => EmptyString
  | String c r =>
      match trim_end r with
      | EmptyString => if is_space c then EmptyString else String c EmptyString
      | r' => String c r'
      end
  end.

Definition trim (s : string) : string := trim_end (trim_start s).

(** The string is empty or made of white space only. *)
Fixpoint blank (s : string) : bool :=
  match s with
  | EmptyString => true
  | String c r => is_space c && blank r
  end.

(** [s.split("\n")]: never the empty array; the pieces hold no newline. *)
Fixpoint split_lines (s : string) : list string :=
  match s with
  | EmptyString => [EmptyString]
  | String c r =>
      if Ascii.eqb c "010"%char then EmptyString :: split_lines r
      else match split_lines r with
           | [] => [String c EmptyString]
           | l :: ls => String c l :: ls
           end
  end.

(** [a.join("\n")]. *)
Fixpoint join_lines (l : list string) : string :=
  match l with
  | [] => EmptyString
  | [x] => x
  | x :: r => x +:+ String "010"%char (join_lines r)
  end.

End Str.

(** ** JavaScript sets of strings, in insertion order *)

Module JsSet.

Definition t := list string.

Definition empty : t := [].

Definition has (s : t) (x : string) : bool := existsb (String.eqb x) s.

Definition add (x : string) (s : t) : t := if has s x then s else s ++ [x].

(** [new Set(array)] and [for (x of array) set.add(f x)]. *)
Definition add_all (xs : list string) (s : t) : t :=
  fold_left (fun acc x => add x acc) xs s.

Definition of_array (xs : list string) : t := add_all xs empty.

End JsSet.

(** ** The normalisation of one stored entry ([_options_process], the loops) *)

Module Normalizer.
Import Str.

(** Users: ["u/"] is removed once from the start. *)
Definition clean_user (_user : string) : string :=
  if (2 <=? String.length _user) && String.eqb (substring0 2 _user) "u/"
  then slice 2 _user else _user.

(** Keywords: kept when [trim] leaves something, and stored lower-cased
    (not trimmed). *)
Definition clean_keyword (_keyword : string) : option string :=
  if String.eqb (trim _keyword) "" then None else Some (toLowerCase _keyword).

(** Subreddits: ["r/"] is removed once from the start, then lower-cased. *)
Definition clean_subreddit (_subreddit : string) : string :=
  toLowerCase
    (if (2 <=? String.length _subreddit) && String.eqb (substring0 2 _subreddit) "r/"
     then slice 2 _subreddit else _subreddit).

(** Domains: [/^(?:https?:\/\/)?(?:www\.)?([^\/\?#]+).*$/i] with the
    replacement ["$1"], then lower-cased.  The matcher below follows the
    backtracking order of the pattern: each optional group is first tried
    present, then absent. *)

Definition host_char (c : ascii) : bool :=
  negb (Ascii.eqb c "/"%char || Ascii.eqb c "?"%char || Ascii.eqb c "#"%char).

(** [.] does not match a line terminator. *)
Definition line_terminator (c : ascii) : bool :=
  Ascii.eqb c "010"%char || Ascii.eqb c "013"%char.

Fixpoint no_line_terminator (s : string) : bool :=
  match s with
  | EmptyString => true
  | String c r => negb (line_terminator c) && no_line_terminator r
  end.

(** The longest run of [[^\/\?#]] at the start, and what follows it. *)
Fixpoint span_host (s : string) : string * string :=
  match s with
  | EmptyString => (EmptyString, EmptyString)
  | String c r =>
      if host_char c
      then let '(g, t) := span_host r in (String c g, t)
      else (EmptyString, s)
  end.

(** [([^\/\?#]+).*$] at the start of [s]: the group, if the match succeeds.
    A shorter group leaves a longer tail for [.*$], so that only the longest
    one has to be tried. *)
Definition match_host (s : string) : option string :=
  let '(g, t) := span_host s in
  match g with
  | EmptyString => None
  | _ => if no_line_terminator t then Some g else None
  end.

Definition strip_www (s : string) : option string :=
  if starts_with "www." (toLowerCase s) then Some (slice 4 s) else None.

Definition strip_scheme (s : string) : option string :=
  if starts_with "https://" (toLowerCase s) then Some (slice 8 s)
  else if starts_with "http://" (toLowerCase s) then Some (slice 7 s)
  else None.

(** [(?:www\.)?([^\/\?#]+).*$] at the start of [s]. *)
Definition match_www_host (s : string) : option string :=
  match strip_www s with
  | Some r =>
      match match_host r with
      | Some g => Some g
      | None => match_host s
      end
  | None => match_host s
  end.

(** The whole pattern, anchored at both ends: the first group. *)
Definition pattern_exec (s : string) : option string :=
  match strip_scheme s with
  | Some r =>
      match match_www_host r with
      | Some g => Some g
      | None => match_www_host s
      end
  | None => match_www_host s
  end.

(** [_domain.replace(_pattern, "$1") || ""]: without a match [replace]
    returns its subject. *)
Definition replace_pattern (s : string) : string :=
  match pattern_exec s with
  | Some g => g
  | None => s
  end.

Definition clean_domain (_domain : string) : string :=
  toLowerCase (replace_pattern _domain).

End Normalizer.

(** ** Values held by [chrome.storage] and sent in messages *)

Inductive value :=
  | VBool (b : bool)
  | VNumber (n : nat)
  | VString (s : string)
  | VArray (l : list string).

(** ** The page: the elements the selectors find, and [window.location] *)

Module Dom.

Inductive tag := shreddit_post | shreddit_comment.

(** One element with the attributes the engine reads.  [display_none] is
    [getComputedStyle(el).display === "none"]. *)
Record element := {
  tagName : tag;
  display_none : bool;
  subreddit_prefixed_name : option string;
  post_title : option string;
  author : option string;
  domain : option string
}.

(** [el.style.display = "none"]. *)
Definition hide (el : element) : element :=
  {| tagName := tagName el;
     display_none := true;
     subreddit_prefixed_name := subreddit_prefixed_name el;
     post_title := post_title el;
     author := author el;
     domain := domain el |}.

(** A node is the position of its element in document order. *)
Abbreviation node := nat (only parsing).

Fixpoint select_from (sel : tag -> bool) (i : nat) (doc : list element) : list node :=
  match doc with
  | [] => []
  | el :: r =>
      if sel (tagName el) then i :: select_from sel (S i) r
      else select_from sel (S i) r
  end.

(** [document.querySelectorAll(sel)], in document order. *)
Definition querySelectorAll (sel : tag -> bool) (doc : list element) : list node :=
  select_from sel 0 doc.

Definition is_post (t : tag) : bool :=
  match t with shreddit_post => true | shreddit_comment => false end.

Definition is_comment (t : tag) : bool :=
  match t with shreddit_comment => true | shreddit_post => false end.

Definition is_post_or_comment (t : tag) : bool := true.

(** [window.getComputedStyle(_el).display !== "none"]. *)
Definition visible (doc : list element) (n : node) : bool :=
  match doc !! n with
  | Some el => negb (display_none el)
  | None => false
  end.

Record location := {
  href : string;
  pathname : string
}.

(** [window.location.pathname.includes("/comments/")]. *)
Definition thread_page (loc : location) : bool :=
  Str.includes (pathname loc) "/comments/".

End Dom.

(** ** [chrome.storage]: the local and the synchronised area *)

Module ChromeStorage.

Inductive area := local | sync.

Record t := {
  local_items : gmap string value;
  sync_items : gmap string value
}.

Definition items (a : area) (st : t) : gmap string value :=
  match a with
  | local => local_items st
  | sync => sync_items st
  end.

Definition with_items (a : area) (m : gmap string value) (st : t) : t :=
  match a with
  | local => {| local_items := m; sync_items := sync_items st |}
  | sync => {| local_items := local_items st; sync_items := m |}
  end.

(** The properties of an object stored one after the other. *)
Definition store_all (obj : list (string * value)) (m : gmap string value)
    : gmap string value :=
  fold_left (fun m kv => <[kv.1 := kv.2]> m) obj m.

Definition delete_all (keys : list string) (m : gmap string value) : gmap string value :=
  fold_left (fun m k => delete k m) keys m.

(** [area.set(obj)]: every property of [obj] is stored, the other keys of
    the area stay. *)
Definition set (a : area) (obj : list (string * value)) (st : t) : t :=
  with_items a (store_all obj (items a st)) st.

(** [area.remove(keys)]. *)
Definition remove (a : area) (keys : list string) (st : t) : t :=
  with_items a (delete_all keys (items a st)) st.

(** A stored flag, as the popup writes it; [None] is [undefined]. *)
Definition get_bool (m : gmap string value) (k : string) : option bool :=
  match m !! k with
  | Some (VBool b) => Some b
  | _ => None
  end.

(** A stored list of lines, as the popup writes it. *)
Definition get_array (m : gmap string value) (k : string) : option (list string) :=
  match m !! k with
  | Some (VArray l) => Some l
  | _ => None
  end.

(** [_local_result.enableSync !== undefined ? _local_result.enableSync : true],
    then [_enable_sync ? chrome.storage.sync : chrome.storage.local]. *)
Definition active_area (st : t) : area :=
  if default true (get_bool (local_items st) "enableSync") then sync else local.

End ChromeStorage.

(** ** The content script *)

Module Content.
Import Str Dom Normalizer.

(** The module-level variables of [cls_redditShieldContent]. *)
Record engine := {
  __user_bans : JsSet.t;
  __subreddit_bans : JsSet.t;
  __keyword_bans : JsSet.t;
  __domain_bans : JsSet.t;
  __logging_enabled : bool;
  __filter_users : bool;
  __filter_keywords : bool;
  __filter_subreddits : bool;
  __filter_domains : bool;
  __filtered_count : nat;
  __current_url : string
}.

(** The variables as the script initialises them, on a page at [loc]. *)
Definition engine_init (loc : location) : engine :=
  {| __user_bans := JsSet.empty;
     __subreddit_bans := JsSet.empty;
     __keyword_bans := JsSet.empty;
     __domain_bans := JsSet.empty;
     __logging_enabled := false;
     __filter_users := false;
     __filter_keywords := false;
     __filter_subreddits := false;
     __filter_domains := false;
     __filtered_count := 0;
     __current_url := href loc |}.

(** [__filtered_count++]. *)
Definition count_incr (e : engine) : engine :=
  {| __user_bans := __user_bans e;
     __subreddit_bans := __subreddit_bans e;
     __keyword_bans := __keyword_bans e;
     __domain_bans := __domain_bans e;
     __logging_enabled := __logging_enabled e;
     __filter_users := __filter_users e;
     __filter_keywords := __filter_keywords e;
     __filter_subreddits := __filter_subreddits e;
     __filter_domains := __filter_domains e;
     __filtered_count := S (__filtered_count e);
     __current_url := __current_url e |}.

(** What [console.log] printed: the tag of the line and its arguments. *)
Inductive log_entry :=
  | LogSubreddit (_subreddit : string) (_title : option string)
  | LogKeyword (_ban_word : string) (_title : option string)
  | LogUser (_author : option string) (_title : option string)
  | LogDomain (_domain : option string) (_title : option string)
  | LogComment (_author : string)
  | LogCleanupStart (what : string)
  | LogCleanupFound (n : nat) (what : string).

(** Everything the script reads and writes. *)
Record world := {
  vars : engine;
  document : list element;
  console : list log_entry;
  (** counts sent with [{action: 'updateBadge', count}] *)
  badge : list nat;
  (** the arguments of the calls of [_send_response] *)
  responses : list (gmap string value)
}.

Inductive completion := Normal | Throw.

(** The branch of the callback of [_posts_ban] that returns. *)
Inductive category :=
  | SUBREDDIT
  | KEYWORD (_ban_word : string)
  | USER
  | DOMAIN.

Inductive verdict :=
  | Hide (c : category)
  | Keep
  | TypeError.

(** [_users.has(_author)], where [_author] may be [null]. *)
Definition has_attr (s : JsSet.t) (a : option string) : bool :=
  match a with
  | Some x => JsSet.has s x
  | None => false
  end.

(** The callback of [_visible_posts.forEach] in [_posts_ban], up to the
    branch it takes; [.slice] and [.toLowerCase] on [null] throw. *)
Definition post_verdict (e : engine) (_subreddits _keywords _users _domains : JsSet.t)
    (_post : element) : verdict :=
  match subreddit_prefixed_name _post with
  | None => TypeError
  | Some full =>
      let _subreddit := slice 2 full in
      if __filter_subreddits e && JsSet.has _subreddits (toLowerCase _subreddit)
      then Hide SUBREDDIT
      else
        match post_title _post with
        | None => TypeError
        | Some _title =>
            let _lower_title := toLowerCase _title in
            match (if __filter_keywords e
                   then List.find (fun _ban_word => includes _lower_title _ban_word) _keywords
                   else None) with
            | Some _ban_word => Hide (KEYWORD _ban_word)
            | None =>
                if __filter_users e && has_attr _users (author _post)
                then Hide USER
                else if __filter_domains e
                then match domain _post with
                     | None => TypeError
                     | Some _domain =>
                         if JsSet.has _domains (toLowerCase _domain)
                         then Hide DOMAIN else Keep
                     end
                else Keep
            end
        end
  end.

(** The line logged for a hidden post. *)
Definition post_log (c : category) (_post : element) : log_entry :=
  match c with
  | SUBREDDIT =>
      LogSubreddit (slice 2 (default EmptyString (subreddit_prefixed_name _post)))
                   (post_title _post)
  | KEYWORD w => LogKeyword w (post_title _post)
  | USER => LogUser (author _post) (post_title _post)
  | DOMAIN => LogDomain (domain _post) (post_title _post)
  end.

(** The common end of every matching branch: log when logging is on, set
    [display] to ["none"], count. *)
Definition hit (entry : log_entry) (n : node) (w : world) : world :=
  {| vars := count_incr (vars w);
     document := alter hide n (document w);
     console := if __logging_enabled (vars w) then console w ++ [entry] else console w;
     badge := badge w;
     responses := responses w |}.

(** [Array.prototype.forEach]: an exception in the callback ends the loop. *)
Fixpoint forEach (f : node -> world -> world * completion) (l : list node) (w : world)
    : world * completion :=
  match l with
  | [] => (w, Normal)
  | n :: r =>
      match f n w with
      | (w', Normal) => forEach f r w'
      | (w', Throw) => (w', Throw)
      end
  end.

Definition post_callback (_subreddits _keywords _users _domains : JsSet.t)
    (_post : node) (w : world) : world * completion :=
  match document w !! _post with
  | None => (w, Normal)
  | Some el =>
      match post_verdict (vars w) _subreddits _keywords _users _domains el with
      | Hide c => (hit (post_log c el) _post w, Normal)
      | Keep => (w, Normal)
      | TypeError => (w, Throw)
      end
  end.

Definition _posts_ban (_subreddits _keywords _users _domains : JsSet.t)
    (loc : location) (w : world) : world * completion :=
  if thread_page loc then (w, Normal)
  else
    let _posts := querySelectorAll is_post (document w) in
    let _visible_posts := List.filter (visible (document w)) _posts in
    forEach (post_callback _subreddits _keywords _users _domains) _visible_posts w.

(** [_author && _users.has(_author)]: [null] and [""] are falsy. *)
Definition truthy (a : option string) : bool :=
  match a with
  | Some EmptyString => false
  | Some _ => true
  | None => false
  end.

Definition comment_callback (_users : JsSet.t) (_comment : node) (w : world)
    : world * completion :=
  match document w !! _comment with
  | None => (w, Normal)
  | Some el =>
      if truthy (author el) && has_attr _users (author el)
      then (hit (LogComment (default EmptyString (author el))) _comment w, Normal)
      else (w, Normal)
  end.

Definition _comments_ban (_users : JsSet.t) (loc : location) (w : world)
    : world * completion :=
  if negb (thread_page loc) then (w, Normal)
  else if negb (__filter_users (vars w)) then (w, Normal)
  else
    let _comments := querySelectorAll is_comment (document w) in
    let _visible_comments := List.filter (visible (document w)) _comments in
    forEach (comment_callback _users) _visible_comments w.

(** [chrome.runtime.sendMessage({action: 'updateBadge', count})]; a
    rejection is caught and dropped. *)
Definition _badge_update (w : world) : world :=
  {| vars := vars w;
     document := document w;
     console := console w;
     badge := badge w ++ [__filtered_count (vars w)];
     responses := responses w |}.

(** The object [chrome.storage] passes to the callback of [get]: a key that
    is not stored is [undefined]. *)
Record storage_result := {
  hiddenUsers : option (list string);
  hiddenKeywords : option (list string);
  hiddenSubreddits : option (list string);
  hiddenDomains : option (list string);
  loggingEnabled : option bool;
  filterUsers : option bool;
  filterKeywords : option bool;
  filterSubreddits : option bool;
  filterDomains : option bool;
  blockUsers : option bool;
  blockKeywords : option bool;
  blockSubreddits : option bool;
  blockDomains : option bool
}.

(** The four loops of [_options_process] over the stored arrays, each
    starting from the cleared set. *)
Definition load_users (l : list string) : JsSet.t :=
  fold_left (fun acc _user => JsSet.add (clean_user _user) acc) l JsSet.empty.

Definition load_keywords (l : list string) : JsSet.t :=
  fold_left (fun acc _keyword =>
               match clean_keyword _keyword with
               | Some k => JsSet.add k acc
               | None => acc
               end) l JsSet.empty.

Definition load_subreddits (l : list string) : JsSet.t :=
  fold_left (fun acc _subreddit => JsSet.add (clean_subreddit _subreddit) acc) l JsSet.empty.

Definition load_domains (l : list string) : JsSet.t :=
  fold_left (fun acc _domain => JsSet.add (clean_domain _domain) acc) l JsSet.empty.

(** [if (_result.hiddenX) { for ... }] after [clear()]. *)
Definition load_set (load : list string -> JsSet.t) (stored : option (list string)) : JsSet.t :=
  match stored with
  | Some l => load l
  | None => JsSet.empty
  end.

(** [if (cur !== undefined) v = cur; else if (old !== undefined) v = old;]. *)
Definition load_flag (cur old : option bool) (v : bool) : bool :=
  match cur with
  | Some b => b
  | None => match old with
            | Some b => b
            | None => v
            end
  end.

(** The assignments of [_options_process], before the scan. *)
Definition options_assign (_result : storage_result) (loc : location) (e : engine) : engine :=
  let navigated := negb (String.eqb (href loc) (__current_url e)) in
  {| __user_bans := load_set load_users (hiddenUsers _result);
     __subreddit_bans := load_set load_subreddits (hiddenSubreddits _result);
     __keyword_bans := load_set load_keywords (hiddenKeywords _result);
     __domain_bans := load_set load_domains (hiddenDomains _result);
     __logging_enabled := load_flag (loggingEnabled _result) None (__logging_enabled e);
     __filter_users := load_flag (filterUsers _result) (blockUsers _result) (__filter_users e);
     __filter_keywords :=
       load_flag (filterKeywords _result) (blockKeywords _result) (__filter_keywords e);
     __filter_subreddits :=
       load_flag (filterSubreddits _result) (blockSubreddits _result) (__filter_subreddits e);
     __filter_domains :=
       load_flag (filterDomains _result) (blockDomains _result) (__filter_domains e);
     __filtered_count := if navigated then 0 else __filtered_count e;
     __current_url := if navigated then href loc else __current_url e |}.

Definition set_vars (e : engine) (w : world) : world :=
  {| vars := e;
     document := document w;
     console := console w;
     badge := badge w;
     responses := responses w |}.

Definition _options_process (_result : storage_result) (loc : location) (w : world)
    : world * completion :=
  let w1 := set_vars (options_assign _result loc (vars w)) w in
  match _posts_ban (__subreddit_bans (vars w1)) (__keyword_bans (vars w1))
                   (__user_bans (vars w1)) (__domain_bans (vars w1)) loc w1 with
  | (w2, Throw) => (w2, Throw)
  | (w2, Normal) =>
      match _comments_ban (__user_bans (vars w2)) loc w2 with
      | (w3, Throw) => (w3, Throw)
      | (w3, Normal) => (_badge_update w3, Normal)
      end
  end.

(** [_storage_area.get([...], callback)]: the thirteen keys asked for. *)
Definition storage_get (m : gmap string value) : storage_result :=
  {| hiddenUsers := ChromeStorage.get_array m "hiddenUsers";
     hiddenKeywords := ChromeStorage.get_array m "hiddenKeywords";
     hiddenSubreddits := ChromeStorage.get_array m "hiddenSubreddits";
     hiddenDomains := ChromeStorage.get_array m "hiddenDomains";
     loggingEnabled := ChromeStorage.get_bool m "loggingEnabled";
     filterUsers := ChromeStorage.get_bool m "filterUsers";
     filterKeywords := ChromeStorage.get_bool m "filterKeywords";
     filterSubreddits := ChromeStorage.get_bool m "filterSubreddits";
     filterDomains := ChromeStorage.get_bool m "filterDomains";
     blockUsers := ChromeStorage.get_bool m "blockUsers";
     blockKeywords := ChromeStorage.get_bool m "blockKeywords";
     blockSubreddits := ChromeStorage.get_bool m "blockSubreddits";
     blockDomains := ChromeStorage.get_bool m "blockDomains" |}.

Definition _options_get_saved (st : ChromeStorage.t) (loc : location) (w : world)
    : world * completion :=
  let _storage_area := ChromeStorage.active_area st in
  _options_process (storage_get (ChromeStorage.items _storage_area st)) loc w.


(** [_comment.getAttribute(name)] through a node. *)
Definition getAttribute (attr : element -> option string) (doc : list element) (n : node)
    : option string :=
  match doc !! n with
  | Some el => attr el
  | None => None
  end.

Definition _cleanup_get_users (w : world) : list string :=
  let _posts_and_comments := querySelectorAll is_post_or_comment (document w) in
  fold_left
    (fun _accumulated_bans _comment =>
       let _author := getAttribute author (document w) _comment in
       if truthy _author && negb (has_attr (__user_bans (vars w)) _author)
       then _accumulated_bans ++ [default EmptyString _author]
       else _accumulated_bans)
    _posts_and_comments [].

Definition _cleanup_get_keywords (w : world) : list string :=
  let _posts := querySelectorAll is_post (document w) in
  fold_left
    (fun found _keyword =>
       fold_left
         (fun found _post =>
            let _title := getAttribute post_title (document w) _post in
            if truthy _title &&
               includes (toLowerCase (default EmptyString _title)) (toLowerCase _keyword)
            then JsSet.add (toLowerCase _keyword) found
            else found)
         _posts found)
    (__keyword_bans (vars w)) JsSet.empty.

Definition _cleanup_get_subreddits (w : world) : list string :=
  let _posts := querySelectorAll is_post (document w) in
  fold_left
    (fun found _subreddit =>
       fold_left
         (fun found _post =>
            let _subreddit_full := getAttribute subreddit_prefixed_name (document w) _post in
            if truthy _subreddit_full &&
               String.eqb (toLowerCase (slice 2 (default EmptyString _subreddit_full)))
                          (toLowerCase _subreddit)
            then JsSet.add (toLowerCase _subreddit) found
            else found)
         _posts found)
    (__subreddit_bans (vars w)) JsSet.empty.

Record request := { action : string }.

Definition _send_response (r : gmap string value) (w : world) : world :=
  {| vars := vars w;
     document := document w;
     console := console w;
     badge := badge w;
     responses := responses w ++ [r] |}.

(** [if (__logging_enabled) console.log(...)]. *)
Definition log (entry : log_entry) (w : world) : world :=
  {| vars := vars w;
     document := document w;
     console := if __logging_enabled (vars w) then console w ++ [entry] else console w;
     badge := badge w;
     responses := responses w |}.

Definition cleanup_users (loc : location) (w : world) : world * completion :=
  if negb (thread_page loc)
  then (_send_response
          (list_to_map [("status", VNumber 400);
                        ("message", VString "Can only cleanup threads")]) w,
        Normal)
  else
    let w1 := log (LogCleanupStart "Thread") w in
    let _users_to_ban := _cleanup_get_users w1 in
    let w2 := log (LogCleanupFound (length _users_to_ban) "users") w1 in
    let w3 := _send_response
                (list_to_map [("status", VNumber 200); ("message", VArray _users_to_ban)])
                w2 in
    _comments_ban (JsSet.of_array _users_to_ban) loc w3.

Definition cleanup_keywords (w : world) : world :=
  let w1 := log (LogCleanupStart "Keywords") w in
  let _found_keywords := _cleanup_get_keywords w1 in
  let w2 := log (LogCleanupFound (length _found_keywords) "keywords") w1 in
  _send_response
    (list_to_map [("status", VNumber 200); ("message", VArray _found_keywords)]) w2.

Definition cleanup_subreddits (w : world) : world :=
  let w1 := log (LogCleanupStart "Subreddits") w in
  let _found_subreddits := _cleanup_get_subreddits w1 in
  let w2 := log (LogCleanupFound (length _found_subreddits) "subreddits") w1 in
  _send_response
    (list_to_map [("status", VNumber 200); ("message", VArray _found_subreddits)]) w2.

(** The three [if]s of the listener follow one another; a request with
    another action gets no response. *)
Definition _cleanup_request_handle (_request : request) (loc : location) (w : world)
    : world * completion :=
  match (if String.eqb (action _request) "cleanupUsers"
         then cleanup_users loc w else (w, Normal)) with
  | (w1, Throw) => (w1, Throw)
  | (w1, Normal) =>
      let w2 := if String.eqb (action _request) "cleanupKeywords"
                then cleanup_keywords w1 else w1 in
      let w3 := if String.eqb (action _request) "cleanupSubreddits"
                then cleanup_subreddits w2 else w2 in
      (w3, Normal)
  end.

End Content.

(** ** The popup: saving the form *)

Module Popup.
Import Str.

(** The text areas and check boxes of the popup. *)
Record form := {
  userList : string;
  keywordList : string;
  subredditList : string;
  domainList : string;
  loggingEnabled : bool;
  filterUsers : bool;
  filterKeywords : bool;
  filterSubreddits : bool;
  filterDomains : bool;
  enableSync : bool
}.

(** A call of the storage interface. *)
Inductive call :=
  | CallSet (a : ChromeStorage.area) (obj : list (string * value))
  | CallRemove (a : ChromeStorage.area) (keys : list string).

Definition exec_call (c : call) (st : ChromeStorage.t) : ChromeStorage.t :=
  match c with
  | CallSet a obj => ChromeStorage.set a obj st
  | CallRemove a keys => ChromeStorage.remove a keys st
  end.

(** The calls take effect in the order they are made. *)
Definition exec (cs : list call) (st : ChromeStorage.t) : ChromeStorage.t :=
  fold_left (fun st c => exec_call c st) cs st.

(** [value.split("\n").map(item => item.trim())]. *)
Definition lines (s : string) : list string := map trim (split_lines s).

Definition _storage_area_get (f : form) : ChromeStorage.area :=
  if enableSync f then ChromeStorage.sync else ChromeStorage.local.

Definition _data_to_save (f : form) : list (string * value) :=
  [("hiddenUsers", VArray (lines (userList f)));
   ("hiddenKeywords", VArray (lines (keywordList f)));
   ("hiddenSubreddits", VArray (lines (subredditList f)));
   ("hiddenDomains", VArray (lines (domainList f)));
   ("loggingEnabled", VBool (loggingEnabled f));
   ("filterUsers", VBool (filterUsers f));
   ("filterKeywords", VBool (filterKeywords f));
   ("filterSubreddits", VBool (filterSubreddits f));
   ("filterDomains", VBool (filterDomains f));
   ("enableSync", VBool (enableSync f))].

Definition _keys_to_remove : list string :=
  ["hiddenUsers"; "hiddenKeywords"; "hiddenSubreddits"; "hiddenDomains";
   "loggingEnabled"; "expandImages"; "filterUsers"; "filterKeywords";
   "filterSubreddits"; "filterDomains"; "blockUsers"; "blockKeywords";
   "blockSubreddits"; "blockDomains"].

Definition _data_migrate (_enable_sync : bool) (_data_to_save : list (string * value))
    : list call :=
  let _other_storage_area :=
    if _enable_sync then ChromeStorage.local else ChromeStorage.sync in
  [CallRemove _other_storage_area _keys_to_remove].

(** The storage calls of [_data_save], in the order of the source. *)
Definition _data_save (f : form) : list call :=
  [CallSet ChromeStorage.local [("enableSync", VBool (enableSync f))];
   CallSet (_storage_area_get f) (_data_to_save f)]
  ++ _data_migrate (enableSync f) (_data_to_save f).

End Popup.


(** ** The categories of the matcher, one at a time *)

Module Matcher.
Import Str Dom Content.

Section Rules.
Variable e : engine.
Variables _subreddits _keywords _users _domains : JsSet.t.

(** The element is in an enabled community rule. *)
Definition matches_community (p : element) : bool :=
  __filter_subreddits e &&
  match subreddit_prefixed_name p with
  | Some full => JsSet.has _subreddits (toLowerCase (slice 2 full))
  | None => false
  end.




End Rules.


End Matcher.

(** ** What a pass over the page may change *)

Module Scan.
Import Dom Content.

(** An element after a pass: untouched, or it was visible and is hidden. *)
Definition element_step (el el' : element) : Prop :=
  el' = el \/ (display_none el = false /\ el' = hide el).

(** The elements that were visible before and are hidden after. *)
Fixpoint newly_hidden (doc doc' : list element) : nat :=
  match doc, doc' with
  | el :: r, el' :: r' =>
      (if negb (display_none el) && display_none el' then 1 else 0) + newly_hidden r r'
  | _, _ => 0
  end.

(** The variables a pass leaves alone: all but the counter. *)
Definition set_count (n : nat) (e : engine) : engine :=
  {| __user_bans := __user_bans e;
     __subreddit_bans := __subreddit_bans e;
     __keyword_bans := __keyword_bans e;
     __domain_bans := __domain_bans e;
     __logging_enabled := __logging_enabled e;
     __filter_users := __filter_users e;
     __filter_keywords := __filter_keywords e;
     __filter_subreddits := __filter_subreddits e;
     __filter_domains := __filter_domains e;
     __filtered_count := n;
     __current_url := __current_url e |}.

(** What a callback decides for one element. *)
Inductive outcome :=
  | Hit (entry : log_entry)
  | Skip
  | Fault.

(** The shape the two callbacks share. *)
Definition callback (decide : engine -> element -> outcome) (n : node) (w : world)
    : world * completion :=
  match document w !! n with
  | None => (w, Normal)
  | Some el =>
      match decide (vars w) el with
      | Hit entry => (hit entry n w, Normal)
      | Skip => (w, Normal)
      | Fault => (w, Throw)
      end
  end.

Definition post_outcome (_subreddits _keywords _users _domains : JsSet.t)
    (e : engine) (el : element) : outcome :=
  match post_verdict e _subreddits _keywords _users _domains el with
  | Hide c => Hit (post_log c el)
  | Keep => Skip
  | TypeError => Fault
  end.

Definition comment_outcome (_users : JsSet.t) (e : engine) (el : element) : outcome :=
  if truthy (author el) && has_attr _users (author el)
  then Hit (LogComment (default EmptyString (author el)))
  else Skip.

(** What a pass keeps and what it changes, from the world before to the
    world after: the rules, the flags and the tracked URL stay; every element
    stays or goes from visible to hidden; the counter grows by the number of
    elements that went from visible to hidden; nothing is sent. *)
Record passed (w w' : world) : Prop := {
  passed_rules : set_count 0 (vars w') = set_count 0 (vars w);
  passed_document : Forall2 element_step (document w) (document w');
  passed_count :
    __filtered_count (vars w')
    = __filtered_count (vars w) + newly_hidden (document w) (document w');
  passed_badge : badge w' = badge w;
  passed_responses : responses w' = responses w
}.

(** A decision that reads the rules and the attributes only: neither the
    counter nor the display state of the element. *)
Definition stable (decide : engine -> element -> outcome) : Prop :=
  forall e e' el el',
    set_count 0 e' = set_count 0 e -> element_step el el' ->
    decide e' el' = decide e el.

(** The loop the two passes share: the visible nodes of a selector, each
    given to the callback. *)
Definition scan (d : engine -> element -> outcome) (sel : tag -> bool) (w : world)
    : world * completion :=
  forEach (callback d)
          (List.filter (visible (document w)) (querySelectorAll sel (document w))) w.

(** The end of [_options_process], from the world with the variables
    assigned: the two passes, then the badge update. *)
Definition passes (loc : location) (w1 : world) : world * completion :=
  match _posts_ban (__subreddit_bans (vars w1)) (__keyword_bans (vars w1))
                   (__user_bans (vars w1)) (__domain_bans (vars w1)) loc w1 with
  | (w2, Throw) => (w2, Throw)
  | (w2, Normal) =>
      match _comments_ban (__user_bans (vars w2)) loc w2 with
      | (w3, Throw) => (w3, Throw)
      | (w3, Normal) => (_badge_update w3, Normal)
      end
  end.

(** Two worlds with the same variables and the same page; they may differ
    in what was logged and sent. *)
Definition same_page (w w' : world) : Prop :=
  vars w' = vars w /\ document w' = document w.

End Scan.

(** ** What the cleanup of a thread collects *)

Module Collect.
Import Dom Content.

(** The author of an element, when it is there, not empty and not in the
    author rules. *)
Definition unfiltered_author (bans : JsSet.t) (el : element) : option string :=
  if truthy (author el) && negb (has_attr bans (author el)) then author el else None.

End Collect.

(** ** The preference flags as the specification words them *)

Module Spec.

(** The flag after a reload in the words of the specification, to compare
    with [load_flag]: the value under the current key if it is stored, else
    the value under the legacy key if it is stored, else [false]. *)
Definition flag_after_reload (current legacy : option bool) : bool :=
  match current with
  | Some b => b
  | None => match legacy with
            | Some b => b
            | None => false
            end
  end.

End Spec.

(** ** Pages and forms used as examples *)

Module Examples.
Import Dom Content.

Definition listing : location :=
  {| href := "https://www.reddit.com/r/all/"; pathname := "/r/all/" |}.

Definition thread : location :=
  {| href := "https://www.reddit.com/r/funny/comments/1abc/a_title/";
     pathname := "/r/funny/comments/1abc/a_title/" |}.

Definition post (sub title auth dom : option string) : element :=
  {| tagName := shreddit_post;
     display_none := false;
     subreddit_prefixed_name := sub;
     post_title := title;
     author := auth;
     domain := dom |}.

Definition comment (auth : option string) : element :=
  {| tagName := shreddit_comment;
     display_none := false;
     subreddit_prefixed_name := None;
     post_title := None;
     author := auth;
     domain := None |}.

(** A freshly loaded page: the script has just initialised its variables. *)
Definition fresh (loc : location) (doc : list element) : world :=
  {| vars := engine_init loc;
     document := doc;
     console := [];
     badge := [];
     responses := [] |}.

Definition nothing_stored : storage_result :=
  {| hiddenUsers := None; hiddenKeywords := None;
     hiddenSubreddits := None; hiddenDomains := None;
     loggingEnabled := None;
     filterUsers := None; filterKeywords := None;
     filterSubreddits := None; filterDomains := None;
     blockUsers := None; blockKeywords := None;
     blockSubreddits := None; blockDomains := None |}.

(** Only [filterUsers: true] is stored. *)
Definition users_on : storage_result :=
  {| hiddenUsers := None; hiddenKeywords := None;
     hiddenSubreddits := None; hiddenDomains := None;
     loggingEnabled := None;
     filterUsers := Some true; filterKeywords := None;
     filterSubreddits := None; filterDomains := None;
     blockUsers := None; blockKeywords := None;
     blockSubreddits := None; blockDomains := None |}.

(** Rules [funny] (community) and [sale] (keyword), both enabled. *)
Definition funny_and_sale : engine :=
  {| __user_bans := [];
     __subreddit_bans := ["funny"];
     __keyword_bans := ["sale"];
     __domain_bans := [];
     __logging_enabled := true;
     __filter_users := false;
     __filter_keywords := true;
     __filter_subreddits := true;
     __filter_domains := false;
     __filtered_count := 0;
     __current_url := href listing |}.

Definition nothing_saved : ChromeStorage.t :=
  {| ChromeStorage.local_items := ∅; ChromeStorage.sync_items := ∅ |}.

(** The popup with its four text areas empty, every filter switched on and
    synchronisation off. *)
Definition empty_lists : Popup.form :=
  {| Popup.userList := "";
     Popup.keywordList := "";
     Popup.subredditList := "";
     Popup.domainList := "";
     Popup.loggingEnabled := false;
     Popup.filterUsers := true;
     Popup.filterKeywords := true;
     Popup.filterSubreddits := true;
     Popup.filterDomains := true;
     Popup.enableSync := false |}.

(** The same popup with one domain rule. *)
Definition one_domain : Popup.form :=
  {| Popup.userList := "";
     Popup.keywordList := "";
     Popup.subredditList := "";
     Popup.domainList := "example.com";
     Popup.loggingEnabled := false;
     Popup.filterUsers := true;
     Popup.filterKeywords := true;
     Popup.filterSubreddits := true;
     Popup.filterDomains := true;
     Popup.enableSync := false |}.

(** One author rule, saved with synchronisation on, then with it off. *)
Definition bob_synced : Popup.form :=
  {| Popup.userList := "bob";
     Popup.keywordList := "";
     Popup.subredditList := "";
     Popup.domainList := "";
     Popup.loggingEnabled := false;
     Popup.filterUsers := true;
     Popup.filterKeywords := false;
     Popup.filterSubreddits := false;
     Popup.filterDomains := false;
     Popup.enableSync := true |}.

Definition bob_local : Popup.form :=
  {| Popup.userList := "bob";
     Popup.keywordList := "";
     Popup.subredditList := "";
     Popup.domainList := "";
     Popup.loggingEnabled := false;
     Popup.filterUsers := true;
     Popup.filterKeywords := false;
     Popup.filterSubreddits := false;
     Popup.filterDomains := false;
     Popup.enableSync := false |}.

(** Storage after the popup saved the form. *)
Definition saved (f : Popup.form) : ChromeStorage.t :=
  Popup.exec (Popup._data_save f) nothing_saved.

End Examples.

(** ** The change watcher ([_dom_changes_observe]) *)

Module Watcher.
Import Dom Content.

(** A mutation record, as far as the observer reads it:
    [_mutation.addedNodes.length]. *)
Record mutation := { addedNodes : nat }.

(** The variable [_debounce_timeout] of the closure, the timers of the
    script in the timer table of the page ([next_timer] is the identifier
    [setTimeout] hands out next; identifiers are positive), and the world
    the timer callback reloads. *)
Record state := {
  _debounce_timeout : option nat;
  next_timer : nat;
  pending : list nat;
  page : world
}.

(** [_dom_changes_observe()]: no timer yet. *)
Definition _dom_changes_observe (first_timer : nat) (w : world) : state :=
  {| _debounce_timeout := None;
     next_timer := first_timer;
     pending := [];
     page := w |}.

(** [clearTimeout(id)]: an identifier that is not pending is ignored. *)
Definition clearTimeout (id : nat) (s : state) : state :=
  {| _debounce_timeout := _debounce_timeout s;
     next_timer := next_timer s;
     pending := List.filter (fun t => negb (t =? id)) (pending s);
     page := page s |}.

(** [_debounce_timeout = setTimeout(..., 100)]. *)
Definition setTimeout (s : state) : state :=
  {| _debounce_timeout := Some (next_timer s);
     next_timer := S (next_timer s);
     pending := pending s ++ [next_timer s];
     page := page s |}.

(** The callback of the [MutationObserver]. *)
Definition on_mutations (_mutations : list mutation) (s : state) : state :=
  if existsb (fun _mutation => negb (addedNodes _mutation =? 0)) _mutations
  then
    setTimeout
      match _debounce_timeout s with
      | Some (S id) => clearTimeout (S id) s
      | _ => s
      end
  else s.

(** The timer [id] expires, 100 ms after it was set: its callback calls
    [_options_get_saved()].  A timer that is not pending does not expire. *)
Definition on_timer (id : nat) (st : ChromeStorage.t) (loc : location) (s : state)
    : state :=
  if existsb (Nat.eqb id) (pending s)
  then {| _debounce_timeout := _debounce_timeout s;
          next_timer := next_timer s;
          pending := List.filter (fun t => negb (t =? id)) (pending s);
          page := (_options_get_saved st loc (page s)).1 |}
  else s.

(** What happens to the watcher, one event at a time. *)
Inductive event :=
  | Mutations (_mutations : list mutation)
  | Expire (id : nat) (st : ChromeStorage.t) (loc : location).

Definition step (s : state) (ev : event) : state :=
  match ev with
  | Mutations ms => on_mutations ms s
  | Expire id st loc => on_timer id st loc s
  end.

Definition run (evs : list event) (s : state) : state := fold_left step evs s.

(** A batch that adds at least one node. *)
Definition adds_nodes (ev : event) : bool :=
  match ev with
  | Mutations ms => existsb (fun m => negb (addedNodes m =? 0)) ms
  | Expire _ _ _ => false
  end.

Definition is_mutations (ev : event) : bool :=
  match ev with
  | Mutations _ => true
  | Expire _ _ _ => false
  end.

End Watcher.

(** ** The popup: loading the form and the cleanup buttons *)

Module PopupFlow.
Import Str Popup.

(** [_data_load]: the check box of [enableSync] is set from the local area
    (checked when nothing is stored); the nine keys of [__storage_keys] are
    read from the area it selects; a field whose key is not stored keeps the
    value it has in the form. *)
Definition _data_load (st : ChromeStorage.t) (f : form) : form :=
  let _enable_sync :=
    default true (ChromeStorage.get_bool (ChromeStorage.local_items st) "enableSync") in
  let _result :=
    ChromeStorage.items (if _enable_sync then ChromeStorage.sync else ChromeStorage.local) st in
  let text (k : string) (old : string) :=
    match ChromeStorage.get_array _result k with
    | Some l => join_lines l
    | None => old
    end in
  let box (k : string) (old : bool) := default old (ChromeStorage.get_bool _result k) in
  {| userList := text "hiddenUsers" (userList f);
     keywordList := text "hiddenKeywords" (keywordList f);
     subredditList := text "hiddenSubreddits" (subredditList f);
     domainList := text "hiddenDomains" (domainList f);
     loggingEnabled := box "loggingEnabled" (loggingEnabled f);
     filterUsers := box "filterUsers" (filterUsers f);
     filterKeywords := box "filterKeywords" (filterKeywords f);
     filterSubreddits := box "filterSubreddits" (filterSubreddits f);
     filterDomains := box "filterDomains" (filterDomains f);
     enableSync := _enable_sync |}.

(** The array of a response with status 200; [None] stands for
    [!_response || _response.status != 200].  The content script sends an
    array with every status 200. *)
Definition accepted (_response : option (gmap string value)) : option (list string) :=
  match _response with
  | Some r =>
      match r !! "status", r !! "message" with
      | Some (VNumber 200), Some (VArray l) => Some l
      | _, _ => None
      end
  | None => None
  end.

(** [a.includes(x)] on an array of strings. *)
Definition array_includes (a : list string) (x : string) : bool :=
  existsb (String.eqb x) a.

Definition with_userList (s : string) (f : form) : form :=
  {| userList := s;
     keywordList := keywordList f;
     subredditList := subredditList f;
     domainList := domainList f;
     loggingEnabled := loggingEnabled f;
     filterUsers := filterUsers f;
     filterKeywords := filterKeywords f;
     filterSubreddits := filterSubreddits f;
     filterDomains := filterDomains f;
     enableSync := enableSync f |}.

Definition with_keywordList (s : string) (f : form) : form :=
  {| userList := userList f;
     keywordList := s;
     subredditList := subredditList f;
     domainList := domainList f;
     loggingEnabled := loggingEnabled f;
     filterUsers := filterUsers f;
     filterKeywords := filterKeywords f;
     filterSubreddits := filterSubreddits f;
     filterDomains := filterDomains f;
     enableSync := enableSync f |}.

Definition with_subredditList (s : string) (f : form) : form :=
  {| userList := userList f;
     keywordList := keywordList f;
     subredditList := s;
     domainList := domainList f;
     loggingEnabled := loggingEnabled f;
     filterUsers := filterUsers f;
     filterKeywords := filterKeywords f;
     filterSubreddits := filterSubreddits f;
     filterDomains := filterDomains f;
     enableSync := enableSync f |}.

(** The popup after a cleanup button: the form, the text under the users
    button, and the storage. *)
Record popup := {
  fields : form;
  cleanupUsersDescription : string;
  storage : ChromeStorage.t
}.

(** The callback of [sendMessage] in [_cleanup_users_execute]. *)
Definition _cleanup_users_execute (_response : option (gmap string value)) (p : popup)
    : popup :=
  match accepted _response with
  | None =>
      {| fields := fields p;
         cleanupUsersDescription := "Can only filter when window is on a reddit thread";
         storage := storage p |}
  | Some _found_users =>
      let _users_array := lines (userList (fields p)) in
      let _combined_users_array := _found_users ++ _users_array in
      {| fields := with_userList (join_lines _combined_users_array) (fields p);
         cleanupUsersDescription := cleanupUsersDescription p;
         storage :=
           ChromeStorage.set (ChromeStorage.active_area (storage p))
             [("hiddenUsers", VArray _combined_users_array)] (storage p) |}
  end.

(** The callback of [sendMessage] in [_cleanup_keywords_execute]. *)
Definition _cleanup_keywords_execute (_response : option (gmap string value)) (p : popup)
    : popup :=
  match accepted _response with
  | None => p
  | Some _found_keywords =>
      let _keywords_array := lines (keywordList (fields p)) in
      let _filtered_keywords :=
        List.filter (fun k => negb (array_includes _found_keywords (toLowerCase k)))
                    _keywords_array in
      {| fields := with_keywordList (join_lines _filtered_keywords) (fields p);
         cleanupUsersDescription := cleanupUsersDescription p;
         storage :=
           ChromeStorage.set (ChromeStorage.active_area (storage p))
             [("hiddenKeywords", VArray _filtered_keywords)] (storage p) |}
  end.

(** The callback of [sendMessage] in [_cleanup_subreddits_execute]. *)
Definition _cleanup_subreddits_execute (_response : option (gmap string value)) (p : popup)
    : popup :=
  match accepted _response with
  | None => p
  | Some _found_subreddits =>
      let _subreddits_array := lines (subredditList (fields p)) in
      let _filtered_subreddits :=
        List.filter (fun s => negb (array_includes _found_subreddits (toLowerCase s)))
                    _subreddits_array in
      {| fields := with_subredditList (join_lines _filtered_subreddits) (fields p);
         cleanupUsersDescription := cleanupUsersDescription p;
         storage :=
           ChromeStorage.set (ChromeStorage.active_area (storage p))
             [("hiddenSubreddits", VArray _filtered_subreddits)] (storage p) |}
  end.

(** The response the content script gave to the request, if any. *)
Definition last_response (w : Content.world) : option (gmap string value) :=
  last (Content.responses w).

End PopupFlow.

(** ** More pages used as examples *)

Module Cases.
Import Dom Content.

(** The author rule [alice], enabled, and nothing else. *)
Definition ban_alice : engine :=
  {| __user_bans := ["alice"];
     __subreddit_bans := [];
     __keyword_bans := [];
     __domain_bans := [];
     __logging_enabled := true;
     __filter_users := true;
     __filter_keywords := false;
     __filter_subreddits := false;
     __filter_domains := false;
     __filtered_count := 0;
     __current_url := href Examples.thread |}.

(** A thread: a post by carol, comments by alice and by carol. *)
Definition thread_of_three : world :=
  set_vars ban_alice
    (Examples.fresh Examples.thread
       [Examples.post (Some "r/funny") (Some "Big Sale Today") (Some "carol") (Some "i.redd.it");
        Examples.comment (Some "alice");
        Examples.comment (Some "carol")]).

(** A listing: a post of r/funny about a sale, and a post of r/pics. *)
Definition listing_of_two : world :=
  set_vars Examples.funny_and_sale
    (Examples.fresh Examples.listing
       [Examples.post (Some "r/Funny") (Some "Big Sale Today") (Some "bob") (Some "i.redd.it");
        Examples.post (Some "r/pics") (Some "A picture") (Some "alice") (Some "i.redd.it")]).

(** The record of the rules [funny] and [sale], logging on. *)
Definition funny_and_sale_stored : storage_result :=
  {| hiddenUsers := Some [];
     hiddenKeywords := Some ["Sale"];
     hiddenSubreddits := Some ["r/Funny"];
     hiddenDomains := Some [];
     loggingEnabled := Some true;
     filterUsers := Some false;
     filterKeywords := Some true;
     filterSubreddits := Some true;
     filterDomains := Some false;
     blockUsers := None; blockKeywords := None;
     blockSubreddits := None; blockDomains := None |}.

(** The keyword rule [cats], enabled, on a listing of one post. *)
Definition ban_cats : engine :=
  {| __user_bans := [];
     __subreddit_bans := [];
     __keyword_bans := ["cats"];
     __domain_bans := [];
     __logging_enabled := false;
     __filter_users := false;
     __filter_keywords := true;
     __filter_subreddits := false;
     __filter_domains := false;
     __filtered_count := 0;
     __current_url := href Examples.listing |}.

Definition listing_of_one : world :=
  set_vars ban_cats
    (Examples.fresh Examples.listing
       [Examples.post (Some "r/pics") (Some "A picture") (Some "alice") (Some "i.redd.it")]).

(** The community rules [funny] and [pics], enabled, on a listing of one
    post of r/Funny. *)
Definition ban_funny_pics : engine :=
  {| __user_bans := [];
     __subreddit_bans := ["funny"; "pics"];
     __keyword_bans := [];
     __domain_bans := [];
     __logging_enabled := false;
     __filter_users := false;
     __filter_keywords := false;
     __filter_subreddits := true;
     __filter_domains := false;
     __filtered_count := 0;
     __current_url := href Examples.listing |}.

Definition listing_of_funny : world :=
  set_vars ban_funny_pics
    (Examples.fresh Examples.listing
       [Examples.post (Some "r/Funny") (Some "Big Sale Today") (Some "bob")
                      (Some "i.redd.it")]).

End Cases.

(** ** Bare hosts *)

Module Host.
Import Normalizer.

(** No character of the string ends a host: none is [/], [?] or [#]. *)
Fixpoint bare (s : string) : bool :=
  match s with
  | EmptyString => true
  | String c r => host_char c && bare r
  end.

(** The string is empty or starts with [/], [?] or [#]. *)
Definition ends_host (s : string) : bool :=
  match s with
  | EmptyString => true
  | String c _ => negb (host_char c)
  end.

End Host.

(** ** Lines *)

Module Lines.

(** The string holds no newline. *)
Fixpoint one_line (s : string) : bool :=
  match s with
  | EmptyString => true
  | String c r => negb (Ascii.eqb c "010"%char) && one_line r
  end.

End Lines.

(** ** The invariant of the change watcher *)

Module WatcherInv.
Import Watcher.

(** Timer identifiers are positive and below the next one; without a
    remembered timer none is pending; with one, it is the only one that can
    be pending. *)
Definition inv (s : state) : Prop :=
  0 < next_timer s /\
  match _debounce_timeout s with
  | None => pending s = []
  | Some id => 0 < id < next_timer s /\ (pending s = [] \/ pending s = [id])
  end.

End WatcherInv.

(** ** The background service worker *)

Module Background.

(** [Number.prototype.toString] on a natural number: its decimal digits. *)
Fixpoint digits (fuel n : nat) (acc : string) : string :=
  match fuel with
  | 0 => acc
  | S fuel' =>
      let acc' := String (ascii_of_nat (48 + n mod 10)) acc in
      if n / 10 =? 0 then acc' else digits fuel' (n / 10) acc'
  end.

Definition toString (n : nat) : string := digits (S n) n EmptyString.

(** The text of the badge for a count. *)
Definition badge_text (_count : nat) : string :=
  if 0 <? _count
  then if 999 <? _count then "999+" else toString _count
  else EmptyString.

(** A message and its sender, as far as the listener reads them;
    [count] is [None] when the message has no such field, [tab] is [None]
    when the sender is not a tab. *)
Record message := { action : string; count : option nat }.
Record sender := { tab : option nat }.

(** The text [chrome.action.setBadgeText] last set for each tab. *)
Abbreviation badges := (gmap nat string).

(** The listener of [chrome.runtime.onMessage]: the badges and whether
    [_send_response] was called; [None] is the [TypeError] of
    [_sender.tab.id] on a sender without tab. *)
Definition on_message (_request : message) (_sender : sender) (b : badges)
    : option (badges * bool) :=
  if String.eqb (action _request) "updateBadge"
  then match tab _sender with
       | None => None
       | Some _tab_id =>
           let _count := default 0 (count _request) in
           Some (<[_tab_id := badge_text _count]> b, true)
       end
  else Some (b, false).

(** The listener of [chrome.tabs.onRemoved]. *)
Definition on_removed (_tab_id : nat) (b : badges) : badges :=
  <[_tab_id := EmptyString]> b.

(** The listener of [chrome.tabs.onUpdated]; [url] is [None] when the tab
    has no URL. *)
Definition on_updated (_tab_id : nat) (status : option string) (url : option string)
    (b : badges) : badges :=
  match status, url with
  | Some st, Some u =>
      if String.eqb st "loading" && negb (String.eqb u EmptyString) &&
         negb (Str.includes u "reddit.com")
      then <[_tab_id := EmptyString]> b
      else b
  | _, _ => b
  end.

(** The badge messages of the content script of one tab, delivered in the
    order they were sent. *)
Definition deliver (counts : list nat) (_tab_id : nat) (b : badges) : badges :=
  fold_left
    (fun b c =>
       match on_message {| action := "updateBadge"; count := Some c |}
                        {| tab := Some _tab_id |} b with
       | Some (b', _) => b'
       | None => b
       end)
    counts b.

End Background.

(** ** What a completed pass does to each element *)

Module Report.
Import Dom Content Scan.






End Report.
(** * Properties *)

(** ** Strings *)

Section StringFacts.
Import Str.

Lemma lower_char_idem c : lower_char (lower_char c) = lower_char c.
Proof. by destruct c as [[] [] [] [] [] [] [] []]. Qed.

Lemma is_space_lower_char c : is_space (lower_char c) = is_space c.
Proof. by destruct c as [[] [] [] [] [] [] [] []]. Qed.

Lemma toLowerCase_idem s : toLowerCase (toLowerCase s) = toLowerCase s.
Proof.
  induction s as [|c r IH]; simpl; [done|].
  by rewrite lower_char_idem, IH.
Qed.

Lemma toLowerCase_empty s : toLowerCase s = EmptyString -> s = EmptyString.
Proof. by destruct s. Qed.

Lemma slice_toLowerCase n s : slice n (toLowerCase s) = toLowerCase (slice n s).
Proof.
  revert s; induction n as [|n IH]; intros [|c r]; simpl; auto.
Qed.

Lemma trim_start_toLowerCase s :
  trim_start (toLowerCase s) = toLowerCase (trim_start s).
Proof.
  induction s as [|c r IH]; simpl; [done|].
  rewrite is_space_lower_char. by destruct (is_space c).
Qed.

Lemma trim_end_toLowerCase s :
  trim_end (toLowerCase s) = toLowerCase (trim_end s).
Proof.
  induction s as [|c r IH]; simpl; [done|].
  rewrite IH, is_space_lower_char.
  destruct (trim_end r); simpl; [by destruct (is_space c)|done].
Qed.

Lemma trim_toLowerCase s : trim (toLowerCase s) = toLowerCase (trim s).
Proof. unfold trim. by rewrite trim_start_toLowerCase, trim_end_toLowerCase. Qed.

(** The test [s.length >= n && s.substring(0, n) == p] of the source is
    [startsWith] when [n] is the length of [p]. *)
Lemma prefix_test p s :
  (String.length p <=? String.length s) && String.eqb (substring0 (String.length p) s) p
  = starts_with p s.
Proof.
  revert s; induction p as [|a p IH]; intros [|b s]; simpl; try done.
  rewrite <- IH.
  destruct (Ascii.eqb_spec b a) as [->|Hne].
  - rewrite Ascii.eqb_refl. done.
  - assert (Ascii.eqb a b = false) as ->.
    { apply Ascii.eqb_neq. congruence. }
    simpl. apply andb_false_r.
Qed.


End StringFacts.

(** ** The normaliser *)

Section NormalizerFacts.
Import Str Normalizer.

Lemma host_char_lower_char c : host_char (lower_char c) = host_char c.
Proof. by destruct c as [[] [] [] [] [] [] [] []]. Qed.

Lemma line_terminator_lower_char c : line_terminator (lower_char c) = line_terminator c.
Proof. by destruct c as [[] [] [] [] [] [] [] []]. Qed.

Lemma no_line_terminator_toLowerCase s :
  no_line_terminator (toLowerCase s) = no_line_terminator s.
Proof.
  induction s as [|c r IH]; simpl; [done|].
  by rewrite line_terminator_lower_char, IH.
Qed.

Lemma span_host_toLowerCase s :
  span_host (toLowerCase s)
  = (toLowerCase (span_host s).1, toLowerCase (span_host s).2).
Proof.
  induction s as [|c r IH]; simpl; [done|].
  rewrite host_char_lower_char. destruct (host_char c); [|done].
  rewrite IH. by destruct (span_host r).
Qed.

Lemma match_host_toLowerCase s :
  match_host (toLowerCase s) = toLowerCase <$> match_host s.
Proof.
  unfold match_host. rewrite span_host_toLowerCase.
  destruct (span_host s) as [g t]; simpl.
  destruct g; simpl; [done|].
  rewrite no_line_terminator_toLowerCase. by destruct (no_line_terminator t).
Qed.

Lemma strip_www_toLowerCase s :
  strip_www (toLowerCase s) = toLowerCase <$> strip_www s.
Proof.
  unfold strip_www. rewrite toLowerCase_idem, slice_toLowerCase.
  by destruct (starts_with _ _).
Qed.

Lemma strip_scheme_toLowerCase s :
  strip_scheme (toLowerCase s) = toLowerCase <$> strip_scheme s.
Proof.
  unfold strip_scheme. rewrite toLowerCase_idem, !slice_toLowerCase.
  by repeat destruct (starts_with _ _).
Qed.

Lemma match_www_host_toLowerCase s :
  match_www_host (toLowerCase s) = toLowerCase <$> match_www_host s.
Proof.
  unfold match_www_host. rewrite strip_www_toLowerCase.
  destruct (strip_www s) as [r|]; simpl; rewrite ?match_host_toLowerCase; [|done].
  by destruct (match_host r).
Qed.

Lemma pattern_exec_toLowerCase s :
  pattern_exec (toLowerCase s) = toLowerCase <$> pattern_exec s.
Proof.
  unfold pattern_exec. rewrite strip_scheme_toLowerCase.
  destruct (strip_scheme s) as [r|]; simpl; rewrite ?match_www_host_toLowerCase; [|done].
  by destruct (match_www_host r).
Qed.

(** The group is a run of host characters: matched again it is the group. *)
Lemma span_host_group s : span_host (span_host s).1 = ((span_host s).1, EmptyString).
Proof.
  induction s as [|c r IH]; simpl; [done|].
  destruct (host_char c) eqn:Hc; [|done].
  destruct (span_host r) as [g t]; simpl in *. by rewrite Hc, IH.
Qed.

Lemma match_host_group s g : match_host s = Some g -> match_host g = Some g.
Proof.
  unfold match_host. pose proof (span_host_group s) as Hg.
  destruct (span_host s) as [g' t]; simpl in Hg.
  destruct g' as [|c g']; [done|].
  destruct (no_line_terminator t); [|done].
  intros [= <-]. by rewrite Hg.
Qed.

Lemma match_www_host_group s g : match_www_host s = Some g -> match_host g = Some g.
Proof.
  unfold match_www_host.
  destruct (strip_www s) as [r|]; [|apply match_host_group].
  destruct (match_host r) eqn:Hr; [|apply match_host_group].
  intros [= <-]. by eapply match_host_group.
Qed.

Lemma pattern_exec_group s g : pattern_exec s = Some g -> match_host g = Some g.
Proof.
  unfold pattern_exec.
  destruct (strip_scheme s) as [r|]; [|apply match_www_host_group].
  destruct (match_www_host r) eqn:Hr; [|apply match_www_host_group].
  intros [= <-]. by eapply match_www_host_group.
Qed.

Lemma clean_user_test s :
  clean_user s = if starts_with "u/" s then slice 2 s else s.
Proof. unfold clean_user. by rewrite <- (prefix_test "u/" s). Qed.

Lemma clean_subreddit_test s :
  clean_subreddit s = toLowerCase (if starts_with "r/" s then slice 2 s else s).
Proof. unfold clean_subreddit. by rewrite <- (prefix_test "r/" s). Qed.

Lemma clean_keyword_idem s k : clean_keyword s = Some k -> clean_keyword k = Some k.
Proof.
  unfold clean_keyword.
  destruct (String.eqb_spec (trim s) "") as [|Hne]; [done|].
  intros [= <-]. rewrite trim_toLowerCase, toLowerCase_idem.
  destruct (String.eqb_spec (toLowerCase (trim s)) "") as [He|]; [|done].
  by apply toLowerCase_empty in He.
Qed.

Lemma clean_user_idem s :
  starts_with "u/" (clean_user s) = false -> clean_user (clean_user s) = clean_user s.
Proof. intros H. by rewrite (clean_user_test (clean_user s)), H. Qed.

Lemma clean_subreddit_idem s :
  starts_with "r/" (clean_subreddit s) = false ->
  clean_subreddit (clean_subreddit s) = clean_subreddit s.
Proof.
  intros H. rewrite (clean_subreddit_test (clean_subreddit s)), H.
  unfold clean_subreddit. apply toLowerCase_idem.
Qed.

Lemma clean_domain_idem s :
  strip_scheme (clean_domain s) = None ->
  strip_www (clean_domain s) = None ->
  clean_domain (clean_domain s) = clean_domain s.
Proof.
  intros Hsch Hwww.
  assert (replace_pattern (clean_domain s) = clean_domain s) as Hp.
  { unfold replace_pattern at 1.
    destruct (pattern_exec s) as [g|] eqn:Hs.
    - assert (clean_domain s = toLowerCase g) as Hg.
      { unfold clean_domain, replace_pattern. by rewrite Hs. }
      unfold pattern_exec, match_www_host. rewrite Hsch, Hwww.
      rewrite Hg, match_host_toLowerCase, (pattern_exec_group _ _ Hs). done.
    - assert (clean_domain s = toLowerCase s) as Hg.
      { unfold clean_domain, replace_pattern. by rewrite Hs. }
      rewrite Hg, pattern_exec_toLowerCase, Hs. done. }
  unfold clean_domain at 1. rewrite Hp. apply toLowerCase_idem.
Qed.

End NormalizerFacts.

(** ** The sets after a reload *)

Section RuleSetFacts.
Import Str Normalizer Content.

Lemma has_In s x : JsSet.has s x = true <-> In x s.
Proof.
  unfold JsSet.has. rewrite existsb_exists. split.
  - intros (y & Hy & Heq). apply String.eqb_eq in Heq. by subst.
  - intros Hx. exists x. split; [done|apply String.eqb_refl].
Qed.

Lemma add_In x y s : In y (JsSet.add x s) <-> y = x \/ In y s.
Proof.
  unfold JsSet.add. destruct (JsSet.has s x) eqn:Hx.
  - apply has_In in Hx. split; [by right|]. by intros [->|].
  - rewrite in_app_iff. simpl. split; [intros [|[|[]]]|intros [|]]; auto.
Qed.

(** A member of a set filled by a loop was added by the loop or was there. *)
Lemma loop_In (g : string -> option string) l s y :
  In y (fold_left (fun acc x => match g x with
                                | Some k => JsSet.add k acc
                                | None => acc
                                end) l s) ->
  In y s \/ exists x, In x l /\ g x = Some y.
Proof.
  revert s; induction l as [|a l IH]; intros s; simpl; [by left|].
  intros H. apply IH in H as [H|(x & Hx & Hg)].
  - destruct (g a) as [k|] eqn:Hga; [|by left].
    apply add_In in H as [->|H]; [right|by left]. exists a. by split; [left|].
  - right. exists x. by split; [right|].
Qed.

(** The keyword set after a reload holds lower-case entries that are not
    blank. *)
Lemma load_keywords_kept l k :
  In k (load_keywords l) -> toLowerCase k = k /\ trim k <> EmptyString.
Proof.
  intros H. apply loop_In in H as [[]|(x & _ & Hx)].
  pose proof (clean_keyword_idem _ _ Hx) as Hk.
  unfold clean_keyword in Hx, Hk.
  destruct (String.eqb_spec (trim x) "") as [|_]; [done|]. injection Hx as <-.
  split; [apply toLowerCase_idem|].
  by destruct (String.eqb_spec (trim (toLowerCase x)) "").
Qed.

(** The community and domain sets after a reload hold lower-case entries. *)
Lemma load_subreddits_lower l k : In k (load_subreddits l) -> toLowerCase k = k.
Proof.
  intros H. apply (loop_In (fun x => Some (clean_subreddit x))) in H as [[]|(x & _ & Hx)].
  injection Hx as <-. apply toLowerCase_idem.
Qed.

Lemma load_domains_lower l k : In k (load_domains l) -> toLowerCase k = k.
Proof.
  intros H. apply (loop_In (fun x => Some (clean_domain x))) in H as [[]|(x & _ & Hx)].
  injection Hx as <-. apply toLowerCase_idem.
Qed.

End RuleSetFacts.

Section NormalizerClaims.
Import Str Normalizer.

(** C8, as stated, fails: a second prefix is left in place by the first
    normalisation and removed by the second.  ["u/u/x"] becomes ["u/x"] and
    then ["x"]; ["r/r/Pics"] becomes ["r/pics"] and then ["pics"];
    ["www.www.x.com"] becomes ["www.x.com"] and then ["x.com"]. *)
Lemma normalizer_not_idempotent :
  clean_user (clean_user "u/u/x") <> clean_user "u/u/x" /\
  clean_subreddit (clean_subreddit "r/r/Pics") <> clean_subreddit "r/r/Pics" /\
  clean_domain (clean_domain "www.www.x.com") <> clean_domain "www.www.x.com".
Proof. repeat split; by vm_compute. Qed.

(** C8, amended: the keyword normalisation is idempotent on every entry it
    keeps; the author, community and domain normalisations are idempotent on
    every entry whose normal form does not start again with a prefix they
    remove (["u/"], ["r/"], a scheme or ["www."]). *)
Theorem normalizer_idempotent_without_prefix (s : string) :
  (forall k, clean_keyword s = Some k -> clean_keyword k = Some k) /\
  (starts_with "u/" (clean_user s) = false ->
   clean_user (clean_user s) = clean_user s) /\
  (starts_with "r/" (clean_subreddit s) = false ->
   clean_subreddit (clean_subreddit s) = clean_subreddit s) /\
  (strip_scheme (clean_domain s) = None -> strip_www (clean_domain s) = None ->
   clean_domain (clean_domain s) = clean_domain s).
Proof.
  split; [apply clean_keyword_idem|].
  split; [apply clean_user_idem|].
  split; [apply clean_subreddit_idem|apply clean_domain_idem].
Qed.

Lemma normalizer_idempotent_without_prefix_witness :
  clean_keyword "Sale" = Some "sale" /\
  clean_keyword "sale" = Some "sale" /\
  clean_user (clean_user "u/Sale") = "Sale" /\
  clean_subreddit (clean_subreddit "r/Sale") = "sale" /\
  clean_domain (clean_domain "https://www.Sale.com/now?x=1") = "sale.com".
Proof.
  split; [reflexivity|].
  split; [exact (proj1 (normalizer_idempotent_without_prefix "Sale") "sale" eq_refl)|].
  split; [exact (proj1 (proj2 (normalizer_idempotent_without_prefix "u/Sale")) eq_refl)|].
  split; [exact (proj1 (proj2 (proj2 (normalizer_idempotent_without_prefix "r/Sale"))) eq_refl)|].
  exact (proj2 (proj2 (proj2
    (normalizer_idempotent_without_prefix "https://www.Sale.com/now?x=1"))) eq_refl eq_refl).
Defined.

End NormalizerClaims.

(** ** The matcher *)

Section MatcherFacts.
Import Str Dom Content Matcher.


End MatcherFacts.


(** ** Passes over the page *)

Section ScanFacts.
Import Dom Content Scan.


Lemma element_step_trans a b c :
  element_step a b -> element_step b c -> element_step a c.
Proof.
  intros [->|[Ha ->]] [->|[Hb ->]]; unfold element_step; auto.
Qed.

Lemma element_step_tag a b : element_step a b -> tagName b = tagName a.
Proof. by intros [->|[_ ->]]. Qed.

Lemma element_step_hidden a b :
  element_step a b -> display_none a = true -> b = a.
Proof. intros [->|[Ha ->]] H; [done|congruence]. Qed.

Lemma newly_hidden_refl doc : newly_hidden doc doc = 0.
Proof.
  induction doc as [|el r IH]; simpl; [done|].
  rewrite IH. by destruct (display_none el).
Qed.

Lemma newly_hidden_trans d1 d2 d3 :
  Forall2 element_step d1 d2 -> Forall2 element_step d2 d3 ->
  newly_hidden d1 d3 = newly_hidden d1 d2 + newly_hidden d2 d3.
Proof.
  intros H12; revert d3.
  induction H12 as [|a b r1 r2 Hab _ IH]; intros d3 H23.
  - by inversion H23.
  - inversion H23 as [|? c ? r3 Hbc Hr]; subst. simpl.
    rewrite (IH _ Hr).
    destruct Hab as [->|[Ha ->]], Hbc as [->|[Hb ->]]; simpl in *;
      destruct (display_none a); simpl; try done; try lia.
Qed.

Lemma steps_refl doc : Forall2 element_step doc doc.
Proof. induction doc; constructor; [by left|done]. Qed.

Lemma passed_refl w : passed w w.
Proof.
  split; try done.
  - apply steps_refl.
  - rewrite newly_hidden_refl. lia.
Qed.

Lemma passed_trans w1 w2 w3 : passed w1 w2 -> passed w2 w3 -> passed w1 w3.
Proof.
  intros [R1 D1 C1 B1 P1] [R2 D2 C2 B2 P2]. split.
  - congruence.
  - clear -D1 D2. revert D2. generalize (document w3).
    induction D1 as [|a b r1 r2 Hab _ IH]; intros d3 H23; inversion H23; subst;
      constructor; eauto using element_step_trans.
  - rewrite (newly_hidden_trans _ _ _ D1 D2). lia.
  - congruence.
  - congruence.
Qed.

Lemma hide_step el : element_step el (hide el).
Proof.
  destruct (display_none el) eqn:Hd; [left|by right].
  destruct el; simpl in *; by subst.
Qed.

Lemma alter_hide_steps doc n :
  Forall2 element_step doc (alter hide n doc).
Proof.
  revert n; induction doc as [|el r IH]; intros n; [constructor|].
  destruct n as [|n]; simpl.
  - constructor; [apply hide_step|apply steps_refl].
  - constructor; [by left|apply IH].
Qed.

Lemma alter_hide_count doc n :
  visible doc n = true -> newly_hidden doc (alter hide n doc) = 1.
Proof.
  unfold visible.
  revert n; induction doc as [|el r IH]; intros n; [by destruct n|].
  destruct n as [|n]; simpl.
  - intros Hv. rewrite Hv, newly_hidden_refl. done.
  - intros Hv.
    assert (newly_hidden r (list_alter hide n r) = 1) as -> by exact (IH _ Hv).
    by destruct (display_none el).
Qed.

Lemma passed_hit entry n w :
  visible (document w) n = true -> passed w (hit entry n w).
Proof.
  intros Hv. split; simpl; try done.
  - apply alter_hide_steps.
  - rewrite (alter_hide_count _ _ Hv). lia.
Qed.

Lemma visible_alter_ne doc n m :
  n <> m -> visible (alter hide n doc) m = visible doc m.
Proof. intros Hne. unfold visible. by rewrite list_lookup_alter_ne. Qed.

Lemma visible_alter_eq doc n : visible (alter hide n doc) n = false.
Proof.
  unfold visible. rewrite list_lookup_alter.
  case_decide; [|done].
  destruct (_ !! _); by simpl.
Qed.

(** A callback changes the world by one [hit] at its node, or not at all. *)
Lemma callback_cases decide n w :
  (exists entry, callback decide n w = (hit entry n w, Normal)) \/
  callback decide n w = (w, Normal) \/
  callback decide n w = (w, Throw).
Proof.
  unfold callback. destruct (document w !! n) as [el|]; [|auto].
  destruct (decide (vars w) el); eauto.
Qed.

Lemma forEach_passed decide l w :
  NoDup l -> (forall n, In n l -> visible (document w) n = true) ->
  passed w (forEach (callback decide) l w).1.
Proof.
  revert w; induction l as [|n r IH]; intros w Hnd Hvis; simpl.
  - apply passed_refl.
  - inversion Hnd as [|? ? Hn Hr]; subst.
    destruct (callback_cases decide n w) as [[entry ->]|[->| ->]].
    + eapply passed_trans; [apply passed_hit, Hvis; by left|].
      apply IH; [done|]. intros m Hm. simpl.
      rewrite visible_alter_ne; [apply Hvis; by right|].
      intros ->. by apply Hn, list_elem_of_In.
    + apply IH; [done|]. intros m Hm. apply Hvis. by right.
    + apply passed_refl.
Qed.

(** Nodes outside the list are not touched. *)
Lemma forEach_other decide l w m :
  ~ In m l ->
  document (forEach (callback decide) l w).1 !! m = document w !! m.
Proof.
  revert w; induction l as [|n r IH]; intros w Hm; simpl; [done|].
  destruct (callback_cases decide n w) as [[entry ->]|[->| ->]]; simpl.
  - rewrite IH by (intros H; apply Hm; by right). simpl.
    apply list_lookup_alter_ne. intros ->. apply Hm. by left.
  - apply IH. intros H; apply Hm; by right.
  - done.
Qed.

Lemma select_from_bound sel i doc n : In n (select_from sel i doc) -> i <= n.
Proof.
  revert i; induction doc as [|el r IH]; intros i; simpl; [done|].
  destruct (sel (tagName el)); simpl.
  - intros [<-|H]; [lia|]. apply IH in H. lia.
  - intros H. apply IH in H. lia.
Qed.

Lemma select_from_NoDup sel i doc : NoDup (select_from sel i doc).
Proof.
  revert i; induction doc as [|el r IH]; intros i; simpl; [constructor|].
  destruct (sel (tagName el)); [|apply IH].
  apply NoDup_cons_2; [|apply IH].
  intros H%list_elem_of_In%select_from_bound. lia.
Qed.

Lemma select_from_steps sel i doc doc' :
  Forall2 element_step doc doc' -> select_from sel i doc' = select_from sel i doc.
Proof.
  intros H; revert i; induction H as [|a b r r' Hab _ IH]; intros i; simpl; [done|].
  by rewrite (element_step_tag _ _ Hab), IH.
Qed.

Lemma visible_nodes_NoDup sel doc :
  NoDup (List.filter (visible doc) (querySelectorAll sel doc)).
Proof.
  apply NoDup_ListNoDup, List.NoDup_filter, NoDup_ListNoDup, select_from_NoDup.
Qed.

Lemma visible_nodes_visible sel doc n :
  In n (List.filter (visible doc) (querySelectorAll sel doc)) -> visible doc n = true.
Proof. intros H. by apply filter_In in H as [_ H]. Qed.

End ScanFacts.

Section CallbackFacts.
Import Dom Content Scan.

Lemma post_callback_shape subs kws users doms n w :
  post_callback subs kws users doms n w = callback (post_outcome subs kws users doms) n w.
Proof.
  unfold post_callback, callback, post_outcome.
  destruct (document w !! n) as [el|]; [|done].
  by destruct (post_verdict _ _ _ _ _ el).
Qed.

Lemma comment_callback_shape users n w :
  comment_callback users n w = callback (comment_outcome users) n w.
Proof.
  unfold comment_callback, callback, comment_outcome.
  destruct (document w !! n) as [el|]; [|done].
  by destruct (truthy (author el) && has_attr users (author el)).
Qed.

Lemma forEach_ext f g l w :
  (forall n w, f n w = g n w) -> forEach f l w = forEach g l w.
Proof.
  intros Hfg. revert w; induction l as [|n r IH]; intros w; simpl; [done|].
  rewrite Hfg. destruct (g n w) as [w' []]; [apply IH|done].
Qed.

Lemma rules_eq e e' :
  set_count 0 e' = set_count 0 e ->
  __user_bans e' = __user_bans e /\
  __subreddit_bans e' = __subreddit_bans e /\
  __keyword_bans e' = __keyword_bans e /\
  __domain_bans e' = __domain_bans e /\
  __logging_enabled e' = __logging_enabled e /\
  __filter_users e' = __filter_users e /\
  __filter_keywords e' = __filter_keywords e /\
  __filter_subreddits e' = __filter_subreddits e /\
  __filter_domains e' = __filter_domains e /\
  __current_url e' = __current_url e.
Proof. unfold set_count. intros [= ? ? ? ? ? ? ? ? ? ?]. by repeat split. Qed.

Lemma post_outcome_stable subs kws users doms :
  stable (post_outcome subs kws users doms).
Proof.
  intros e e' el el' He Hel.
  apply rules_eq in He as (_ & _ & _ & _ & _ & Hu & Hk & Hs & Hd & _).
  unfold post_outcome, post_verdict. rewrite Hu, Hk, Hs, Hd.
  by destruct Hel as [->|[_ ->]].
Qed.

Lemma comment_outcome_stable users : stable (comment_outcome users).
Proof.
  intros e e' el el' _ Hel. unfold comment_outcome.
  by destruct Hel as [->|[_ ->]].
Qed.

Lemma forEach_comments_normal users l w :
  (forEach (callback (comment_outcome users)) l w).2 = Normal.
Proof.
  revert w; induction l as [|n r IH]; intros w; simpl; [done|].
  unfold callback at 1. destruct (document w !! n) as [el|]; [|apply IH].
  unfold comment_outcome at 1.
  destruct (truthy (author el) && has_attr users (author el)); apply IH.
Qed.

Lemma _posts_ban_passed subs kws users doms loc w :
  passed w (_posts_ban subs kws users doms loc w).1.
Proof.
  unfold _posts_ban. destruct (thread_page loc); [apply passed_refl|].
  rewrite (forEach_ext _ _ _ _ (post_callback_shape subs kws users doms)).
  apply forEach_passed; [apply visible_nodes_NoDup|apply visible_nodes_visible].
Qed.

Lemma _comments_ban_passed users loc w :
  passed w (_comments_ban users loc w).1.
Proof.
  unfold _comments_ban. destruct (negb (thread_page loc)); [apply passed_refl|].
  destruct (negb (__filter_users (vars w))); [apply passed_refl|].
  rewrite (forEach_ext _ _ _ _ (comment_callback_shape users)).
  apply forEach_passed; [apply visible_nodes_NoDup|apply visible_nodes_visible].
Qed.

Lemma _comments_ban_normal users loc w :
  (_comments_ban users loc w).2 = Normal.
Proof.
  unfold _comments_ban. destruct (negb (thread_page loc)); [done|].
  destruct (negb (__filter_users (vars w))); [done|].
  rewrite (forEach_ext _ _ _ _ (comment_callback_shape users)).
  apply forEach_comments_normal.
Qed.

End CallbackFacts.

Section PassFacts.
Import Dom Content Scan.

Lemma select_from_In sel i doc n el :
  doc !! n = Some el -> sel (tagName el) = true -> In (i + n) (select_from sel i doc).
Proof.
  revert i n; induction doc as [|a r IH]; intros i n Hn Hsel; [done|].
  destruct n as [|n]; simpl in *.
  - injection Hn as ->. rewrite Hsel, Nat.add_0_r. by left.
  - replace (i + S n) with (S i + n) by lia.
    destruct (sel (tagName a)); [right|]; by apply IH.
Qed.

Lemma count_incr_rules e : set_count 0 (count_incr e) = set_count 0 e.
Proof. done. Qed.

(** A faulting element in the list ends the loop with the exception. *)
Lemma forEach_fault d l w n el :
  stable d -> In n l ->
  document w !! n = Some el -> d (vars w) el = Fault ->
  (forEach (callback d) l w).2 = Throw.
Proof.
  intros Hst. revert w el; induction l as [|m r IH]; intros w el Hin Hn Hf; [done|].
  simpl. destruct (decide (m = n)) as [->|Hne].
  - unfold callback. by rewrite Hn, Hf.
  - destruct Hin as [|Hin]; [done|].
    destruct (callback_cases d m w) as [[entry ->]|[->| ->]]; [| |done].
    + apply (IH _ el); [done| |].
      * simpl. by rewrite list_lookup_alter_ne.
      * simpl. rewrite <- Hf. apply Hst; [apply count_incr_rules|by left].
    + by apply (IH _ el).
Qed.

Lemma _posts_ban_fault subs kws users doms loc w n p :
  thread_page loc = false ->
  document w !! n = Some p -> tagName p = shreddit_post -> display_none p = false ->
  post_verdict (vars w) subs kws users doms p = TypeError ->
  (_posts_ban subs kws users doms loc w).2 = Throw.
Proof.
  intros Hloc Hn Htag Hvis Hv. unfold _posts_ban. rewrite Hloc.
  rewrite (forEach_ext _ _ _ _ (post_callback_shape subs kws users doms)).
  apply (forEach_fault _ _ _ n p); [apply post_outcome_stable| |done|].
  - apply filter_In. split.
    + apply (select_from_In is_post 0 _ n p); [done|by rewrite Htag].
    + unfold visible. by rewrite Hn, Hvis.
  - unfold post_outcome. by rewrite Hv.
Qed.

(** The world [_options_process] scans: the variables assigned, the page as
    it was. *)
Lemma _options_process_passed r loc w :
  let w1 := set_vars (options_assign r loc (vars w)) w in
  let w' := (_options_process r loc w).1 in
  set_count 0 (vars w') = set_count 0 (vars w1) /\
  Forall2 element_step (document w) (document w') /\
  __filtered_count (vars w')
  = __filtered_count (vars w1) + newly_hidden (document w) (document w') /\
  responses w' = responses w.
Proof.
  intros w1 w'. subst w'. unfold _options_process. fold w1.
  pose proof (_posts_ban_passed (__subreddit_bans (vars w1)) (__keyword_bans (vars w1))
                (__user_bans (vars w1)) (__domain_bans (vars w1)) loc w1) as H12.
  destruct (_posts_ban _ _ _ _ loc w1) as [w2 c2]; simpl in H12.
  assert (forall w3, passed w1 w3 ->
            set_count 0 (vars w3) = set_count 0 (vars w1) /\
            Forall2 element_step (document w) (document w3) /\
            __filtered_count (vars w3)
            = __filtered_count (vars w1) + newly_hidden (document w) (document w3) /\
            responses w3 = responses w) as Hfin.
  { intros w3 [R D C _ P]. by repeat split. }
  destruct c2; [|by apply Hfin].
  pose proof (_comments_ban_passed (__user_bans (vars w2)) loc w2) as H23.
  destruct (_comments_ban _ loc w2) as [w3 c3]; simpl in H23.
  destruct c3; simpl; apply Hfin; by eapply passed_trans.
Qed.

End PassFacts.

(** ** The cleanup collector and the rule store *)

Section CollectFacts.
Import Dom Content Collect.

Lemma select_all_cons i el r :
  select_from is_post_or_comment i (el :: r)
  = i :: select_from is_post_or_comment (S i) r.
Proof. done. Qed.

Lemma collect_from bans doc pre r acc :
  doc = pre ++ r ->
  fold_left
    (fun _accumulated_bans _comment =>
       let _author := getAttribute author doc _comment in
       if truthy _author && negb (has_attr bans _author)
       then _accumulated_bans ++ [default EmptyString _author]
       else _accumulated_bans)
    (select_from is_post_or_comment (length pre) r) acc
  = acc ++ omap (unfiltered_author bans) r.
Proof.
  revert pre acc; induction r as [|el r IH]; intros pre acc Hdoc.
  - simpl. by rewrite app_nil_r.
  - rewrite select_all_cons. simpl fold_left.
    assert (getAttribute author doc (length pre) = author el) as ->.
    { unfold getAttribute. by rewrite Hdoc, list_lookup_middle. }
    replace (S (length pre)) with (length (pre ++ [el])) by (rewrite length_app; simpl; lia).
    rewrite (IH (pre ++ [el])) by (by rewrite <- app_assoc).
    simpl omap. unfold unfiltered_author at 2.
    destruct (truthy (author el) && negb (has_attr bans (author el))) eqn:Hc; [|done].
    destruct (author el) as [a|]; [|done]. simpl. by rewrite <- app_assoc.
Qed.

(** [_cleanup_get_users] returns, in document order, the author of every
    post and comment whose author is there and not in the author rules: one
    entry per element. *)
Lemma _cleanup_get_users_all w :
  _cleanup_get_users w = omap (unfiltered_author (__user_bans (vars w))) (document w).
Proof.
  unfold _cleanup_get_users, querySelectorAll.
  by rewrite (collect_from _ (document w) [] (document w) []).
Qed.

End CollectFacts.

Section StoreClaims.
Import Str Dom Content Scan Matcher.

(** C2: over a thread whose elements have the authors alice, bob, alice and
    with no author rule, [_cleanup_get_users] returns alice, bob, alice: it
    drops the authors already in the rule set and the missing ones and keeps
    the order, but pushes an author once per element, not once. *)
Theorem cleanup_get_users_repeats_author :
  _cleanup_get_users
    (Examples.fresh Examples.thread
       [Examples.post (Some "r/funny") (Some "A title") (Some "alice") (Some "i.redd.it");
        Examples.comment (Some "bob");
        Examples.comment (Some "alice")])
  = ["alice"; "bob"; "alice"].
Proof. reflexivity. Qed.

(** C3: the popup saved with its four lists empty stores the array [[""]]
    for each list; after the reload the author, community and domain sets
    each hold the empty string.  Only the keyword loop drops it. *)
Theorem reload_keeps_empty_entries :
  let w := (_options_get_saved (Examples.saved Examples.empty_lists) Examples.listing
              (Examples.fresh Examples.listing [])).1 in
  hiddenUsers (storage_get
                 (ChromeStorage.local_items (Examples.saved Examples.empty_lists)))
  = Some [""] /\
  __user_bans (vars w) = [""] /\
  __subreddit_bans (vars w) = [""] /\
  __domain_bans (vars w) = [""] /\
  __keyword_bans (vars w) = [].
Proof. by vm_compute. Qed.

(** C5, as stated, fails: with [filterUsers] on from an earlier reload, a
    reload from a record that holds neither [filterUsers] nor [blockUsers]
    leaves the flag on, where the specification has it [false]. *)
Lemma reload_keeps_flag_of_absent_key :
  let w1 := (_options_process Examples.users_on Examples.listing
               (Examples.fresh Examples.listing [])).1 in
  let w2 := (_options_process Examples.nothing_stored Examples.listing w1).1 in
  __filter_users (vars w2)
  <> Spec.flag_after_reload (filterUsers Examples.nothing_stored)
                            (blockUsers Examples.nothing_stored).
Proof. by vm_compute. Qed.

(** C5, amended: after a reload each flag is the value under its current
    key if that key is stored, else the value under its legacy key if that
    one is stored ([loggingEnabled] has none), else the value the flag had
    before the reload; the scan that follows does not change it.  The flags
    start as [false], so that the first reload of a page gives [false] for
    an absent key. *)
Theorem reload_flags (r : storage_result) (loc : location) (w : world) :
  let e := vars w in
  let e' := vars (_options_process r loc w).1 in
  __logging_enabled e' = default (__logging_enabled e) (loggingEnabled r) /\
  __filter_users e' = default (default (__filter_users e) (blockUsers r)) (filterUsers r) /\
  __filter_keywords e'
  = default (default (__filter_keywords e) (blockKeywords r)) (filterKeywords r) /\
  __filter_subreddits e'
  = default (default (__filter_subreddits e) (blockSubreddits r)) (filterSubreddits r) /\
  __filter_domains e'
  = default (default (__filter_domains e) (blockDomains r)) (filterDomains r) /\
  (forall loc0, e = engine_init loc0 ->
     __logging_enabled e' = Spec.flag_after_reload (loggingEnabled r) None /\
     __filter_users e' = Spec.flag_after_reload (filterUsers r) (blockUsers r) /\
     __filter_keywords e' = Spec.flag_after_reload (filterKeywords r) (blockKeywords r) /\
     __filter_subreddits e'
     = Spec.flag_after_reload (filterSubreddits r) (blockSubreddits r) /\
     __filter_domains e' = Spec.flag_after_reload (filterDomains r) (blockDomains r)).
Proof.
  intros e e'.
  destruct (_options_process_passed r loc w) as (Hr & _).
  apply rules_eq in Hr as (_ & _ & _ & _ & Hl & Hu & Hk & Hs & Hd & _).
  fold e' in Hl, Hu, Hk, Hs, Hd. simpl in Hl, Hu, Hk, Hs, Hd. fold e in Hl, Hu, Hk, Hs, Hd.
  rewrite Hl, Hu, Hk, Hs, Hd. unfold load_flag.
  split; [by destruct (loggingEnabled r)|].
  split; [by destruct (filterUsers r), (blockUsers r)|].
  split; [by destruct (filterKeywords r), (blockKeywords r)|].
  split; [by destruct (filterSubreddits r), (blockSubreddits r)|].
  split; [by destruct (filterDomains r), (blockDomains r)|].
  intros loc0 ->. by repeat split.
Qed.

Lemma reload_flags_witness :
  __filter_users
    (vars (_options_process Examples.users_on Examples.listing
             (Examples.fresh Examples.listing [])).1) = true.
Proof.
  exact (proj1 (proj2 (proj2 (proj2 (proj2 (proj2 (proj2
    (reload_flags Examples.users_on Examples.listing
       (Examples.fresh Examples.listing [])))))) Examples.listing eq_refl))).
Defined.

End StoreClaims.

(** ** Cleanup requests *)

Section CleanupClaims.
Import Str Dom Content Scan.

Lemma response_fields (n : nat) (v : value) :
  let r : gmap string value := list_to_map [("status", VNumber n); ("message", v)] in
  r !! "status" = Some (VNumber n) /\ r !! "message" = Some v /\
  r !! "users" = None /\ r !! "keywords" = None /\ r !! "communities" = None.
Proof. by vm_compute. Qed.

Lemma cleanup_users_normal loc w : (cleanup_users loc w).2 = Normal.
Proof.
  unfold cleanup_users. destruct (negb (thread_page loc)); [done|].
  apply _comments_ban_normal.
Qed.

Lemma _cleanup_request_handle_normal req loc w :
  (_cleanup_request_handle req loc w).2 = Normal.
Proof.
  unfold _cleanup_request_handle.
  destruct (String.eqb (action req) "cleanupUsers"); [|done].
  pose proof (cleanup_users_normal loc w) as H.
  destruct (cleanup_users loc w) as [w1 c]; simpl in H. by subst c.
Qed.

(** C6, as stated, fails: the collected authors of a cleanupUsers request
    (and the rules of the two other requests) are sent in the field
    [message]; the response has no field [users], [keywords] or
    [communities]. *)
Lemma cleanup_response_has_no_users_field :
  exists r,
    responses (_cleanup_request_handle {| action := "cleanupUsers" |} Examples.thread
                 (Examples.fresh Examples.thread [Examples.comment (Some "alice")])).1
    = [r] /\
    r !! "status" = Some (VNumber 200) /\
    r !! "users" = None /\
    r !! "message" = Some (VArray ["alice"]).
Proof. eexists. split; [reflexivity|]. by vm_compute. Qed.

(** C6, amended: a cleanupUsers request outside a thread page is answered
    with status 400; in a thread page with status 200 and the collected
    authors in the field [message]; cleanupKeywords and cleanupSubreddits
    are answered with status 200 and the matched rules in the field
    [message]; each of these requests is answered once, and no request makes
    the handler throw. *)
Theorem cleanup_responses (loc : location) (w : world) :
  let answer (act : string) := (_cleanup_request_handle {| action := act |} loc w).1 in
  (thread_page loc = false ->
   exists r, responses (answer "cleanupUsers") = responses w ++ [r] /\
             r !! "status" = Some (VNumber 400)) /\
  (thread_page loc = true ->
   exists r, responses (answer "cleanupUsers") = responses w ++ [r] /\
             r !! "status" = Some (VNumber 200) /\
             r !! "message" = Some (VArray (_cleanup_get_users w))) /\
  (exists r, responses (answer "cleanupKeywords") = responses w ++ [r] /\
             r !! "status" = Some (VNumber 200) /\
             r !! "message" = Some (VArray (_cleanup_get_keywords w))) /\
  (exists r, responses (answer "cleanupSubreddits") = responses w ++ [r] /\
             r !! "status" = Some (VNumber 200) /\
             r !! "message" = Some (VArray (_cleanup_get_subreddits w))) /\
  (forall req, (_cleanup_request_handle req loc w).2 = Normal).
Proof.
  intros answer. subst answer. repeat split.
  - intros Hloc. eexists. unfold _cleanup_request_handle, cleanup_users; simpl.
    rewrite Hloc; simpl. split; [reflexivity|]. apply response_fields.
  - intros Hloc. eexists. unfold _cleanup_request_handle; simpl.
    pose proof (cleanup_users_normal loc w) as Hn.
    destruct (cleanup_users loc w) as [w1 c] eqn:Hc; simpl in Hn; subst c; simpl.
    unfold cleanup_users in Hc. rewrite Hloc in Hc; simpl in Hc.
    match type of Hc with _comments_ban ?u _ ?w3 = _ =>
      pose proof (passed_responses _ _ (_comments_ban_passed u loc w3)) as Hp
    end.
    rewrite Hc in Hp; simpl in Hp. rewrite Hp.
    split; [reflexivity|]. split; apply response_fields.
  - eexists. split; [reflexivity|]. split; apply response_fields.
  - eexists. split; [reflexivity|]. split; apply response_fields.
  - intros req. apply _cleanup_request_handle_normal.
Qed.

Lemma cleanup_responses_witness :
  (exists r,
     responses (_cleanup_request_handle {| action := "cleanupUsers" |} Examples.listing
                  (Examples.fresh Examples.listing [])).1 = [] ++ [r] /\
     r !! "status" = Some (VNumber 400)) /\
  (exists r,
     responses (_cleanup_request_handle {| action := "cleanupUsers" |} Examples.thread
                  (Examples.fresh Examples.thread [Examples.comment (Some "alice")])).1
     = [] ++ [r] /\
     r !! "status" = Some (VNumber 200) /\
     r !! "message" = Some (VArray ["alice"])).
Proof.
  split.
  - exact (proj1 (cleanup_responses Examples.listing
                    (Examples.fresh Examples.listing [])) eq_refl).
  - exact (proj1 (proj2 (cleanup_responses Examples.thread
                    (Examples.fresh Examples.thread [Examples.comment (Some "alice")])))
                 eq_refl).
Defined.

End CleanupClaims.

(** ** Missing attributes *)

Section MissingAttributeClaims.
Import Str Dom Content Scan Matcher.

(** C9: a visible post without a [domain] attribute, with the domain filter
    on and no other category matching, makes the callback throw
    ([null.toLowerCase()]): the pass ends and no badge update is sent.  And
    a visible post whose [domain] attribute is the empty string is hidden as
    DOMAIN once the popup has been saved with an empty domain list, because
    the reload stores the empty line as a rule. *)
Theorem domain_rule_on_missing_domain :
  let absent := Examples.post (Some "r/pics") (Some "A picture") (Some "alice") None in
  let empty := Examples.post (Some "r/pics") (Some "A picture") (Some "alice") (Some "") in
  let run f p := _options_get_saved (Examples.saved f) Examples.listing
                   (Examples.fresh Examples.listing [p]) in
  post_verdict (vars (run Examples.one_domain absent).1) [] [] [] ["example.com"] absent
  = TypeError /\
  (run Examples.one_domain absent).2 = Throw /\
  badge (run Examples.one_domain absent).1 = [] /\
  __domain_bans (vars (run Examples.empty_lists empty).1) = [""] /\
  post_verdict (vars (run Examples.empty_lists empty).1) [""] [] [""] [""] empty
  = Hide DOMAIN /\
  document (run Examples.empty_lists empty).1 = [hide empty] /\
  __filtered_count (vars (run Examples.empty_lists empty).1) = 1.
Proof. by vm_compute. Qed.

(** C10, as stated, fails for the title: a post of r/funny without a title
    is hidden by the community rule [funny] before the title is looked at,
    and the pass completes. *)
Lemma missing_title_hidden_by_community :
  let p := Examples.post (Some "r/funny") None (Some "bob") (Some "i.redd.it") in
  let w := Examples.fresh Examples.listing [p] in
  post_title p = None /\
  post_verdict Examples.funny_and_sale ["funny"] ["sale"] [] [] p = Hide SUBREDDIT /\
  _posts_ban ["funny"] ["sale"] [] [] Examples.listing
    (set_vars Examples.funny_and_sale w)
  = (hit (LogSubreddit "funny" None) 0 (set_vars Examples.funny_and_sale w), Normal).
Proof. by vm_compute. Qed.

(** C10, amended: for a visible post on a listing page, a missing community
    name makes the callback throw; a missing title makes it throw unless an
    enabled community rule matches the post, which is then hidden as
    SUBREDDIT; and a callback that throws ends the pass of [_posts_ban] with
    the exception. *)
Theorem listing_scan_faults (subs kws users doms : JsSet.t) (loc : location)
    (w : world) (n : nat) (p : element) :
  thread_page loc = false ->
  document w !! n = Some p -> tagName p = shreddit_post -> display_none p = false ->
  let v := post_verdict (vars w) subs kws users doms p in
  (subreddit_prefixed_name p = None -> v = TypeError) /\
  (post_title p = None -> is_Some (subreddit_prefixed_name p) ->
   v = if matches_community (vars w) subs p then Hide SUBREDDIT else TypeError) /\
  (v = TypeError -> (_posts_ban subs kws users doms loc w).2 = Throw).
Proof.
  intros Hloc Hn Htag Hvis v. subst v. repeat split.
  - unfold post_verdict. by intros ->.
  - unfold post_verdict, matches_community. intros -> [full ->].
    by destruct (_ && _).
  - by apply (_posts_ban_fault _ _ _ _ _ _ n p).
Qed.

Lemma listing_scan_faults_witness :
  (_posts_ban ["funny"] ["sale"] [] [] Examples.listing
     (set_vars Examples.funny_and_sale
        (Examples.fresh Examples.listing
           [Examples.post None (Some "Big Sale Today") (Some "bob") None]))).2 = Throw.
Proof.
  refine (let H := listing_scan_faults ["funny"] ["sale"] [] [] Examples.listing
     (set_vars Examples.funny_and_sale
        (Examples.fresh Examples.listing
           [Examples.post None (Some "Big Sale Today") (Some "bob") None]))
     0 (Examples.post None (Some "Big Sale Today") (Some "bob") None)
     eq_refl eq_refl eq_refl eq_refl in _).
  exact (proj2 (proj2 H) (proj1 H eq_refl)).
Defined.

End MissingAttributeClaims.

(** ** Saving the popup *)

Section StorageFacts.
Import ChromeStorage.

Lemma items_with_items a m st : items a (with_items a m st) = m.
Proof. by destruct a. Qed.

Lemma items_with_items_ne a b m st : a <> b -> items b (with_items a m st) = items b st.
Proof. by destruct a, b. Qed.

Lemma items_set_ne a b obj st : a <> b -> items b (set a obj st) = items b st.
Proof. apply items_with_items_ne. Qed.

Lemma items_remove_ne a b keys st : a <> b -> items b (remove a keys st) = items b st.
Proof. apply items_with_items_ne. Qed.

Lemma store_all_notin (obj : list (string * value)) (m : gmap string value) k :
  k ∉ obj.*1 ->
  store_all obj m !! k = m !! k.
Proof.
  unfold store_all.
  revert m; induction obj as [|[k' v'] obj IH]; intros m Hk; simpl; [done|].
  simpl in Hk. apply not_elem_of_cons in Hk as [Hne Hk].
  rewrite IH by done. by apply lookup_insert_ne.
Qed.

Lemma store_all_in (obj : list (string * value)) (m : gmap string value) k v :
  NoDup obj.*1 -> (k, v) ∈ obj ->
  store_all obj m !! k = Some v.
Proof.
  revert m; induction obj as [|[k' v'] obj IH]; intros m Hnd Hin.
  - by apply elem_of_nil in Hin.
  - simpl in Hnd. apply NoDup_cons in Hnd as [Hk' Hnd].
    change (store_all ((k', v') :: obj) m) with (store_all obj (<[k':=v']> m)).
    apply elem_of_cons in Hin as [[= -> ->]|Hin].
    + rewrite store_all_notin by done. apply lookup_insert_eq.
    + by apply IH.
Qed.

Lemma delete_all_notin (keys : list string) (m : gmap string value) k :
  k ∉ keys -> delete_all keys m !! k = m !! k.
Proof.
  unfold delete_all.
  revert m; induction keys as [|k' keys IH]; intros m Hk; simpl; [done|].
  apply not_elem_of_cons in Hk as [Hne Hk].
  rewrite IH by done. by apply lookup_delete_ne.
Qed.

Lemma delete_all_in (keys : list string) (m : gmap string value) k :
  k ∈ keys -> delete_all keys m !! k = None.
Proof.
  revert m; induction keys as [|k' keys IH]; intros m Hin.
  - by apply elem_of_nil in Hin.
  - change (delete_all (k' :: keys) m) with (delete_all keys (delete k' m)).
    destruct (decide (k ∈ keys)) as [Hk|Hk]; [by apply IH|].
    apply elem_of_cons in Hin as [->|Hin]; [|done].
    rewrite delete_all_notin by done. apply lookup_delete_eq.
Qed.

End StorageFacts.

Section SaveClaims.
Import ChromeStorage Popup.

Lemma _data_to_save_keys f : NoDup (_data_to_save f).*1.
Proof. apply (bool_decide_unpack _). by vm_compute. Qed.

Lemma enableSync_kept : "enableSync" ∉ _keys_to_remove.
Proof. apply (bool_decide_unpack _). by vm_compute. Qed.

Lemma enableSync_saved f : ("enableSync", VBool (enableSync f)) ∈ _data_to_save f.
Proof. unfold _data_to_save. do 9 apply list_elem_of_further. apply list_elem_of_here. Qed.

(** C7: [_data_save] makes three storage calls in this order: [enableSync]
    into the local area; the whole record into the area that the check box
    selects (synchronised when checked, local otherwise); the removal of the
    fourteen keys of [_keys_to_remove] (the current keys, [expandImages] and
    the legacy [block...] keys) from the other area.  After them the local
    area holds the flag, the next load reads the selected area, the selected
    area holds every key of the record with the value of the form, and the
    other area holds none of the fourteen keys.  Keys outside the record
    stay in the selected area and keys outside the fourteen stay in the
    other area; [enableSync] is not among the fourteen. *)
Theorem save_effect (f : form) (st : ChromeStorage.t) :
  let st' := exec (_data_save f) st in
  let active := if enableSync f then sync else local in
  let other := if enableSync f then local else sync in
  _data_save f
  = [CallSet local [("enableSync", VBool (enableSync f))];
     CallSet active (_data_to_save f);
     CallRemove other _keys_to_remove] /\
  items local st' !! "enableSync" = Some (VBool (enableSync f)) /\
  active_area st' = active /\
  (forall k v, (k, v) ∈ _data_to_save f -> items active st' !! k = Some v) /\
  (forall k, k ∉ (_data_to_save f).*1 -> items active st' !! k = items active st !! k) /\
  (forall k, k ∈ _keys_to_remove -> items other st' !! k = None) /\
  (forall k, k ∉ _keys_to_remove -> k <> "enableSync" ->
             items other st' !! k = items other st !! k) /\
  (enableSync f = false ->
   items sync st' !! "enableSync" = items sync st !! "enableSync").
Proof.
  intros st' active other.
  assert (items local st' !! "enableSync" = Some (VBool (enableSync f))) as Hflag.
  { subst st'. unfold _data_save, _storage_area_get, _data_migrate, exec.
    destruct (enableSync f) eqn:Hs; cbn -[store_all delete_all _data_to_save _keys_to_remove].
    - rewrite delete_all_notin by apply enableSync_kept.
      apply lookup_insert_eq.
    - apply store_all_in; [apply _data_to_save_keys|].
      pose proof (enableSync_saved f) as Hin. by rewrite Hs in Hin. }
  split; [reflexivity|].
  split; [done|].
  split.
  { unfold active_area, get_bool. change (local_items st') with (items local st').
    rewrite Hflag. by destruct (enableSync f). }
  subst st' active other.
  unfold _data_save, _storage_area_get, _data_migrate, exec.
  destruct (enableSync f) eqn:Hs; cbn -[store_all delete_all _data_to_save _keys_to_remove]; repeat split.
  - intros k v Hin. apply store_all_in; [apply _data_to_save_keys|done].
  - intros k Hk. by apply store_all_notin.
  - intros k Hk. by apply delete_all_in.
  - intros k Hk Hne. rewrite delete_all_notin by done. by apply lookup_insert_ne.
  - done.
  - intros k v Hin. apply store_all_in; [apply _data_to_save_keys|done].
  - intros k Hk. rewrite store_all_notin by done. apply lookup_insert_ne.
    intros <-. apply Hk. by vm_compute; set_solver.
  - intros k Hk. by apply delete_all_in.
  - intros k Hk Hne. by apply delete_all_notin.
  - intros _. apply delete_all_notin, enableSync_kept.
Qed.

(** The popup saved with synchronisation on, then with it off: the author
    list leaves the synchronised area and is in the local area. *)
Lemma save_effect_witness :
  items sync (Examples.saved Examples.bob_synced) !! "hiddenUsers" = Some (VArray ["bob"]) /\
  items sync (exec (_data_save Examples.bob_local) (Examples.saved Examples.bob_synced))
    !! "hiddenUsers" = None /\
  items local (exec (_data_save Examples.bob_local) (Examples.saved Examples.bob_synced))
    !! "hiddenUsers" = Some (VArray ["bob"]).
Proof.
  split; [by vm_compute|].
  split.
  - exact (proj1 (proj2 (proj2 (proj2 (proj2 (proj2
             (save_effect Examples.bob_local (Examples.saved Examples.bob_synced)))))))
           "hiddenUsers" (list_elem_of_here _ _)).
  - exact (proj1 (proj2 (proj2 (proj2
             (save_effect Examples.bob_local (Examples.saved Examples.bob_synced)))))
           "hiddenUsers" (VArray ["bob"]) (list_elem_of_here _ _)).
Defined.

End SaveClaims.

(** ** The counter over passes and reloads *)

Section RescanFacts.
Import Dom Content Scan.

Lemma visible_lookup doc n :
  visible doc n = true -> exists el, doc !! n = Some el /\ display_none el = false.
Proof.
  unfold visible. destruct (doc !! n) as [el|]; [|done].
  intros H. exists el. split; [done|]. by destruct (display_none el).
Qed.

(** An element hidden before a pass is not visible after it. *)
Lemma visible_before doc doc' n :
  Forall2 element_step doc doc' -> visible doc' n = true -> visible doc n = true.
Proof.
  intros Hs Hv. apply visible_lookup in Hv as (el' & Hn' & Hd').
  destruct (Forall2_lookup_r _ _ _ _ _ Hs Hn') as (el & Hn & Hstep).
  unfold visible. rewrite Hn.
  destruct Hstep as [->|[Hd ->]]; [by rewrite Hd'|done].
Qed.

Lemma filter_filter_implied {A} (f g : A -> bool) l :
  (forall x, f x = true -> g x = true) ->
  List.filter f (List.filter g l) = List.filter f l.
Proof.
  intros Hfg. induction l as [|x l IH]; simpl; [done|].
  destruct (g x) eqn:Hg; simpl.
  - by rewrite IH.
  - destruct (f x) eqn:Hf; [|done]. apply Hfg in Hf. congruence.
Qed.

(** Running the loop again on its own result, over the nodes still visible,
    changes nothing and ends the same way. *)
Lemma forEach_again d l w :
  stable d -> NoDup l -> (forall n, In n l -> visible (document w) n = true) ->
  forEach (callback d)
          (List.filter (visible (document (forEach (callback d) l w).1)) l)
          (forEach (callback d) l w).1
  = forEach (callback d) l w.
Proof.
  intros Hst. revert w; induction l as [|n r IH]; intros w Hnd Hvis; [done|].
  apply NoDup_cons in Hnd as [Hn Hnd].
  assert (~ In n r) as Hn' by (by rewrite <- list_elem_of_In).
  destruct (visible_lookup _ _ (Hvis n (or_introl eq_refl))) as (el & Hel & Hdisp).
  assert (forEach (callback d) (n :: r) w
          = match d (vars w) el with
            | Hit entry => forEach (callback d) r (hit entry n w)
            | Skip => forEach (callback d) r w
            | Fault => (w, Throw)
            end) as Hstep.
  { simpl. unfold callback at 1. rewrite Hel. by destruct (d (vars w) el). }
  rewrite Hstep. destruct (d (vars w) el) as [entry| |] eqn:Hd.
  - set (w2 := hit entry n w).
    assert (forall m, In m r -> visible (document w2) m = true) as Hvis2.
    { intros m Hm. simpl. rewrite visible_alter_ne; [apply Hvis; by right|].
      by intros ->. }
    assert (visible (document (forEach (callback d) r w2).1) n = false) as Hgone.
    { unfold visible. rewrite forEach_other by done. apply visible_alter_eq. }
    simpl. rewrite Hgone. by apply IH.
  - assert (document (forEach (callback d) r w).1 !! n = Some el) as Hel'.
    { by rewrite forEach_other. }
    assert (visible (document (forEach (callback d) r w).1) n = true) as Hstay.
    { unfold visible. by rewrite Hel', Hdisp. }
    assert (forall m, In m r -> visible (document w) m = true) as Hvis2.
    { intros m Hm. apply Hvis. by right. }
    simpl. rewrite Hstay. simpl. unfold callback at 1. rewrite Hel'.
    assert (d (vars (forEach (callback d) r w).1) el = Skip) as ->.
    { rewrite <- Hd. apply Hst; [|by left].
      by apply (passed_rules _ _ (forEach_passed d r w Hnd Hvis2)). }
    by apply IH.
  - simpl. rewrite (Hvis n (or_introl eq_refl)). simpl.
    unfold callback. by rewrite Hel, Hd.
Qed.

Lemma scan_passed d sel w : passed w (scan d sel w).1.
Proof.
  apply forEach_passed; [apply visible_nodes_NoDup|apply visible_nodes_visible].
Qed.

Lemma scan_again d sel w :
  stable d -> scan d sel (scan d sel w).1 = scan d sel w.
Proof.
  intros Hst. unfold scan at 1.
  pose proof (passed_document _ _ (scan_passed d sel w)) as Hdoc.
  unfold querySelectorAll. rewrite (select_from_steps _ _ _ _ Hdoc).
  rewrite <- (filter_filter_implied _ (visible (document w)))
    by (intros n; by apply visible_before).
  apply forEach_again; [done|apply visible_nodes_NoDup|apply visible_nodes_visible].
Qed.

Lemma forEach_cons_callback d n r w :
  forEach (callback d) (n :: r) w
  = match document w !! n with
    | Some el =>
        match d (vars w) el with
        | Hit entry => forEach (callback d) r (hit entry n w)
        | Skip => forEach (callback d) r w
        | Fault => (w, Throw)
        end
    | None => forEach (callback d) r w
    end.
Proof.
  simpl. unfold callback at 1. destruct (document w !! n) as [el|]; [|done].
  by destruct (d (vars w) el).
Qed.

(** The loop reads the variables and the page only. *)
Lemma forEach_same_page d l w w' :
  same_page w w' ->
  same_page (forEach (callback d) l w).1 (forEach (callback d) l w').1 /\
  (forEach (callback d) l w').2 = (forEach (callback d) l w).2.
Proof.
  revert w w'; induction l as [|n r IH]; intros w w' [Hv Hd]; [done|].
  rewrite !forEach_cons_callback, Hd, Hv.
  destruct (document w !! n) as [el|]; [|by apply IH].
  destruct (d (vars w) el); [|by apply IH|done].
  apply IH. split; simpl; by rewrite ?Hv, ?Hd.
Qed.

Lemma scan_same_page d sel w w' :
  same_page w w' ->
  same_page (scan d sel w).1 (scan d sel w').1 /\ (scan d sel w').2 = (scan d sel w).2.
Proof.
  intros Hs. unfold scan. rewrite (proj2 Hs). by apply forEach_same_page.
Qed.

Lemma scan_again_same_page d sel w w' :
  stable d -> same_page (scan d sel w).1 w' ->
  same_page (scan d sel w).1 (scan d sel w').1 /\ (scan d sel w').2 = (scan d sel w).2.
Proof.
  intros Hst Hs. destruct (scan_same_page d sel _ _ Hs) as [H1 H2].
  by rewrite (scan_again d sel w Hst) in H1, H2.
Qed.

Lemma _posts_ban_scan subs kws users doms loc w :
  _posts_ban subs kws users doms loc w
  = if thread_page loc then (w, Normal) else scan (post_outcome subs kws users doms) is_post w.
Proof.
  unfold _posts_ban, scan. destruct (thread_page loc); [done|].
  apply forEach_ext, post_callback_shape.
Qed.

Lemma _comments_ban_scan users loc w :
  _comments_ban users loc w
  = if negb (thread_page loc) then (w, Normal)
    else if negb (__filter_users (vars w)) then (w, Normal)
    else scan (comment_outcome users) is_comment w.
Proof.
  unfold _comments_ban, scan. destruct (negb (thread_page loc)); [done|].
  destruct (negb (__filter_users (vars w))); [done|].
  apply forEach_ext, comment_callback_shape.
Qed.

End RescanFacts.

Section ReloadFacts.
Import Dom Content Scan.

Lemma _options_process_passes r loc w :
  _options_process r loc w = passes loc (set_vars (options_assign r loc (vars w)) w).
Proof. reflexivity. Qed.

Lemma options_assign_url r loc e : __current_url (options_assign r loc e) = href loc.
Proof.
  unfold options_assign; simpl.
  by destruct (String.eqb_spec (href loc) (__current_url e)).
Qed.

Lemma load_flag_again cur old v :
  load_flag cur old (load_flag cur old v) = load_flag cur old v.
Proof. by destruct cur, old. Qed.

(** Assigning again from the same record, after a pass, changes nothing. *)
Lemma options_assign_again r loc e e' :
  set_count 0 e' = set_count 0 (options_assign r loc e) ->
  options_assign r loc e' = e'.
Proof.
  intros H. pose proof (options_assign_url r loc e) as Hurl.
  apply rules_eq in H as (Hu & Hs & Hk & Hd & Hl & Hfu & Hfk & Hfs & Hfd & Hc).
  rewrite Hurl in Hc. simpl in Hu, Hs, Hk, Hd, Hl, Hfu, Hfk, Hfs, Hfd.
  unfold options_assign. rewrite Hc, String.eqb_refl; simpl.
  rewrite <- Hu, <- Hs, <- Hk, <- Hd.
  rewrite Hl at 1. rewrite Hfu at 1. rewrite Hfk at 1. rewrite Hfs at 1. rewrite Hfd at 1.
  rewrite !load_flag_again.
  rewrite <- Hl, <- Hfu, <- Hfk, <- Hfs, <- Hfd, <- Hc.
  by destruct e'.
Qed.

Lemma same_page_badge w : same_page w (_badge_update w).
Proof. done. Qed.

Lemma same_page_trans w1 w2 w3 : same_page w1 w2 -> same_page w2 w3 -> same_page w1 w3.
Proof. intros [? ?] [? ?]. split; congruence. Qed.

Lemma same_page_sym w1 w2 : same_page w1 w2 -> same_page w2 w1.
Proof. intros [? ?]. by split. Qed.

Lemma scan_comments_normal users w : (scan (comment_outcome users) is_comment w).2 = Normal.
Proof. apply forEach_comments_normal. Qed.

(** The passes run again on their own result leave the variables and the
    page as they are. *)
Lemma passes_again loc w1 w1' :
  same_page (passes loc w1).1 w1' ->
  same_page (passes loc w1).1 (passes loc w1').1.
Proof.
  unfold passes. rewrite !_posts_ban_scan.
  destruct (thread_page loc) eqn:Hloc.
  - (* a thread page: only the comments are scanned *)
    rewrite !_comments_ban_scan, Hloc; simpl.
    destruct (__filter_users (vars w1)) eqn:Hfu; simpl.
    + pose proof (scan_comments_normal (__user_bans (vars w1)) w1) as Hn.
      pose proof (scan_passed (comment_outcome (__user_bans (vars w1))) is_comment w1) as Hp.
      pose proof (scan_again_same_page (comment_outcome (__user_bans (vars w1)))
                    is_comment w1 w1' (comment_outcome_stable _)) as Hagain.
      destruct (scan (comment_outcome (__user_bans (vars w1))) is_comment w1)
        as [w3 c3]; simpl in *; subst c3; simpl.
      intros Hs. specialize (Hagain Hs).
      destruct (rules_eq _ _ (passed_rules _ _ Hp)) as (Hu & _ & _ & _ & _ & Hf & _).
      destruct Hs as [Hv Hd]. change (vars (_badge_update w3)) with (vars w3) in Hv.
      rewrite Hv, Hf, Hfu, Hu; simpl.
      pose proof (scan_comments_normal (__user_bans (vars w1)) w1') as Hn'.
      destruct (scan (comment_outcome (__user_bans (vars w1))) is_comment w1')
        as [w3' c3']; simpl in *; subst c3'; simpl.
      apply Hagain.
    + intros [Hv Hd]. simpl in Hv, Hd. rewrite Hv, Hfu; simpl. by split.
  - (* a listing page: only the posts are scanned *)
    set (dP := post_outcome (__subreddit_bans (vars w1)) (__keyword_bans (vars w1))
                            (__user_bans (vars w1)) (__domain_bans (vars w1))).
    pose proof (scan_passed dP is_post w1) as Hp.
    pose proof (scan_again_same_page dP is_post w1 w1' (post_outcome_stable _ _ _ _))
      as Hagain.
    destruct (scan dP is_post w1) as [w2 c2] eqn:Hscan; simpl in Hp, Hagain.
    assert (same_page w2 w1' ->
            scan (post_outcome (__subreddit_bans (vars w1')) (__keyword_bans (vars w1'))
                               (__user_bans (vars w1')) (__domain_bans (vars w1')))
                 is_post w1'
            = scan dP is_post w1') as Hsets.
    { intros [Hv _]. rewrite Hv.
      destruct (rules_eq _ _ (passed_rules _ _ Hp)) as (-> & -> & -> & -> & _). done. }
    destruct c2.
    + rewrite !_comments_ban_scan, Hloc; simpl.
      intros Hs. rewrite Hsets by done. destruct (Hagain Hs) as [Hs' Hc'].
      destruct (scan dP is_post w1') as [w2' c2']; simpl in *; subst c2'.
      rewrite !_comments_ban_scan, Hloc; simpl. done.
    + simpl. intros Hs. rewrite Hsets by done. destruct (Hagain Hs) as [Hs' Hc'].
      destruct (scan dP is_post w1') as [w2' c2']; simpl in *; by subst c2'.
Qed.

(** A reload from the same record at the same location, run again on its
    own result, leaves the variables (the counter among them) and the page
    as they are. *)
Lemma _options_process_again r loc w :
  same_page (_options_process r loc w).1
            (_options_process r loc (_options_process r loc w).1).1.
Proof.
  rewrite (_options_process_passes r loc (_options_process r loc w).1).
  rewrite (options_assign_again r loc (vars w))
    by apply (proj1 (_options_process_passed r loc w)).
  rewrite _options_process_passes. apply passes_again. done.
Qed.

End ReloadFacts.

Section CounterClaims.
Import Dom Content Scan.

Lemma cleanup_users_counted loc w :
  let w' := (cleanup_users loc w).1 in
  set_count 0 (vars w') = set_count 0 (vars w) /\
  Forall2 element_step (document w) (document w') /\
  __filtered_count (vars w')
  = __filtered_count (vars w) + newly_hidden (document w) (document w').
Proof.
  unfold cleanup_users. destruct (negb (thread_page loc)); simpl.
  - split; [done|]. split; [apply steps_refl|]. rewrite newly_hidden_refl. lia.
  - match goal with |- context [_comments_ban ?u loc ?w3] =>
      destruct (_comments_ban_passed u loc w3) as [R D C _ _]
    end.
    by repeat split.
Qed.

Lemma _cleanup_request_handle_counted req loc w :
  let w' := (_cleanup_request_handle req loc w).1 in
  set_count 0 (vars w') = set_count 0 (vars w) /\
  Forall2 element_step (document w) (document w') /\
  __filtered_count (vars w')
  = __filtered_count (vars w) + newly_hidden (document w) (document w').
Proof.
  unfold _cleanup_request_handle.
  assert (forall w1 c,
            (if String.eqb (action req) "cleanupUsers"
             then cleanup_users loc w else (w, Normal)) = (w1, c) ->
            c = Normal /\
            set_count 0 (vars w1) = set_count 0 (vars w) /\
            Forall2 element_step (document w) (document w1) /\
            __filtered_count (vars w1)
            = __filtered_count (vars w) + newly_hidden (document w) (document w1)) as H.
  { intros w1 c. destruct (String.eqb (action req) "cleanupUsers").
    - pose proof (cleanup_users_counted loc w) as Hc.
      pose proof (cleanup_users_normal loc w) as Hn.
      intros E. rewrite E in Hc, Hn. by split.
    - intros [= <- <-]. split; [done|]. split; [done|].
      split; [apply steps_refl|]. rewrite newly_hidden_refl. lia. }
  destruct (if String.eqb (action req) "cleanupUsers"
            then cleanup_users loc w else (w, Normal)) as [w1 c].
  destruct (H w1 c eq_refl) as (-> & R & D & C). simpl.
  by destruct (String.eqb (action req) "cleanupKeywords"),
              (String.eqb (action req) "cleanupSubreddits").
Qed.

(** C4: the counter is set to 0 by a reload that finds [window.location.href]
    different from the tracked URL, and by nothing else.  After a reload the
    counter is its value before (0 after a navigation) plus the number of
    elements that were visible before the pass and are hidden after it; an
    element that was already hidden is left as it is and is not counted.  A
    second reload from the same record at the same location changes neither
    the counter nor the page.  A cleanup request adds the number of elements
    it hides and never resets.  So between two navigations the counter never
    decreases. *)
Theorem counter_lifecycle (r : storage_result) (req : request) (loc : location)
    (w : world) :
  let reloaded := (_options_process r loc w).1 in
  let again := (_options_process r loc reloaded).1 in
  let answered := (_cleanup_request_handle req loc w).1 in
  __filtered_count (vars reloaded)
  = (if String.eqb (href loc) (__current_url (vars w))
     then __filtered_count (vars w) else 0)
    + newly_hidden (document w) (document reloaded) /\
  __current_url (vars reloaded) = href loc /\
  Forall2 element_step (document w) (document reloaded) /\
  __filtered_count (vars again) = __filtered_count (vars reloaded) /\
  document again = document reloaded /\
  __filtered_count (vars answered)
  = __filtered_count (vars w) + newly_hidden (document w) (document answered) /\
  __current_url (vars answered) = __current_url (vars w) /\
  Forall2 element_step (document w) (document answered).
Proof.
  intros reloaded again answered.
  destruct (_options_process_passed r loc w) as (R & D & C & _).
  destruct (_options_process_again r loc w) as [Hv Hd].
  destruct (_cleanup_request_handle_counted req loc w) as (R' & D' & C').
  apply rules_eq in R as (_ & _ & _ & _ & _ & _ & _ & _ & _ & U).
  apply rules_eq in R' as (_ & _ & _ & _ & _ & _ & _ & _ & _ & U').
  fold reloaded in C, D, U, Hv, Hd. fold again in Hv, Hd. fold answered in C', D', U'.
  split.
  { rewrite C. simpl. by destruct (String.eqb (href loc) (__current_url (vars w))). }
  split; [rewrite U; apply options_assign_url|].
  split; [done|].
  split; [by rewrite Hv|].
  by repeat split.
Qed.

End CounterClaims.

(** * Further properties of the content script *)

(** ** What a completed pass leaves visible *)

Section PassComplete.
Import Dom Content Scan Matcher.

(** After a loop that completed, the callback skips every node of the list
    that is still visible. *)
Lemma forEach_complete d l w :
  stable d -> NoDup l -> (forall n, In n l -> visible (document w) n = true) ->
  (forEach (callback d) l w).2 = Normal ->
  forall n, In n l -> visible (document (forEach (callback d) l w).1) n = true ->
  exists el, document (forEach (callback d) l w).1 !! n = Some el /\
             d (vars (forEach (callback d) l w).1) el = Skip.
Proof.
  intros Hst. revert w; induction l as [|m r IH]; intros w Hnd Hvis; [done|].
  apply NoDup_cons in Hnd as [Hm Hnd].
  assert (~ In m r) as Hm' by (by rewrite <- list_elem_of_In).
  destruct (visible_lookup _ _ (Hvis m (or_introl eq_refl))) as (el & Hel & Hdisp).
  rewrite forEach_cons_callback, Hel.
  destruct (d (vars w) el) as [entry| |] eqn:Hd; [| |done].
  - assert (forall k, In k r -> visible (document (hit entry m w)) k = true) as Hvis2.
    { intros k Hk. simpl. rewrite visible_alter_ne; [apply Hvis; by right|]. by intros ->. }
    intros Hc n [<-|Hn] Hv; [|by apply IH].
    unfold visible in Hv. rewrite forEach_other in Hv by done.
    fold (visible (document (hit entry m w)) m) in Hv. simpl in Hv.
    by rewrite visible_alter_eq in Hv.
  - assert (forall k, In k r -> visible (document w) k = true) as Hvis2.
    { intros k Hk. apply Hvis. by right. }
    intros Hc n [<-|Hn] Hv; [|by apply IH].
    exists el. split; [by rewrite forEach_other|].
    rewrite <- Hd. apply Hst; [|by left].
    by apply (passed_rules _ _ (forEach_passed d r w Hnd Hvis2)).
Qed.

Lemma select_from_inv sel i doc n :
  In n (select_from sel i doc) ->
  exists el, doc !! (n - i) = Some el /\ sel (tagName el) = true /\ i <= n.
Proof.
  revert i; induction doc as [|a r IH]; intros i; simpl; [done|].
  assert (In n (select_from sel (S i) r) ->
          exists el, (a :: r) !! (n - i) = Some el /\ sel (tagName el) = true /\ i <= n) as Hr.
  { intros H. destruct (IH _ H) as (el & Hel & Hs & Hle).
    exists el. replace (n - i) with (S (n - S i)) by lia. by repeat split; [..|lia]. }
  destruct (sel (tagName a)) eqn:Ha; [|done].
  intros [<-|H]; [|by apply Hr].
  exists a. rewrite Nat.sub_diag. by repeat split.
Qed.

(** A pass over a selector completes with the callback skipping every
    selected element that is still visible, and it leaves the elements the
    selector does not select as they were. *)
Lemma scan_complete d sel w :
  stable d ->
  ((scan d sel w).2 = Normal ->
   forall n el, document (scan d sel w).1 !! n = Some el ->
                sel (tagName el) = true -> display_none el = false ->
                d (vars (scan d sel w).1) el = Skip) /\
  (forall n el, document w !! n = Some el -> sel (tagName el) = false ->
                document (scan d sel w).1 !! n = Some el).
Proof.
  intros Hst. split.
  - intros Hc n el Hn Hsel Hdisp.
    pose proof (passed_document _ _ (scan_passed d sel w)) as Hdoc.
    destruct (Forall2_lookup_r _ _ _ _ _ Hdoc Hn) as (el0 & Hn0 & Hstep).
    assert (visible (document (scan d sel w).1) n = true) as Hv.
    { unfold visible. by rewrite Hn, Hdisp. }
    assert (In n (List.filter (visible (document w))
                              (querySelectorAll sel (document w)))) as Hin.
    { apply filter_In. split; [|by eapply visible_before].
      apply (select_from_In sel 0 _ n el0); [done|].
      by rewrite <- (element_step_tag _ _ Hstep). }
    destruct (forEach_complete d _ w Hst (visible_nodes_NoDup sel (document w))
                (visible_nodes_visible sel (document w)) Hc n Hin Hv)
      as (el' & Hn' & Hskip).
    fold (scan d sel w) in Hn', Hskip. rewrite Hn in Hn'. by injection Hn' as <-.
  - intros n el Hn Hsel. unfold scan. rewrite forEach_other; [done|].
    intros Hin. apply filter_In in Hin as [Hin _].
    apply select_from_inv in Hin as (el' & Hel' & Hs & _).
    rewrite Nat.sub_0_r, Hn in Hel'. injection Hel' as <-. congruence.
Qed.

End PassComplete.

Section PassProperties.
Import Dom Content Scan Matcher.

(** X1: [_comments_ban] never throws; outside a thread page or with the
    user filter off it changes nothing; on a thread page with the filter on,
    every comment that is still visible after it has no author, an empty
    author, or an author outside the given set; and it leaves every post as
    it was. *)
Theorem comments_pass (users : JsSet.t) (loc : location) (w : world) :
  let W := (_comments_ban users loc w).1 in
  (_comments_ban users loc w).2 = Normal /\
  (thread_page loc = false \/ __filter_users (vars w) = false -> W = w) /\
  (thread_page loc = true -> __filter_users (vars w) = true ->
   forall n el, document W !! n = Some el ->
                tagName el = shreddit_comment -> display_none el = false ->
                truthy (author el) && has_attr users (author el) = false) /\
  (forall n el, document w !! n = Some el -> tagName el = shreddit_post ->
                document W !! n = Some el).
Proof.
  intros W. subst W. split; [apply _comments_ban_normal|].
  rewrite _comments_ban_scan.
  destruct (scan_complete (comment_outcome users) is_comment w
              (comment_outcome_stable users)) as [Hdone Hother].
  split; [|split].
  - intros [-> | Hf]; [done|]. destruct (negb (thread_page loc)); [done|]. by rewrite Hf.
  - intros -> ->. simpl. intros n el Hn Htag Hdisp.
    specialize (Hdone (scan_comments_normal users w) n el Hn).
    rewrite Htag in Hdone. specialize (Hdone eq_refl Hdisp).
    unfold comment_outcome in Hdone.
    by destruct (truthy (author el) && has_attr users (author el)).
  - intros n el Hn Htag.
    destruct (negb (thread_page loc)); [done|].
    destruct (negb (__filter_users (vars w))); [done|].
    apply Hother; [done|]. by rewrite Htag.
Qed.

Lemma comments_pass_witness :
  truthy (Some "carol") && has_attr ["alice"] (Some "carol") = false.
Proof.
  exact (proj1 (proj2 (proj2 (comments_pass ["alice"] Examples.thread Cases.thread_of_three)))
           eq_refl eq_refl 2 (Examples.comment (Some "carol")) eq_refl eq_refl eq_refl).
Defined.

(** X2: on a thread page [_posts_ban] does nothing; on a listing page, when
    it completes, every post that is still visible is one the matcher keeps
    under the given rules; and it leaves every comment as it was. *)
Theorem posts_pass (subs kws users doms : JsSet.t) (loc : location) (w : world) :
  let W := (_posts_ban subs kws users doms loc w).1 in
  (thread_page loc = true -> _posts_ban subs kws users doms loc w = (w, Normal)) /\
  (thread_page loc = false -> (_posts_ban subs kws users doms loc w).2 = Normal ->
   forall n el, document W !! n = Some el ->
                tagName el = shreddit_post -> display_none el = false ->
                post_verdict (vars W) subs kws users doms el = Keep) /\
  (forall n el, document w !! n = Some el -> tagName el = shreddit_comment ->
                document W !! n = Some el).
Proof.
  intros W. subst W. rewrite _posts_ban_scan.
  destruct (scan_complete (post_outcome subs kws users doms) is_post w
              (post_outcome_stable subs kws users doms)) as [Hdone Hother].
  split; [by intros ->|]. split.
  - intros ->. intros Hc n el Hn Htag Hdisp.
    specialize (Hdone Hc n el Hn). rewrite Htag in Hdone.
    specialize (Hdone eq_refl Hdisp). unfold post_outcome in Hdone.
    by destruct (post_verdict _ subs kws users doms el).
  - intros n el Hn Htag. destruct (thread_page loc); [done|].
    apply Hother; [done|]. by rewrite Htag.
Qed.

Lemma posts_pass_witness :
  post_verdict
    (vars (_posts_ban ["funny"] ["sale"] [] [] Examples.listing Cases.listing_of_two).1)
    ["funny"] ["sale"] [] []
    (Examples.post (Some "r/pics") (Some "A picture") (Some "alice") (Some "i.redd.it"))
  = Keep.
Proof.
  exact (proj1 (proj2 (posts_pass ["funny"] ["sale"] [] [] Examples.listing
                         Cases.listing_of_two))
           eq_refl eq_refl 1
           (Examples.post (Some "r/pics") (Some "A picture") (Some "alice") (Some "i.redd.it"))
           eq_refl eq_refl eq_refl).
Defined.

End PassProperties.

Section ReloadProperties.
Import Dom Content Scan Matcher.

(** The two ways [_options_process] ends. *)
Lemma passes_cases loc w1 :
  exists w2 c2,
    _posts_ban (__subreddit_bans (vars w1)) (__keyword_bans (vars w1))
               (__user_bans (vars w1)) (__domain_bans (vars w1)) loc w1 = (w2, c2) /\
    ((c2 = Throw /\ passes loc w1 = (w2, Throw)) \/
     (c2 = Normal /\
      exists w3, _comments_ban (__user_bans (vars w2)) loc w2 = (w3, Normal) /\
                 passes loc w1 = (_badge_update w3, Normal))).
Proof.
  unfold passes.
  destruct (_posts_ban _ _ _ _ loc w1) as [w2 c2]. exists w2, c2. split; [done|].
  destruct c2; [right|by left]. split; [done|].
  pose proof (_comments_ban_normal (__user_bans (vars w2)) loc w2) as Hn.
  destruct (_comments_ban _ loc w2) as [w3 c3]. simpl in Hn. subst c3. by exists w3.
Qed.

Lemma _posts_ban_other subs kws users doms loc w n el :
  document w !! n = Some el -> tagName el = shreddit_comment ->
  document (_posts_ban subs kws users doms loc w).1 !! n = Some el.
Proof.
  intros Hn Htag. rewrite _posts_ban_scan. destruct (thread_page loc); [done|].
  apply scan_complete; [apply post_outcome_stable|done|by rewrite Htag].
Qed.

Lemma _comments_ban_other users loc w n el :
  document w !! n = Some el -> tagName el = shreddit_post ->
  document (_comments_ban users loc w).1 !! n = Some el.
Proof.
  intros Hn Htag. rewrite _comments_ban_scan.
  destruct (negb (thread_page loc)); [done|].
  destruct (negb (__filter_users (vars w))); [done|].
  apply scan_complete; [apply comment_outcome_stable|done|by rewrite Htag].
Qed.

(** X3: a reload scans one kind of element: on a thread page it leaves
    every post as it was, on a listing page every comment. *)
Theorem reload_scans_one_kind (r : storage_result) (loc : location) (w : world) :
  let W := (_options_process r loc w).1 in
  (thread_page loc = true ->
   forall n el, document w !! n = Some el -> tagName el = shreddit_post ->
                document W !! n = Some el) /\
  (thread_page loc = false ->
   forall n el, document w !! n = Some el -> tagName el = shreddit_comment ->
                document W !! n = Some el).
Proof.
  intros W. subst W. rewrite _options_process_passes.
  set (w1 := set_vars (options_assign r loc (vars w)) w).
  destruct (passes_cases loc w1) as (w2 & c2 & Hp & Hcases).
  split; intros Hloc n el Hn Htag.
  - assert (w2 = w1) as ->.
    { unfold _posts_ban in Hp. rewrite Hloc in Hp. by injection Hp as <- _. }
    destruct Hcases as [[_ ->]|[_ (w3 & Hc & ->)]]; simpl; [done|].
    pose proof (_comments_ban_other (__user_bans (vars w1)) loc w1 n el Hn Htag) as H.
    by rewrite Hc in H.
  - pose proof (_posts_ban_other (__subreddit_bans (vars w1)) (__keyword_bans (vars w1))
                  (__user_bans (vars w1)) (__domain_bans (vars w1)) loc w1 n el Hn Htag) as H.
    rewrite Hp in H. simpl in H.
    destruct Hcases as [[_ ->]|[_ (w3 & Hc & ->)]]; simpl; [done|].
    unfold _comments_ban in Hc. rewrite Hloc in Hc. simpl in Hc. by injection Hc as <-.
Qed.

Lemma reload_scans_one_kind_witness :
  document (_options_process Examples.users_on Examples.thread Cases.thread_of_three).1 !! 0
  = Some (Examples.post (Some "r/funny") (Some "Big Sale Today") (Some "carol")
                        (Some "i.redd.it")).
Proof.
  exact (proj1 (reload_scans_one_kind Examples.users_on Examples.thread Cases.thread_of_three)
           eq_refl 0 _ eq_refl eq_refl).
Defined.

Lemma forEach_all_skip d l w :
  (forall n, In n l -> exists el, document w !! n = Some el /\ d (vars w) el = Skip) ->
  forEach (callback d) l w = (w, Normal).
Proof.
  induction l as [|n r IH]; intros H; [done|].
  rewrite forEach_cons_callback.
  destruct (H n (or_introl eq_refl)) as (el & -> & ->).
  apply IH. intros m Hm. apply H. by right.
Qed.

(** X4: with the four filters off after the assignment, a reload hides
    nothing, counts nothing and completes, on a thread page always and on a
    listing page when every visible post carries a community name and a
    title (the callback reads both before it looks at the flags of the later
    categories). *)
Theorem filters_off_hide_nothing (r : storage_result) (loc : location) (w : world) :
  let e1 := options_assign r loc (vars w) in
  __filter_subreddits e1 = false -> __filter_keywords e1 = false ->
  __filter_users e1 = false -> __filter_domains e1 = false ->
  (thread_page loc = false ->
   forall n el, document w !! n = Some el -> tagName el = shreddit_post ->
                display_none el = false ->
                is_Some (subreddit_prefixed_name el) /\ is_Some (post_title el)) ->
  _options_process r loc w = (_badge_update (set_vars e1 w), Normal).
Proof.
  intros e1 Hs Hk Hu Hd Hattr. rewrite _options_process_passes. fold e1.
  set (w1 := set_vars e1 w). unfold passes.
  assert (_posts_ban (__subreddit_bans (vars w1)) (__keyword_bans (vars w1))
                     (__user_bans (vars w1)) (__domain_bans (vars w1)) loc w1
          = (w1, Normal)) as ->.
  { rewrite _posts_ban_scan. destruct (thread_page loc) eqn:Hloc; [done|].
    apply forEach_all_skip. intros n Hn.
    apply filter_In in Hn as [Hn Hv].
    apply visible_lookup in Hv as (el & Hel & Hdisp).
    apply select_from_inv in Hn as (el' & Hel' & Htag & _).
    rewrite Nat.sub_0_r in Hel'. simpl in Hel, Hel'. rewrite Hel in Hel'.
    injection Hel' as <-. exists el. split; [done|].
    destruct (Hattr eq_refl n el Hel) as [[full Hfull] [t Ht]];
      [by destruct (tagName el)|done|].
    unfold post_outcome, post_verdict. change (vars w1) with e1.
    by rewrite Hfull, Ht, Hs, Hk, Hu, Hd. }
  rewrite _comments_ban_scan. change (vars w1) with e1. rewrite Hu.
  by destruct (negb (thread_page loc)).
Qed.

Lemma filters_off_hide_nothing_witness :
  document (_options_process Examples.nothing_stored Examples.listing
              (Examples.fresh Examples.listing
                 [Examples.post (Some "r/pics") (Some "A picture") (Some "alice") None])).1
  = [Examples.post (Some "r/pics") (Some "A picture") (Some "alice") None].
Proof.
  assert (thread_page Examples.listing = false ->
          forall n el,
            document (Examples.fresh Examples.listing
              [Examples.post (Some "r/pics") (Some "A picture") (Some "alice") None]) !! n
            = Some el ->
            tagName el = shreddit_post -> display_none el = false ->
            is_Some (subreddit_prefixed_name el) /\ is_Some (post_title el)) as Hattr.
  { intros _ [|[|n]] el Hn Htag Hdisp; [|done..].
    injection Hn as <-. split; by eexists. }
  exact (f_equal (fun x => document x.1)
           (filters_off_hide_nothing Examples.nothing_stored Examples.listing
              (Examples.fresh Examples.listing
                 [Examples.post (Some "r/pics") (Some "A picture") (Some "alice") None])
              eq_refl eq_refl eq_refl eq_refl Hattr)).
Defined.

Lemma _options_process_badge (r : storage_result) (loc : location) (w : world) :
  let W := (_options_process r loc w).1 in
  ((_options_process r loc w).2 = Normal ->
   badge W = badge w ++ [__filtered_count (vars W)]) /\
  ((_options_process r loc w).2 = Throw -> badge W = badge w).
Proof.
  intros W. subst W. rewrite _options_process_passes.
  set (w1 := set_vars (options_assign r loc (vars w)) w).
  destruct (passes_cases loc w1) as (w2 & c2 & Hp & Hcases).
  pose proof (passed_badge _ _ (_posts_ban_passed (__subreddit_bans (vars w1))
                (__keyword_bans (vars w1)) (__user_bans (vars w1))
                (__domain_bans (vars w1)) loc w1)) as H2.
  rewrite Hp in H2. simpl in H2.
  destruct Hcases as [[_ ->]|[_ (w3 & Hc & ->)]]; simpl.
  - split; [done|]. by intros _.
  - pose proof (passed_badge _ _ (_comments_ban_passed (__user_bans (vars w2)) loc w2)) as H3.
    rewrite Hc in H3. simpl in H3. split; [|done]. intros _. by rewrite H3, H2.
Qed.

(** X5: a reload that completes sends the badge one message, with the
    counter as it is after the passes; a reload that throws sends none. *)
Theorem reload_badge (r : storage_result) (loc : location) (w : world) :
  let W := (_options_process r loc w).1 in
  ((_options_process r loc w).2 = Normal ->
   badge W = badge w ++ [__filtered_count (vars W)]) /\
  ((_options_process r loc w).2 = Throw -> badge W = badge w).
Proof. apply _options_process_badge. Qed.

Lemma reload_badge_witness :
  badge (_options_process Cases.funny_and_sale_stored Examples.listing
           Cases.listing_of_two).1 = [1].
Proof.
  exact (proj1 (reload_badge Cases.funny_and_sale_stored Examples.listing
                  Cases.listing_of_two) eq_refl).
Defined.

End ReloadProperties.

Section LoggingProperties.
Import Dom Content Scan.

(** With logging off a loop prints nothing; with logging on it prints one
    line for each element it counts. *)
Lemma forEach_console d l w :
  let W := (forEach (callback d) l w).1 in
  (__logging_enabled (vars w) = false -> console W = console w) /\
  (__logging_enabled (vars w) = true ->
   length (console W) + __filtered_count (vars w)
   = length (console w) + __filtered_count (vars W)).
Proof.
  revert w; induction l as [|n r IH]; intros w; [done|].
  rewrite forEach_cons_callback.
  destruct (document w !! n) as [el|]; [|apply IH].
  destruct (d (vars w) el) as [entry| |]; [|apply IH|done].
  destruct (IH (hit entry n w)) as [Hoff Hon]. simpl in Hoff, Hon. split.
  - intros Hl. rewrite (Hoff Hl). simpl. by rewrite Hl.
  - intros Hl. specialize (Hon Hl). simpl. rewrite Hl in Hon.
    rewrite length_app in Hon. simpl in Hon. lia.
Qed.

Lemma scan_console d sel w :
  let W := (scan d sel w).1 in
  (__logging_enabled (vars w) = false -> console W = console w) /\
  (__logging_enabled (vars w) = true ->
   length (console W) = length (console w) + newly_hidden (document w) (document W)).
Proof.
  intros W. subst W.
  destruct (forEach_console d (List.filter (visible (document w))
              (querySelectorAll sel (document w))) w) as [Hoff Hon].
  fold (scan d sel w) in Hoff, Hon. split; [done|].
  intros Hl. specialize (Hon Hl).
  pose proof (passed_count _ _ (scan_passed d sel w)). lia.
Qed.

(** X6: with logging off after the assignment a reload prints nothing to
    the console; with logging on it prints exactly one line for each element
    it hides. *)
Theorem reload_logging (r : storage_result) (loc : location) (w : world) :
  let W := (_options_process r loc w).1 in
  let logging := default (__logging_enabled (vars w)) (loggingEnabled r) in
  (logging = false -> console W = console w) /\
  (logging = true ->
   length (console W) = length (console w) + newly_hidden (document w) (document W)).
Proof.
  intros W logging. subst W. rewrite _options_process_passes.
  set (w1 := set_vars (options_assign r loc (vars w)) w).
  assert (__logging_enabled (vars w1) = logging) as Hlog.
  { subst logging. simpl. unfold load_flag. by destruct (loggingEnabled r). }
  unfold passes. rewrite _posts_ban_scan.
  set (dP := post_outcome _ _ _ _).
  destruct (thread_page loc) eqn:Hloc.
  - rewrite _comments_ban_scan, Hloc. change (negb true) with false. cbv iota.
    destruct (negb (__filter_users (vars w1))).
    + split; [done|]. intros _. simpl. rewrite newly_hidden_refl. lia.
    + set (dC := comment_outcome _).
      pose proof (scan_comments_normal (__user_bans (vars w1)) w1) as Hn. fold dC in Hn.
      destruct (scan_console dC is_comment w1) as [Hoff Hon]. rewrite Hlog in Hoff, Hon.
      destruct (scan dC is_comment w1) as [w3 c3]. simpl in Hn. subst c3. by split.
  - destruct (scan_console dP is_post w1) as [Hoff Hon]. rewrite Hlog in Hoff, Hon.
    destruct (scan dP is_post w1) as [w2 c2]. simpl in Hoff, Hon.
    destruct c2; [|by split].
    rewrite _comments_ban_scan, Hloc. by split.
Qed.

Lemma reload_logging_witness :
  length (console (_options_process Cases.funny_and_sale_stored Examples.listing
                     Cases.listing_of_two).1) = 1.
Proof.
  exact (proj2 (reload_logging Cases.funny_and_sale_stored Examples.listing
                  Cases.listing_of_two) eq_refl).
Defined.

End LoggingProperties.

(** ** The rule sets after a reload *)

Section RuleSetProperties.
Import Str Normalizer Dom Content Scan.

Lemma add_NoDup x s : NoDup s -> NoDup (JsSet.add x s).
Proof.
  intros Hs. unfold JsSet.add. destruct (JsSet.has s x) eqn:Hx; [done|].
  apply NoDup_app. split; [done|]. split; [|apply NoDup_singleton].
  intros y Hy Hyx%list_elem_of_singleton. subst y.
  apply list_elem_of_In, has_In in Hy. congruence.
Qed.

Lemma loop_NoDup (g : string -> option string) l s :
  NoDup s ->
  NoDup (fold_left (fun acc x => match g x with
                                 | Some k => JsSet.add k acc
                                 | None => acc
                                 end) l s).
Proof.
  revert s; induction l as [|a l IH]; intros s Hs; simpl; [done|].
  apply IH. destruct (g a); [by apply add_NoDup|done].
Qed.

Lemma loop_In_old (g : string -> option string) l s y :
  In y s ->
  In y (fold_left (fun acc x => match g x with
                                | Some k => JsSet.add k acc
                                | None => acc
                                end) l s).
Proof.
  revert s; induction l as [|a l IH]; intros s Hy; simpl; [done|].
  apply IH. destruct (g a); [|done]. apply add_In. by right.
Qed.

Lemma loop_In_new (g : string -> option string) l s x y :
  In x l -> g x = Some y ->
  In y (fold_left (fun acc x => match g x with
                                | Some k => JsSet.add k acc
                                | None => acc
                                end) l s).
Proof.
  revert s; induction l as [|a l IH]; intros s Hx Hg; [done|].
  simpl. destruct Hx as [->|Hx]; [|by apply IH].
  rewrite Hg. apply loop_In_old, add_In. by left.
Qed.

(** The sets a reload assigns, through the scan that follows it. *)
Lemma reload_sets r loc w :
  let e' := vars (_options_process r loc w).1 in
  __user_bans e' = load_users (default [] (hiddenUsers r)) /\
  __keyword_bans e' = load_keywords (default [] (hiddenKeywords r)) /\
  __subreddit_bans e' = load_subreddits (default [] (hiddenSubreddits r)) /\
  __domain_bans e' = load_domains (default [] (hiddenDomains r)).
Proof.
  intros e'. subst e'.
  destruct (_options_process_passed r loc w) as (Hr & _).
  apply rules_eq in Hr as (-> & -> & -> & -> & _). simpl.
  by destruct (hiddenUsers r), (hiddenKeywords r), (hiddenSubreddits r), (hiddenDomains r).
Qed.

(** X7: after a reload no rule set holds an entry twice; every keyword
    rule is lower-case and not blank; every community rule and every domain
    rule is lower-case. *)
Theorem reload_sets_canonical (r : storage_result) (loc : location) (w : world) :
  let e' := vars (_options_process r loc w).1 in
  NoDup (__user_bans e') /\ NoDup (__keyword_bans e') /\
  NoDup (__subreddit_bans e') /\ NoDup (__domain_bans e') /\
  (forall k, In k (__keyword_bans e') -> toLowerCase k = k /\ trim k <> EmptyString) /\
  (forall k, In k (__subreddit_bans e') -> toLowerCase k = k) /\
  (forall k, In k (__domain_bans e') -> toLowerCase k = k).
Proof.
  intros e'. subst e'. destruct (reload_sets r loc w) as (-> & -> & -> & ->).
  split; [apply (loop_NoDup (fun x => Some (clean_user x))), NoDup_nil_2|].
  split; [apply (loop_NoDup clean_keyword), NoDup_nil_2|].
  split; [apply (loop_NoDup (fun x => Some (clean_subreddit x))), NoDup_nil_2|].
  split; [apply (loop_NoDup (fun x => Some (clean_domain x))), NoDup_nil_2|].
  split; [apply load_keywords_kept|].
  split; [apply load_subreddits_lower|apply load_domains_lower].
Qed.

Lemma reload_sets_canonical_witness :
  toLowerCase "sale" = "sale" /\ trim "sale" <> EmptyString.
Proof.
  exact (proj1 (proj2 (proj2 (proj2 (proj2
           (reload_sets_canonical Cases.funny_and_sale_stored Examples.listing
              Cases.listing_of_two)))))
           "sale" (or_introl eq_refl)).
Defined.

(** X8: after a reload a string is an author rule exactly when it is the
    cleaned form of a stored user, a keyword rule exactly when it is the
    lower-cased form of a stored keyword that is not blank, a community rule
    exactly when it is the cleaned form of a stored subreddit, and a domain
    rule exactly when it is the cleaned form of a stored domain; a key that
    is not stored gives the empty set. *)
Theorem reload_sets_members (r : storage_result) (loc : location) (w : world) (k : string) :
  let e' := vars (_options_process r loc w).1 in
  (JsSet.has (__user_bans e') k = true <->
   exists x, In x (default [] (hiddenUsers r)) /\ clean_user x = k) /\
  (JsSet.has (__keyword_bans e') k = true <->
   exists x, In x (default [] (hiddenKeywords r)) /\
             trim x <> EmptyString /\ toLowerCase x = k) /\
  (JsSet.has (__subreddit_bans e') k = true <->
   exists x, In x (default [] (hiddenSubreddits r)) /\ clean_subreddit x = k) /\
  (JsSet.has (__domain_bans e') k = true <->
   exists x, In x (default [] (hiddenDomains r)) /\ clean_domain x = k).
Proof.
  intros e'. subst e'. destruct (reload_sets r loc w) as (-> & -> & -> & ->).
  rewrite !has_In.
  assert (forall (f : string -> string) l,
            In k (fold_left (fun acc x => JsSet.add (f x) acc) l JsSet.empty)
            <-> exists x, In x l /\ f x = k) as Hloop.
  { intros f l. split.
    - intros H. apply (loop_In (fun x => Some (f x))) in H as [[]|(x & Hx & [= Hk])]. eauto.
    - intros (x & Hx & Hk). apply (loop_In_new (fun x => Some (f x)) _ _ x); by subst. }
  split; [apply Hloop|]. split; [|split; apply Hloop].
  split.
  - intros H. apply loop_In in H as [[]|(x & Hx & Hk)].
    exists x. split; [done|]. unfold clean_keyword in Hk.
    destruct (String.eqb_spec (trim x) ""); [done|]. by injection Hk as <-.
  - intros (x & Hx & Hne & Hk). apply (loop_In_new clean_keyword _ _ x); [done|].
    unfold clean_keyword. destruct (String.eqb_spec (trim x) ""); [done|]. by subst.
Qed.

Lemma reload_sets_members_witness :
  JsSet.has (__subreddit_bans
               (vars (_options_process Cases.funny_and_sale_stored Examples.listing
                        Cases.listing_of_two).1)) "funny" = true.
Proof.
  exact (proj2 (proj1 (proj2 (proj2 (reload_sets_members Cases.funny_and_sale_stored
           Examples.listing Cases.listing_of_two "funny"))))
           (ex_intro _ "r/Funny" (conj (or_introl eq_refl) eq_refl))).
Defined.

End RuleSetProperties.

(** ** Domains *)

Section DomainProperties.
Import Str Normalizer Host.

Lemma toLowerCase_app a b : toLowerCase (a +:+ b) = toLowerCase a +:+ toLowerCase b.
Proof. induction a as [|c a IH]; simpl; [done|]. by rewrite IH. Qed.

(** The letter case of a stored domain is immaterial. *)
Lemma clean_domain_case s : clean_domain (toLowerCase s) = clean_domain s.
Proof.
  unfold clean_domain, replace_pattern. rewrite pattern_exec_toLowerCase.
  destruct (pattern_exec s); simpl; apply toLowerCase_idem.
Qed.

Lemma bare_toLowerCase s : bare (toLowerCase s) = bare s.
Proof.
  induction s as [|c r IH]; simpl; [done|]. by rewrite host_char_lower_char, IH.
Qed.

Lemma span_host_app h rest :
  bare h = true -> ends_host rest = true -> span_host (h +:+ rest) = (h, rest).
Proof.
  intros Hh Hr. induction h as [|c h IH]; simpl in *.
  - destruct rest as [|c r]; [done|]. simpl in *.
    by destruct (host_char c).
  - apply andb_prop in Hh as [-> Hh]. by rewrite IH.
Qed.

Lemma match_host_app h rest :
  h <> EmptyString -> bare h = true -> ends_host rest = true ->
  no_line_terminator rest = true ->
  match_host (h +:+ rest) = Some h.
Proof.
  intros Hne Hh Hr Hnl. unfold match_host. rewrite span_host_app by done.
  destruct h; [done|]. by rewrite Hnl.
Qed.

Lemma starts_with_app p h rest :
  bare p = true -> ends_host rest = true ->
  starts_with p (toLowerCase (h +:+ rest)) = starts_with p (toLowerCase h).
Proof.
  intros Hp Hr. revert h; induction p as [|a p IH]; intros h; [done|].
  simpl in Hp. apply andb_prop in Hp as [Ha Hp].
  destruct h as [|b h]; simpl.
  - destruct rest as [|c r]; [done|]. simpl in *.
    destruct (Ascii.eqb_spec a (lower_char c)) as [->|]; [|done].
    rewrite host_char_lower_char in Ha. by rewrite Ha in Hr.
  - by rewrite IH.
Qed.

Lemma strip_www_app h rest :
  strip_www h = None -> ends_host rest = true -> strip_www (h +:+ rest) = None.
Proof.
  unfold strip_www. intros Hh Hr. rewrite (starts_with_app "www." h rest) by done.
  by destruct (starts_with "www." (toLowerCase h)).
Qed.

Lemma span_host_tail s :
  no_line_terminator s = true -> no_line_terminator (span_host s).2 = true.
Proof.
  induction s as [|c r IH]; simpl; [done|].
  intros H. destruct (host_char c); [|done].
  apply andb_prop in H as [_ H]. specialize (IH H). by destruct (span_host r).
Qed.

Lemma span_host_fixed g t : span_host g = (g, t) -> bare g = true.
Proof.
  revert t; induction g as [|c g IH]; intros t; simpl; [done|].
  destruct (host_char c); [|done].
  destruct (span_host g) as [g' t'] eqn:Hg. intros [= -> ->]. by rewrite (IH t).
Qed.

Lemma match_host_bare g : match_host g = Some g -> bare g = true /\ g <> EmptyString.
Proof.
  unfold match_host. destruct (span_host g) as [g' t] eqn:Hg.
  destruct g' as [|c g']; [done|]. destruct (no_line_terminator t); [|done].
  intros [= <-]. split; [by eapply span_host_fixed|done].
Qed.

Lemma pattern_exec_total s g : match_host s = Some g -> is_Some (pattern_exec s).
Proof.
  intros Hg. unfold pattern_exec, match_www_host.
  repeat match goal with
         | |- context [match ?x with _ => _ end] => destruct x; try done
         end; by rewrite ?Hg.
Qed.

(** X10: a stored domain that is not empty, does not start with [/], [?]
    or [#] and holds no line terminator is stored as a rule that is not
    empty, is lower-case and holds none of [/], [?], [#]. *)
Theorem clean_domain_bare (s : string) :
  ends_host s = false -> no_line_terminator s = true ->
  clean_domain s <> EmptyString /\
  bare (clean_domain s) = true /\
  toLowerCase (clean_domain s) = clean_domain s.
Proof.
  intros Hs Hnl.
  assert (is_Some (match_host s)) as [g Hg].
  { unfold match_host. pose proof (span_host_tail s Hnl) as Ht.
    destruct s as [|c r]; [done|]. simpl in *.
    destruct (host_char c); [|done].
    destruct (span_host r) as [g t]. simpl in Ht. rewrite Ht. by eexists. }
  destruct (pattern_exec_total s g Hg) as [g' Hg'].
  destruct (match_host_bare g' (pattern_exec_group _ _ Hg')) as [Hb Hne].
  unfold clean_domain, replace_pattern. rewrite Hg'.
  split; [by destruct g'|]. split; [by rewrite bare_toLowerCase|apply toLowerCase_idem].
Qed.

Lemma clean_domain_bare_witness :
  clean_domain "HTTPS://WWW.Example.com/a/b?c#d" <> EmptyString /\
  bare (clean_domain "HTTPS://WWW.Example.com/a/b?c#d") = true /\
  toLowerCase (clean_domain "HTTPS://WWW.Example.com/a/b?c#d")
  = clean_domain "HTTPS://WWW.Example.com/a/b?c#d".
Proof. exact (clean_domain_bare "HTTPS://WWW.Example.com/a/b?c#d" eq_refl eq_refl). Defined.

(** X9: a stored URL made, whatever its letter case, of the scheme
    [http://] or [https://], an optional [www.], a host (not empty, without
    [/], [?], [#], not itself starting with [www.]) and a rest that is empty
    or starts with [/], [?] or [#] and holds no line terminator, gives the
    lower-cased host as rule. *)
Theorem clean_domain_url (s scheme www host rest : string) :
  toLowerCase s = scheme +:+ www +:+ host +:+ rest ->
  scheme = "http://" \/ scheme = "https://" ->
  www = "www." \/ www = EmptyString ->
  host <> EmptyString -> bare host = true -> strip_www host = None ->
  ends_host rest = true -> no_line_terminator rest = true ->
  clean_domain s = toLowerCase host.
Proof.
  intros Hs Hsch Hwww Hne Hb Hnw Hr Hnl.
  rewrite <- clean_domain_case, Hs.
  assert (match_www_host (www +:+ host +:+ rest) = Some host) as Hw.
  { unfold match_www_host. destruct Hwww as [-> | ->].
    - assert (strip_www ("www." +:+ host +:+ rest) = Some (host +:+ rest)) as -> by done.
      by rewrite match_host_app.
    - change (EmptyString +:+ host +:+ rest) with (host +:+ rest).
      rewrite (strip_www_app host rest Hnw Hr). by apply match_host_app. }
  unfold clean_domain, replace_pattern, pattern_exec.
  destruct Hsch as [-> | ->].
  - assert (strip_scheme ("http://" +:+ www +:+ host +:+ rest)
            = Some (www +:+ host +:+ rest)) as -> by done.
    by rewrite Hw.
  - assert (strip_scheme ("https://" +:+ www +:+ host +:+ rest)
            = Some (www +:+ host +:+ rest)) as -> by done.
    by rewrite Hw.
Qed.

Lemma clean_domain_url_witness :
  clean_domain "HTTPS://WWW.Example.com/a/b?c#d" = "example.com".
Proof.
  exact (clean_domain_url "HTTPS://WWW.Example.com/a/b?c#d"
           "https://" "www." "example.com" "/a/b?c#d"
           eq_refl (or_intror eq_refl) (or_introl eq_refl)
           ltac:(discriminate) eq_refl eq_refl eq_refl eq_refl).
Defined.

End DomainProperties.

(** ** The collectors of the cleanup requests *)

Section CollectorProperties.
Import Str Dom Content Scan Collect.

Lemma inner_In (c : nat -> bool) (k y : string) posts s :
  In y (fold_left (fun found p => if c p then JsSet.add k found else found) posts s)
  <-> In y s \/ (y = k /\ exists p, In p posts /\ c p = true).
Proof.
  revert s; induction posts as [|p posts IH]; intros s; simpl.
  - split; [by left|]. by intros [?|(_ & p & [] & _)].
  - rewrite IH. destruct (c p) eqn:Hc.
    + rewrite add_In. split.
      * intros [[->|?]|(-> & q & Hq & Hcq)]; eauto 7.
      * intros [?|(-> & q & [<-|Hq] & Hcq)]; eauto 7.
    + split.
      * intros [?|(-> & q & Hq & Hcq)]; eauto 7.
      * intros [?|(-> & q & [<-|Hq] & Hcq)]; [by left|congruence|eauto 7].
Qed.

Lemma inner_NoDup (c : nat -> bool) (k : string) posts s :
  NoDup s ->
  NoDup (fold_left (fun found p => if c p then JsSet.add k found else found) posts s).
Proof.
  revert s; induction posts as [|p posts IH]; intros s Hs; simpl; [done|].
  apply IH. destruct (c p); [by apply add_NoDup|done].
Qed.

Lemma outer_In (c : string -> nat -> bool) (f : string -> string) (y : string)
    posts bans s :
  In y (fold_left (fun found kw =>
                     fold_left (fun found p => if c kw p then JsSet.add (f kw) found
                                               else found) posts found) bans s)
  <-> In y s \/ exists kw, In kw bans /\ f kw = y /\ exists p, In p posts /\ c kw p = true.
Proof.
  revert s; induction bans as [|kw bans IH]; intros s; simpl.
  - split; [by left|]. by intros [?|(kw & [] & _)].
  - rewrite IH, inner_In. split.
    + intros [[?|(-> & p & Hp & Hc)]|(kw' & Hkw & Hf & Hp)]; eauto 10.
    + intros [?|(kw' & [<-|Hkw] & Hf & Hp)]; eauto 10.
Qed.

Lemma outer_NoDup (c : string -> nat -> bool) (f : string -> string) posts bans s :
  NoDup s ->
  NoDup (fold_left (fun found kw =>
                      fold_left (fun found p => if c kw p then JsSet.add (f kw) found
                                                else found) posts found) bans s).
Proof.
  revert s; induction bans as [|kw bans IH]; intros s Hs; simpl; [done|].
  by apply IH, inner_NoDup.
Qed.

(** The nodes of a selector are the positions of the elements it selects. *)
Lemma querySelectorAll_In sel doc n :
  In n (querySelectorAll sel doc) <->
  exists el, doc !! n = Some el /\ sel (tagName el) = true.
Proof.
  split.
  - intros H. apply select_from_inv in H as (el & Hel & Hs & _).
    rewrite Nat.sub_0_r in Hel. eauto.
  - intros (el & Hel & Hs). by apply (select_from_In sel 0 doc n el).
Qed.

Lemma truthy_Some a : truthy a = true <-> exists x, a = Some x /\ x <> EmptyString.
Proof.
  destruct a as [[|c x]|]; simpl; split; try done.
  - intros (x & [= <-] & H). done.
  - intros _. by eexists.
  - by intros (x & ? & _).
Qed.

Lemma _cleanup_get_keywords_spec (w : world) (k : string) :
  NoDup (_cleanup_get_keywords w) /\
  (In k (_cleanup_get_keywords w) <->
   exists kw n el t,
     In kw (__keyword_bans (vars w)) /\ toLowerCase kw = k /\
     document w !! n = Some el /\ tagName el = shreddit_post /\
     post_title el = Some t /\ t <> EmptyString /\
     includes (toLowerCase t) k = true).
Proof.
  unfold _cleanup_get_keywords. split.
  - apply (outer_NoDup
             (fun kw p => truthy (getAttribute post_title (document w) p) &&
                          includes (toLowerCase (default EmptyString
                                      (getAttribute post_title (document w) p)))
                                   (toLowerCase kw)) toLowerCase), NoDup_nil_2.
  - rewrite (outer_In
             (fun kw p => truthy (getAttribute post_title (document w) p) &&
                          includes (toLowerCase (default EmptyString
                                      (getAttribute post_title (document w) p)))
                                   (toLowerCase kw)) toLowerCase).
    split.
    + intros [[]|(kw & Hkw & Hk & n & Hn & Hc)].
      apply querySelectorAll_In in Hn as (el & Hel & Htag).
      apply andb_prop in Hc as [Ht Hinc]. unfold getAttribute in Ht, Hinc.
      rewrite Hel in Ht, Hinc. apply truthy_Some in Ht as (t & Ht & Hne).
      rewrite Ht in Hinc. simpl in Hinc. rewrite Hk in Hinc.
      exists kw, n, el, t. repeat split; try done. by destruct (tagName el).
    + intros (kw & n & el & t & Hkw & Hk & Hel & Htag & Ht & Hne & Hinc).
      right. exists kw. repeat split; try done. exists n. split.
      * apply querySelectorAll_In. exists el. by rewrite Htag.
      * unfold getAttribute. rewrite Hel, Ht, Hk. simpl. rewrite Hinc.
        by destruct t.
Qed.

(** X14: [_cleanup_get_keywords] returns, without repetition, exactly the
    lower-cased keyword rules that occur in the lower-cased title of some
    post of the page, hidden or visible, whose title is there and not empty;
    whether the keyword filter is on plays no part. *)
Theorem cleanup_get_keywords_found (w : world) (k : string) :
  NoDup (_cleanup_get_keywords w) /\
  (In k (_cleanup_get_keywords w) <->
   exists kw n el t,
     In kw (__keyword_bans (vars w)) /\ toLowerCase kw = k /\
     document w !! n = Some el /\ tagName el = shreddit_post /\
     post_title el = Some t /\ t <> EmptyString /\
     includes (toLowerCase t) k = true).
Proof. apply _cleanup_get_keywords_spec. Qed.

Lemma _cleanup_get_subreddits_spec (w : world) (k : string) :
  NoDup (_cleanup_get_subreddits w) /\
  (In k (_cleanup_get_subreddits w) <->
   exists sub n el full,
     In sub (__subreddit_bans (vars w)) /\ toLowerCase sub = k /\
     document w !! n = Some el /\ tagName el = shreddit_post /\
     subreddit_prefixed_name el = Some full /\ full <> EmptyString /\
     toLowerCase (slice 2 full) = k).
Proof.
  unfold _cleanup_get_subreddits. split.
  - apply (outer_NoDup
             (fun sub p =>
                truthy (getAttribute subreddit_prefixed_name (document w) p) &&
                String.eqb
                  (toLowerCase (slice 2 (default EmptyString
                     (getAttribute subreddit_prefixed_name (document w) p))))
                  (toLowerCase sub)) toLowerCase), NoDup_nil_2.
  - rewrite (outer_In
             (fun sub p =>
                truthy (getAttribute subreddit_prefixed_name (document w) p) &&
                String.eqb
                  (toLowerCase (slice 2 (default EmptyString
                     (getAttribute subreddit_prefixed_name (document w) p))))
                  (toLowerCase sub)) toLowerCase).
    split.
    + intros [[]|(sub & Hsub & Hk & n & Hn & Hc)].
      apply querySelectorAll_In in Hn as (el & Hel & Htag).
      apply andb_prop in Hc as [Ht Heq]. unfold getAttribute in Ht, Heq.
      rewrite Hel in Ht, Heq. apply truthy_Some in Ht as (full & Ht & Hne).
      rewrite Ht in Heq. simpl default in Heq. apply String.eqb_eq in Heq.
      exists sub, n, el, full. repeat split; try done; [by destruct (tagName el)|congruence].
    + intros (sub & n & el & full & Hsub & Hk & Hel & Htag & Ht & Hne & Heq).
      right. exists sub. repeat split; try done. exists n. split.
      * apply querySelectorAll_In. exists el. by rewrite Htag.
      * unfold getAttribute. rewrite Hel, Ht. simpl default. rewrite Heq, Hk, String.eqb_refl.
        by destruct full.
Qed.

(** X15: [_cleanup_get_subreddits] returns, without repetition, exactly the
    lower-cased community rules equal to the lower-cased community name
    (the attribute without its first two characters) of some post of the
    page whose attribute is there and not empty. *)
Theorem cleanup_get_subreddits_found (w : world) (k : string) :
  NoDup (_cleanup_get_subreddits w) /\
  (In k (_cleanup_get_subreddits w) <->
   exists sub n el full,
     In sub (__subreddit_bans (vars w)) /\ toLowerCase sub = k /\
     document w !! n = Some el /\ tagName el = shreddit_post /\
     subreddit_prefixed_name el = Some full /\ full <> EmptyString /\
     toLowerCase (slice 2 full) = k).
Proof. apply _cleanup_get_subreddits_spec. Qed.

End CollectorProperties.

Section RequestProperties.
Import Str Dom Content Scan Collect.

Lemma of_array_In l x : JsSet.has (JsSet.of_array l) x = true <-> In x l.
Proof.
  rewrite has_In. unfold JsSet.of_array, JsSet.add_all. split.
  - intros H. apply (loop_In (fun y => Some y)) in H as [[]|(y & Hy & [= ->])]. done.
  - intros H. by apply (loop_In_new (fun y => Some y) _ _ x).
Qed.

Lemma _comments_ban_complete users loc w n el :
  thread_page loc = true -> __filter_users (vars w) = true ->
  document (_comments_ban users loc w).1 !! n = Some el ->
  tagName el = shreddit_comment -> display_none el = false ->
  truthy (author el) && has_attr users (author el) = false.
Proof.
  rewrite _comments_ban_scan. intros -> ->. simpl. intros Hn Htag Hdisp.
  pose proof (proj1 (scan_complete (comment_outcome users) is_comment w
                       (comment_outcome_stable users))
                (scan_comments_normal users w) n el Hn) as H.
  rewrite Htag in H. specialize (H eq_refl Hdisp). unfold comment_outcome in H.
  by destruct (truthy (author el) && has_attr users (author el)).
Qed.

Lemma element_step_author a b : element_step a b -> author b = author a.
Proof. by intros [->|[_ ->]]. Qed.

(** X19: after a cleanupUsers request on a thread page with the user
    filter on, every comment that is still visible has no author, an empty
    author, or an author that was in the author rules already: the comments
    of every collected author are hidden. *)
Theorem cleanup_users_hides_collected (loc : location) (w : world) (n : nat)
    (el : element) :
  let W := (_cleanup_request_handle {| action := "cleanupUsers" |} loc w).1 in
  thread_page loc = true -> __filter_users (vars w) = true ->
  document W !! n = Some el -> tagName el = shreddit_comment -> display_none el = false ->
  truthy (author el) = true ->
  has_attr (__user_bans (vars w)) (author el) = true.
Proof.
  intros W Hloc Hf Hn Htag Hdisp Hauth. subst W.
  unfold _cleanup_request_handle in Hn. simpl in Hn.
  pose proof (cleanup_users_normal loc w) as Hnorm.
  destruct (cleanup_users loc w) as [w1 c] eqn:Hc. simpl in Hnorm. subst c.
  simpl in Hn. unfold cleanup_users in Hc. rewrite Hloc in Hc. simpl in Hc.
  match type of Hc with _comments_ban ?u _ ?w3 = _ =>
    pose proof (_comments_ban_complete u loc w3 n el Hloc Hf) as Hdone;
    pose proof (passed_document _ _ (_comments_ban_passed u loc w3)) as Hdoc
  end.
  rewrite Hc in Hdone, Hdoc. simpl in Hdone, Hdoc.
  specialize (Hdone Hn Htag Hdisp). rewrite Hauth in Hdone. simpl in Hdone.
  destruct (Forall2_lookup_r _ _ _ _ _ Hdoc Hn) as (el0 & Hn0 & Hstep).
  apply element_step_author in Hstep.
  destruct (has_attr (__user_bans (vars w)) (author el)) eqn:Hban; [done|].
  exfalso.
  apply truthy_Some in Hauth as (a & Ha & Hne). rewrite Ha in Hdone, Hban. simpl in *.
  assert (JsSet.has (JsSet.of_array (_cleanup_get_users w)) a = true) as Hin.
  { apply of_array_In. rewrite _cleanup_get_users_all.
    apply list_elem_of_In, list_elem_of_omap. exists el0.
    split; [by eapply list_elem_of_lookup_2|].
    unfold unfiltered_author. rewrite <- Hstep, Ha. simpl. rewrite Hban. simpl.
    by destruct a. }
  change (_cleanup_get_users (log (LogCleanupStart "Thread") w))
    with (_cleanup_get_users w) in Hdone.
  congruence.
Qed.

Lemma cleanup_users_hides_collected_witness :
  has_attr ["alice"] (Some "alice") = true.
Proof.
  exact (cleanup_users_hides_collected Examples.thread
           (set_vars Cases.ban_alice
              (Examples.fresh Examples.thread
                 [{| tagName := shreddit_comment; display_none := false;
                     subreddit_prefixed_name := None; post_title := None;
                     author := Some "alice"; domain := None |};
                  Examples.comment (Some "carol")]))
           0 (Examples.comment (Some "alice")) eq_refl eq_refl eq_refl eq_refl
           eq_refl eq_refl).
Defined.

(** X20: a request that is not cleanupUsers changes neither the variables,
    nor the page, nor what was sent to the badge; a cleanupUsers request off
    a thread page does not either; and a request with an action other than
    the three gets no response and prints nothing. *)
Theorem cleanup_requests_read_only (req : request) (loc : location) (w : world) :
  let W := (_cleanup_request_handle req loc w).1 in
  (action req <> "cleanupUsers" \/ thread_page loc = false ->
   vars W = vars w /\ document W = document w /\ badge W = badge w) /\
  (action req <> "cleanupUsers" -> action req <> "cleanupKeywords" ->
   action req <> "cleanupSubreddits" -> W = w).
Proof.
  intros W. subst W. unfold _cleanup_request_handle.
  split.
  - intros H.
    assert (exists w1, (if String.eqb (action req) "cleanupUsers"
                        then cleanup_users loc w else (w, Normal)) = (w1, Normal) /\
                       vars w1 = vars w /\ document w1 = document w /\
                       badge w1 = badge w) as (w1 & -> & Hv & Hd & Hb).
    { destruct (String.eqb_spec (action req) "cleanupUsers") as [He|_]; [|by exists w].
      destruct H as [H|Hloc]; [done|].
      unfold cleanup_users. rewrite Hloc. simpl. by eexists. }
    by destruct (String.eqb (action req) "cleanupKeywords"),
                (String.eqb (action req) "cleanupSubreddits").
  - intros H1 H2 H3.
    apply String.eqb_neq in H1, H2, H3. by rewrite H1, H2, H3.
Qed.

Lemma cleanup_requests_read_only_witness :
  (_cleanup_request_handle {| action := "ping" |} Examples.thread
     Cases.thread_of_three).1 = Cases.thread_of_three.
Proof.
  exact (proj2 (cleanup_requests_read_only {| action := "ping" |} Examples.thread
                  Cases.thread_of_three)
           ltac:(discriminate) ltac:(discriminate) ltac:(discriminate)).
Defined.

(** X13: [_cleanup_get_users] returns, in document order and once per
    element, the author of every post and comment of the page, hidden or
    visible, whose author is there, not empty and not an author rule; so no
    author it returns is empty or already a rule. *)
Theorem cleanup_get_users_collects (w : world) (a : string) :
  _cleanup_get_users w = omap (unfiltered_author (__user_bans (vars w))) (document w) /\
  (In a (_cleanup_get_users w) <->
   exists n el, document w !! n = Some el /\ author el = Some a /\
                a <> EmptyString /\ JsSet.has (__user_bans (vars w)) a = false).
Proof.
  split; [apply _cleanup_get_users_all|].
  rewrite _cleanup_get_users_all, <- list_elem_of_In, list_elem_of_omap.
  unfold unfiltered_author. split.
  - intros (el & Hel & Ha). apply list_elem_of_lookup_1 in Hel as [n Hn].
    exists n, el. split; [done|].
    destruct (truthy (author el) && negb (has_attr (__user_bans (vars w)) (author el)))
      eqn:Hc; [|done].
    apply andb_prop in Hc as [Ht Hb]. rewrite Ha in Ht, Hb.
    apply truthy_Some in Ht as (x & [= <-] & Hne). apply negb_true_iff in Hb. done.
  - intros (n & el & Hn & Ha & Hne & Hb). exists el.
    split; [by eapply list_elem_of_lookup_2|].
    rewrite Ha. simpl. rewrite Hb. simpl. by destruct a.
Qed.

End RequestProperties.

(** ** Lines of a text area *)

Section LineFacts.
Import Str Lines.

Lemma split_lines_cons s : exists l ls, split_lines s = l :: ls.
Proof.
  induction s as [|c r (l & ls & IH)]; simpl; [by eexists _, _|].
  destruct (Ascii.eqb c "010"); [by eexists _, _|]. rewrite IH. by eexists _, _.
Qed.

Lemma split_lines_one_line s : Forall (fun l => one_line l = true) (split_lines s).
Proof.
  induction s as [|c r IH]; simpl; [by repeat constructor|].
  destruct (Ascii.eqb c "010") eqn:Hc; [by constructor|].
  destruct (split_lines r) as [|l ls]; [by repeat constructor; simpl; rewrite Hc|].
  inversion IH; subst. constructor; [|done]. simpl. by rewrite Hc.
Qed.

Lemma split_lines_app_line l s :
  one_line l = true ->
  split_lines (l +:+ String "010" s) = l :: split_lines s.
Proof.
  induction l as [|c l IH]; simpl; [done|].
  intros H. apply andb_prop in H as [Hc Hl]. apply negb_true_iff in Hc.
  by rewrite Hc, IH.
Qed.

Lemma split_lines_single l : one_line l = true -> split_lines l = [l].
Proof.
  induction l as [|c l IH]; simpl; [done|].
  intros H. apply andb_prop in H as [Hc Hl]. apply negb_true_iff in Hc.
  by rewrite Hc, IH.
Qed.

(** [join] then [split] gives the array back. *)
Lemma split_join l :
  l <> [] -> Forall (fun x => one_line x = true) l -> split_lines (join_lines l) = l.
Proof.
  induction l as [|x l IH]; [done|]. intros _ H. inversion H as [|? ? Hx Hl]; subst.
  destruct l as [|y l]; [by apply split_lines_single|].
  change (join_lines (x :: y :: l)) with (x +:+ String "010" (join_lines (y :: l))).
  rewrite split_lines_app_line by done. by rewrite IH.
Qed.

(** [split] then [join] gives the text back. *)
Lemma join_split s : join_lines (split_lines s) = s.
Proof.
  induction s as [|c r IH]; [done|]. simpl.
  destruct (split_lines_cons r) as (l & ls & Hr). rewrite Hr in IH |- *.
  destruct (Ascii.eqb_spec c "010") as [->|_].
  - change (join_lines (EmptyString :: l :: ls)) with (String "010" (join_lines (l :: ls))).
    by rewrite IH.
  - destruct ls as [|l' ls].
    + simpl in *. by rewrite IH.
    + change (String c (join_lines (l :: l' :: ls)) = String c r). by rewrite IH.
Qed.

Lemma trim_start_one_line s : one_line s = true -> one_line (trim_start s) = true.
Proof.
  induction s as [|c r IH]; simpl; [done|].
  intros H. destruct (is_space c); [|done]. apply andb_prop in H as [_ H]. auto.
Qed.

Lemma trim_end_one_line s : one_line s = true -> one_line (trim_end s) = true.
Proof.
  induction s as [|c r IH]; simpl; [done|].
  intros H. apply andb_prop in H as [Hc H]. specialize (IH H).
  destruct (trim_end r); simpl in *; [|by rewrite Hc].
  destruct (is_space c); simpl; [done|]. by rewrite Hc.
Qed.

Lemma trim_end_idem s : trim_end (trim_end s) = trim_end s.
Proof.
  induction s as [|c r IH]; simpl; [done|].
  destruct (trim_end r) as [|d r'] eqn:Hr.
  - destruct (is_space c) eqn:Hc; simpl; [done|]. by rewrite Hc.
  - simpl in *. by rewrite IH.
Qed.

Lemma trim_start_fixed s :
  match s with String c _ => is_space c = false | EmptyString => True end ->
  trim_start s = s.
Proof. destruct s as [|c r]; simpl; [done|]. by intros ->. Qed.

Lemma trim_end_head s :
  match s with String c _ => is_space c = false | EmptyString => True end ->
  match trim_end s with String c _ => is_space c = false | EmptyString => True end.
Proof.
  destruct s as [|c r]; simpl; [done|]. intros Hc.
  destruct (trim_end r); simpl; [by rewrite Hc|done].
Qed.

Lemma trim_start_head s :
  match trim_start s with String c _ => is_space c = false | EmptyString => True end.
Proof.
  induction s as [|c r IH]; simpl; [done|]. by destruct (is_space c) eqn:Hc.
Qed.

Lemma trim_idem s : trim (trim s) = trim s.
Proof.
  unfold trim.
  rewrite (trim_start_fixed (trim_end (trim_start s)))
    by apply trim_end_head, trim_start_head.
  apply trim_end_idem.
Qed.

Lemma trim_one_line s : one_line s = true -> one_line (trim s) = true.
Proof. intros H. by apply trim_end_one_line, trim_start_one_line. Qed.

Lemma lines_cons s : Popup.lines s <> [].
Proof.
  unfold Popup.lines. destruct (split_lines_cons s) as (l & ls & ->). done.
Qed.

Lemma lines_one_line s : Forall (fun l => one_line l = true) (Popup.lines s).
Proof.
  unfold Popup.lines. apply Forall_fmap.
  eapply Forall_impl; [apply split_lines_one_line|]. intros l. apply trim_one_line.
Qed.

(** The lines of the text made of the lines of a text are these lines. *)
Lemma lines_join_lines s : Popup.lines (join_lines (Popup.lines s)) = Popup.lines s.
Proof.
  unfold Popup.lines at 1.
  rewrite split_join by (apply lines_cons || apply lines_one_line).
  unfold Popup.lines. rewrite <- list_fmap_compose.
  apply list_fmap_ext. intros _ x _. apply trim_idem.
Qed.

End LineFacts.

(** ** The popup and the content script together *)

Section PopupProperties.
Import Str Dom Content Scan ChromeStorage Popup PopupFlow.

(** What [_data_save] leaves in storage: the flag in the local area, and
    the record in the area the flag selects. *)
Lemma saved_record f st :
  let st' := exec (_data_save f) st in
  let A := if enableSync f then sync else local in
  get_bool (local_items st') "enableSync" = Some (enableSync f) /\
  active_area st' = A /\
  (forall k v, (k, v) ∈ _data_to_save f -> items A st' !! k = Some v).
Proof.
  intros st' A.
  assert (items local st' !! "enableSync" = Some (VBool (enableSync f))) as Hflag.
  { subst st'. unfold _data_save, _storage_area_get, _data_migrate, exec.
    destruct (enableSync f) eqn:Hs;
      cbn -[store_all delete_all _data_to_save _keys_to_remove].
    - rewrite delete_all_notin by apply enableSync_kept. apply lookup_insert_eq.
    - apply store_all_in; [apply _data_to_save_keys|].
      pose proof (enableSync_saved f) as Hin. by rewrite Hs in Hin. }
  assert (get_bool (local_items st') "enableSync" = Some (enableSync f)) as Hget.
  { unfold get_bool. change (local_items st') with (items local st'). by rewrite Hflag. }
  split; [done|]. split; [unfold active_area; by rewrite Hget|].
  subst st' A. unfold _data_save, _storage_area_get, _data_migrate, exec.
  destruct (enableSync f) eqn:Hs;
    cbn -[store_all delete_all _data_to_save _keys_to_remove];
    intros k v Hin; apply store_all_in; try apply _data_to_save_keys; done.
Qed.

Ltac saved_key :=
  unfold _data_to_save;
  repeat first [apply list_elem_of_here | apply list_elem_of_further].

(** What [get] returns to the content script after [_data_save]. *)
Lemma saved_result f st :
  let st' := exec (_data_save f) st in
  let r := storage_get (items (active_area st') st') in
  hiddenUsers r = Some (lines (userList f)) /\
  hiddenKeywords r = Some (lines (keywordList f)) /\
  hiddenSubreddits r = Some (lines (subredditList f)) /\
  hiddenDomains r = Some (lines (domainList f)) /\
  Content.loggingEnabled r = Some (loggingEnabled f) /\
  Content.filterUsers r = Some (filterUsers f) /\
  Content.filterKeywords r = Some (filterKeywords f) /\
  Content.filterSubreddits r = Some (filterSubreddits f) /\
  Content.filterDomains r = Some (filterDomains f).
Proof.
  intros st' r. subst r.
  destruct (saved_record f st) as (_ & HA & Hrec). fold st' in HA, Hrec. rewrite HA.
  unfold storage_get, get_array, get_bool. simpl.
  rewrite (Hrec "hiddenUsers" (VArray (lines (userList f)))) by saved_key.
  rewrite (Hrec "hiddenKeywords" (VArray (lines (keywordList f)))) by saved_key.
  rewrite (Hrec "hiddenSubreddits" (VArray (lines (subredditList f)))) by saved_key.
  rewrite (Hrec "hiddenDomains" (VArray (lines (domainList f)))) by saved_key.
  rewrite (Hrec "loggingEnabled" (VBool (loggingEnabled f))) by saved_key.
  rewrite (Hrec "filterUsers" (VBool (filterUsers f))) by saved_key.
  rewrite (Hrec "filterKeywords" (VBool (filterKeywords f))) by saved_key.
  rewrite (Hrec "filterSubreddits" (VBool (filterSubreddits f))) by saved_key.
  rewrite (Hrec "filterDomains" (VBool (filterDomains f))) by saved_key.
  by repeat split.
Qed.

(** X11: whatever was stored and whatever the variables held, the reload
    that follows a save of the popup gives the engine the flags of the check
    boxes and the rule sets of the lines of the four text areas. *)
Theorem save_then_reload (f : form) (st : ChromeStorage.t) (loc : location) (w : world) :
  let e' := vars (_options_get_saved (exec (_data_save f) st) loc w).1 in
  __user_bans e' = load_users (lines (userList f)) /\
  __keyword_bans e' = load_keywords (lines (keywordList f)) /\
  __subreddit_bans e' = load_subreddits (lines (subredditList f)) /\
  __domain_bans e' = load_domains (lines (domainList f)) /\
  __logging_enabled e' = loggingEnabled f /\
  __filter_users e' = filterUsers f /\
  __filter_keywords e' = filterKeywords f /\
  __filter_subreddits e' = filterSubreddits f /\
  __filter_domains e' = filterDomains f.
Proof.
  intros e'. subst e'. unfold _options_get_saved.
  destruct (saved_result f st) as (Hu & Hk & Hs & Hd & Hl & Hfu & Hfk & Hfs & Hfd).
  set (r := storage_get _) in *. clearbody r.
  destruct (_options_process_passed r loc w) as (Hr & _).
  apply rules_eq in Hr as (-> & -> & -> & -> & -> & -> & -> & -> & -> & _).
  simpl. by rewrite Hu, Hk, Hs, Hd, Hl, Hfu, Hfk, Hfs, Hfd.
Qed.

(** X12: the popup opened after a save shows the check boxes as saved and,
    in each text area, the saved lines joined by newlines; saving what it
    shows stores the same record again. *)
Theorem load_after_save (f f0 : form) (st : ChromeStorage.t) :
  let f' := _data_load (exec (_data_save f) st) f0 in
  enableSync f' = enableSync f /\
  loggingEnabled f' = loggingEnabled f /\
  filterUsers f' = filterUsers f /\
  filterKeywords f' = filterKeywords f /\
  filterSubreddits f' = filterSubreddits f /\
  filterDomains f' = filterDomains f /\
  userList f' = join_lines (lines (userList f)) /\
  keywordList f' = join_lines (lines (keywordList f)) /\
  subredditList f' = join_lines (lines (subredditList f)) /\
  domainList f' = join_lines (lines (domainList f)) /\
  _data_to_save f' = _data_to_save f.
Proof.
  intros f'. subst f'.
  destruct (saved_record f st) as (Hflag & HA & Hrec).
  unfold _data_load. rewrite Hflag. cbv zeta beta.
  change (default true (Some (enableSync f))) with (enableSync f).
  unfold get_array, get_bool.
  rewrite (Hrec "hiddenUsers" (VArray (lines (userList f)))) by saved_key.
  rewrite (Hrec "hiddenKeywords" (VArray (lines (keywordList f)))) by saved_key.
  rewrite (Hrec "hiddenSubreddits" (VArray (lines (subredditList f)))) by saved_key.
  rewrite (Hrec "hiddenDomains" (VArray (lines (domainList f)))) by saved_key.
  rewrite (Hrec "loggingEnabled" (VBool (loggingEnabled f))) by saved_key.
  rewrite (Hrec "filterUsers" (VBool (filterUsers f))) by saved_key.
  rewrite (Hrec "filterKeywords" (VBool (filterKeywords f))) by saved_key.
  rewrite (Hrec "filterSubreddits" (VBool (filterSubreddits f))) by saved_key.
  rewrite (Hrec "filterDomains" (VBool (filterDomains f))) by saved_key.
  repeat split. unfold _data_to_save. simpl. by rewrite !lines_join_lines.
Qed.

End PopupProperties.

Section CleanupButtons.
Import Str Normalizer Dom Content Scan ChromeStorage Popup PopupFlow.

Lemma load_keywords_In k l :
  In k (load_keywords l) <-> exists x, In x l /\ trim x <> EmptyString /\ toLowerCase x = k.
Proof.
  split.
  - intros H. apply loop_In in H as [[]|(x & Hx & Hk)].
    exists x. split; [done|]. unfold clean_keyword in Hk.
    destruct (String.eqb_spec (trim x) ""); [done|]. by injection Hk as <-.
  - intros (x & Hx & Hne & Hk). apply (loop_In_new clean_keyword _ _ x); [done|].
    unfold clean_keyword. destruct (String.eqb_spec (trim x) ""); [done|]. by subst.
Qed.

Lemma load_subreddits_In k l :
  In k (load_subreddits l) <-> exists x, In x l /\ clean_subreddit x = k.
Proof.
  split.
  - intros H.
    apply (loop_In (fun x => Some (clean_subreddit x))) in H as [[]|(x & Hx & [= Hk])].
    eauto.
  - intros (x & Hx & Hk).
    apply (loop_In_new (fun x => Some (clean_subreddit x)) _ _ x); by subst.
Qed.

Lemma array_includes_In a x : array_includes a x = true <-> In x a.
Proof. apply has_In. Qed.

Lemma accepted_200 (l : list string) :
  accepted (Some (list_to_map [("status", VNumber 200); ("message", VArray l)])) = Some l.
Proof.
  unfold accepted.
  destruct (response_fields 200 (VArray l)) as (-> & -> & _). done.
Qed.

Lemma stored_array a k l st :
  get_array (items a (ChromeStorage.set a [(k, VArray l)] st)) k = Some l.
Proof.
  unfold ChromeStorage.set, get_array. rewrite items_with_items.
  unfold store_all. simpl. by rewrite lookup_insert_eq.
Qed.

Lemma blank_trim : trim EmptyString = EmptyString.
Proof. done. Qed.

(** X16: when the keyword rules of the engine are those of the lines the
    popup shows, the keywords button stores the lines whose lower-cased form
    the content script did not report, shows them, and leaves no keyword
    rule that occurs in the title of a post of the page. *)
Theorem keyword_cleanup_clears_page (p : popup) (loc : location) (w : world) :
  __keyword_bans (vars w) = load_keywords (lines (keywordList (fields p))) ->
  let w' := (_cleanup_request_handle {| action := "cleanupKeywords" |} loc w).1 in
  let p' := _cleanup_keywords_execute (last_response w') p in
  let kept :=
    List.filter (fun k => negb (array_includes (_cleanup_get_keywords w) (toLowerCase k)))
                (lines (keywordList (fields p))) in
  get_array (items (active_area (storage p)) (storage p')) "hiddenKeywords" = Some kept /\
  keywordList (fields p') = join_lines kept /\
  (forall k n el t,
      In k (load_keywords kept) ->
      document w !! n = Some el -> tagName el = shreddit_post -> post_title el = Some t ->
      includes (toLowerCase t) k = false).
Proof.
  intros Hrules w' p' kept.
  assert (last_response w'
          = Some (list_to_map [("status", VNumber 200);
                               ("message", VArray (_cleanup_get_keywords w))])) as Hresp.
  { subst w'. unfold last_response, _cleanup_request_handle, cleanup_keywords. simpl.
    apply last_snoc. }
  subst p'. unfold _cleanup_keywords_execute. rewrite Hresp, accepted_200. fold kept.
  split; [apply stored_array|]. split; [done|].
  intros k n el t Hk Hn Htag Ht.
  apply load_keywords_In in Hk as (x & Hx & Hne & Hk).
  apply filter_In in Hx as [Hx Hnot]. apply negb_true_iff in Hnot.
  destruct (includes (toLowerCase t) k) eqn:Hinc; [exfalso|done].
  assert (In k (_cleanup_get_keywords w)) as Hfound.
  { apply _cleanup_get_keywords_spec. exists k, n, el, t.
    repeat split; try done.
    - rewrite Hrules. apply load_keywords_In. eauto.
    - subst k. apply toLowerCase_idem.
    - intros ->. simpl in Hinc. destruct k; [|done].
      apply toLowerCase_empty in Hk. by subst x. }
  apply array_includes_In in Hfound. congruence.
Qed.

Lemma keyword_cleanup_clears_page_witness :
  includes (toLowerCase "A picture") "cats" = false.
Proof.
  exact (proj2 (proj2 (keyword_cleanup_clears_page
           {| fields := with_keywordList "cats" Examples.empty_lists;
              cleanupUsersDescription := "";
              storage := Examples.nothing_saved |}
           Examples.listing Cases.listing_of_one eq_refl))
           "cats" 0
           (Examples.post (Some "r/pics") (Some "A picture") (Some "alice") (Some "i.redd.it"))
           "A picture" (or_introl eq_refl) eq_refl eq_refl eq_refl).
Defined.

(** X17: when the community rules of the engine are those of the lines the
    popup shows, the subreddits button stores the lines whose lower-cased
    form the content script did not report, and no kept line written without
    the prefix [r/] names the community of a post of the page.  (The test
    compares the line as typed: a line with the prefix is never removed.) *)
Theorem subreddit_cleanup_clears_page (p : popup) (loc : location) (w : world) :
  __subreddit_bans (vars w) = load_subreddits (lines (subredditList (fields p))) ->
  let w' := (_cleanup_request_handle {| action := "cleanupSubreddits" |} loc w).1 in
  let p' := _cleanup_subreddits_execute (last_response w') p in
  let kept :=
    List.filter (fun s => negb (array_includes (_cleanup_get_subreddits w) (toLowerCase s)))
                (lines (subredditList (fields p))) in
  get_array (items (active_area (storage p)) (storage p')) "hiddenSubreddits" = Some kept /\
  subredditList (fields p') = join_lines kept /\
  (forall x n el full,
      In x kept -> starts_with "r/" x = false ->
      document w !! n = Some el -> tagName el = shreddit_post ->
      subreddit_prefixed_name el = Some full -> full <> EmptyString ->
      toLowerCase (slice 2 full) <> clean_subreddit x).
Proof.
  intros Hrules w' p' kept.
  assert (last_response w'
          = Some (list_to_map [("status", VNumber 200);
                               ("message", VArray (_cleanup_get_subreddits w))])) as Hresp.
  { subst w'. unfold last_response, _cleanup_request_handle, cleanup_subreddits. simpl.
    apply last_snoc. }
  subst p'. unfold _cleanup_subreddits_execute. rewrite Hresp, accepted_200. fold kept.
  split; [apply stored_array|]. split; [done|].
  intros x n el full Hx Hpre Hn Htag Hfull Hne Heq.
  apply filter_In in Hx as [Hx Hnot]. apply negb_true_iff in Hnot.
  rewrite clean_subreddit_test, Hpre in Heq.
  assert (In (toLowerCase x) (_cleanup_get_subreddits w)) as Hfound.
  { apply _cleanup_get_subreddits_spec. exists (toLowerCase x), n, el, full.
    repeat split; try done.
    - rewrite Hrules. apply load_subreddits_In. exists x. split; [done|].
      by rewrite clean_subreddit_test, Hpre.
    - apply toLowerCase_idem. }
  apply array_includes_In in Hfound. congruence.
Qed.

Lemma subreddit_cleanup_clears_page_witness :
  toLowerCase (slice 2 "r/Funny") <> clean_subreddit "pics".
Proof.
  exact (proj2 (proj2 (subreddit_cleanup_clears_page
           {| fields := with_subredditList (join_lines ["funny"; "pics"]) Examples.empty_lists;
              cleanupUsersDescription := "";
              storage := Examples.nothing_saved |}
           Examples.listing Cases.listing_of_funny eq_refl))
           "pics" 0
           (Examples.post (Some "r/Funny") (Some "Big Sale Today") (Some "bob")
                          (Some "i.redd.it"))
           "r/Funny" (or_introl eq_refl) eq_refl eq_refl eq_refl eq_refl
           ltac:(discriminate)).
Defined.

End CleanupButtons.

Section UsersButton.
Import Str Normalizer Dom Content Scan ChromeStorage Popup PopupFlow.

Lemma cleanup_users_response loc w :
  thread_page loc = true ->
  last_response (_cleanup_request_handle {| action := "cleanupUsers" |} loc w).1
  = Some (list_to_map [("status", VNumber 200); ("message", VArray (_cleanup_get_users w))]).
Proof.
  intros Hloc. unfold last_response, _cleanup_request_handle. simpl.
  pose proof (cleanup_users_normal loc w) as Hn.
  destruct (cleanup_users loc w) as [w1 c] eqn:Hc. simpl in Hn. subst c. simpl.
  unfold cleanup_users in Hc. rewrite Hloc in Hc. simpl in Hc.
  match type of Hc with _comments_ban ?u _ ?w3 = _ =>
    pose proof (passed_responses _ _ (_comments_ban_passed u loc w3)) as Hp
  end.
  rewrite Hc in Hp. simpl in Hp. rewrite Hp. apply last_snoc.
Qed.

(** X18: the users button, off a thread page, stores nothing, keeps the
    form and shows its message; on a thread page it stores the collected
    authors followed by the lines of the user list, and after the next
    reload from that array the cleaned name of every collected author is an
    author rule. *)
Theorem users_cleanup (p : popup) (loc : location) (w : world) :
  let w' := (_cleanup_request_handle {| action := "cleanupUsers" |} loc w).1 in
  let p' := _cleanup_users_execute (last_response w') p in
  let combined := _cleanup_get_users w ++ lines (userList (fields p)) in
  (thread_page loc = false ->
   storage p' = storage p /\ fields p' = fields p /\
   cleanupUsersDescription p' = "Can only filter when window is on a reddit thread") /\
  (thread_page loc = true ->
   get_array (items (active_area (storage p)) (storage p')) "hiddenUsers" = Some combined /\
   userList (fields p') = join_lines combined /\
   forall a, In a (_cleanup_get_users w) ->
             JsSet.has (load_users combined) (clean_user a) = true).
Proof.
  intros w' p' combined. subst w' p'. split; intros Hloc.
  - assert (accepted (last_response
              (_cleanup_request_handle {| action := "cleanupUsers" |} loc w).1) = None) as H.
    { unfold last_response, _cleanup_request_handle, cleanup_users. simpl.
      rewrite Hloc. simpl. rewrite last_snoc. by vm_compute. }
    unfold _cleanup_users_execute. by rewrite H.
  - unfold _cleanup_users_execute.
    rewrite cleanup_users_response, accepted_200 by done. fold combined.
    split; [apply stored_array|]. split; [done|].
    intros a Ha. apply has_In.
    apply (loop_In_new (fun x => Some (clean_user x)) _ _ a); [|done].
    apply in_app_iff. by left.
Qed.

Lemma users_cleanup_witness :
  JsSet.has (load_users (["carol"; "carol"] ++ [""])) (clean_user "carol") = true.
Proof.
  exact (proj2 (proj2 (proj2 (users_cleanup
           {| fields := Examples.empty_lists;
              cleanupUsersDescription := "";
              storage := Examples.nothing_saved |}
           Examples.thread Cases.thread_of_three) eq_refl))
           "carol" (or_introl eq_refl)).
Defined.

End UsersButton.

(** ** The change watcher *)

Section WatcherProperties.
Import Dom Content Watcher WatcherInv.

Lemma filter_other (id : nat) : List.filter (fun t => negb (t =? id)) [id] = [].
Proof. simpl. by rewrite Nat.eqb_refl. Qed.

Lemma inv_init first w : 0 < first -> inv (_dom_changes_observe first w).
Proof. by split. Qed.

Lemma on_mutations_quiet ms s :
  existsb (fun m => negb (addedNodes m =? 0)) ms = false -> on_mutations ms s = s.
Proof. unfold on_mutations. by intros ->. Qed.

(** A batch that adds a node leaves exactly the timer it sets. *)
Lemma on_mutations_adds ms s :
  inv s -> existsb (fun m => negb (addedNodes m =? 0)) ms = true ->
  pending (on_mutations ms s) = [next_timer s] /\
  _debounce_timeout (on_mutations ms s) = Some (next_timer s) /\
  next_timer (on_mutations ms s) = S (next_timer s) /\
  page (on_mutations ms s) = page s.
Proof.
  intros [Hnext Hinv] Hadd. unfold on_mutations. rewrite Hadd.
  destruct (_debounce_timeout s) as [[|id]|]; [lia| |].
  - unfold setTimeout, clearTimeout. cbn [pending _debounce_timeout next_timer page].
    destruct Hinv as [_ [-> | ->]]; [done|]. by rewrite filter_other.
  - unfold setTimeout. cbn [pending _debounce_timeout next_timer page]. by rewrite Hinv.
Qed.

Lemma on_mutations_inv ms s : inv s -> inv (on_mutations ms s).
Proof.
  intros Hs. destruct (existsb (fun m => negb (addedNodes m =? 0)) ms) eqn:Hadd.
  - destruct (on_mutations_adds ms s Hs Hadd) as (Hp & Ht & Hn & _).
    destruct Hs as [Hnext _]. unfold inv. rewrite Ht, Hn, Hp. split; [lia|].
    split; [lia|by right].
  - by rewrite on_mutations_quiet.
Qed.

Lemma on_timer_inv id st loc s : inv s -> inv (on_timer id st loc s).
Proof.
  intros [Hnext Hinv]. unfold on_timer.
  destruct (existsb (Nat.eqb id) (pending s)) eqn:Hin; [|done].
  split; [done|]. simpl.
  destruct (_debounce_timeout s) as [id0|].
  - destruct Hinv as [Hid [Hp|Hp]].
    + by rewrite Hp in Hin.
    + rewrite Hp in Hin |- *.
      simpl in Hin. rewrite orb_false_r in Hin. apply Nat.eqb_eq in Hin. subst id0.
      split; [done|]. left. apply filter_other.
  - by rewrite Hinv in Hin.
Qed.

Lemma run_inv evs s : inv s -> inv (run evs s).
Proof.
  revert s; induction evs as [|ev evs IH]; intros s Hs; [done|].
  apply IH. destruct ev; [by apply on_mutations_inv|by apply on_timer_inv].
Qed.

Lemma inv_pending s :
  inv s ->
  length (pending s) <= 1 /\ (forall id, In id (pending s) -> _debounce_timeout s = Some id).
Proof.
  intros [_ Hinv]. destruct (_debounce_timeout s) as [id0|].
  - destruct Hinv as [_ [-> | ->]]; simpl.
    + split; [lia|done].
    + split; [lia|]. by intros id [<-|[]].
  - rewrite Hinv. simpl. split; [lia|done].
Qed.

(** Without pending timer and without added node there is no reload. *)
Lemma run_quiet evs s :
  inv s -> pending s = [] -> existsb adds_nodes evs = false ->
  page (run evs s) = page s /\ pending (run evs s) = [].
Proof.
  revert s; induction evs as [|ev evs IH]; intros s Hs Hp Hq; [done|].
  simpl in Hq. apply orb_false_elim in Hq as [Hev Hq]. simpl.
  assert (step s ev = s) as ->; [|by apply IH].
  destruct ev as [ms|id st loc]; simpl in *.
  - by apply on_mutations_quiet.
  - unfold on_timer. by rewrite Hp.
Qed.

(** X21: whatever mutation batches and timer expiries arrive, the watcher
    has at most one timer pending, and it is the one it remembers; and as
    long as no batch adds a node, nothing is scheduled and the page is never
    reloaded. *)
Theorem watcher_one_timer (first : nat) (w : world) (evs : list event) :
  0 < first ->
  let s := run evs (_dom_changes_observe first w) in
  length (pending s) <= 1 /\
  (forall id, In id (pending s) -> _debounce_timeout s = Some id) /\
  (existsb adds_nodes evs = false -> page s = w /\ pending s = []).
Proof.
  intros Hfirst s.
  pose proof (run_inv evs _ (inv_init first w Hfirst)) as Hinv. fold s in Hinv.
  destruct (inv_pending s Hinv) as [Hlen Hid].
  split; [done|]. split; [done|].
  intros Hq. by apply (run_quiet evs (_dom_changes_observe first w)); [apply inv_init|..].
Qed.

Lemma watcher_one_timer_witness :
  length (pending (run [Mutations [{| addedNodes := 2 |}];
                        Mutations [{| addedNodes := 0 |}; {| addedNodes := 1 |}]]
                       (_dom_changes_observe 1 Cases.listing_of_two))) <= 1.
Proof.
  exact (proj1 (watcher_one_timer 1 Cases.listing_of_two
           [Mutations [{| addedNodes := 2 |}];
            Mutations [{| addedNodes := 0 |}; {| addedNodes := 1 |}]]
           (le_n 1))).
Defined.

(** Through a run of mutation batches the page is not reloaded, and a
    pending timer is replaced, never dropped. *)
Lemma run_burst burst s :
  inv s -> forallb is_mutations burst = true ->
  page (run burst s) = page s /\
  (existsb adds_nodes burst = true \/ (exists id, pending s = [id]) ->
   exists id, pending (run burst s) = [id]).
Proof.
  revert s; induction burst as [|ev burst IH]; intros s Hs Hm.
  - split; [done|]. by intros [|].
  - simpl in Hm. apply andb_prop in Hm as [Hev Hm].
    destruct ev as [ms|]; [|done]. simpl.
    destruct (IH (on_mutations ms s) (on_mutations_inv ms s Hs) Hm) as [Hpage Hpend].
    destruct (existsb (fun m => negb (addedNodes m =? 0)) ms) eqn:Hadd.
    + destruct (on_mutations_adds ms s Hs Hadd) as (Hp & _ & _ & Hpg).
      split; [by rewrite Hpage|]. intros _. apply Hpend. right. eauto.
    + rewrite on_mutations_quiet in * by done. split; [done|].
      intros [H|H]; apply Hpend; [by left|by right].
Qed.

Lemma on_timer_fire id st loc s :
  pending s = [id] ->
  pending (on_timer id st loc s) = [] /\
  page (on_timer id st loc s) = (_options_get_saved st loc (page s)).1.
Proof.
  intros Hp. unfold on_timer. rewrite Hp.
  assert (existsb (Nat.eqb id) [id] = true) as ->.
  { simpl. by rewrite Nat.eqb_refl. }
  cbn [pending page]. by rewrite filter_other.
Qed.

Lemma on_timer_idle id st loc s : pending s = [] -> on_timer id st loc s = s.
Proof. intros Hp. unfold on_timer. by rewrite Hp. Qed.

(** X22: a run of mutation batches of which at least one adds a node, at
    any point of the life of the watcher, reloads nothing while it lasts and
    leaves one timer pending; when that timer expires the page is reloaded
    once, no timer is left, and a further expiry does nothing. *)
Theorem debounce_burst (first : nat) (w : world) (before burst : list event)
    (st : ChromeStorage.t) (loc : location) :
  0 < first ->
  forallb is_mutations burst = true -> existsb adds_nodes burst = true ->
  let s := run before (_dom_changes_observe first w) in
  let s' := run burst s in
  page s' = page s /\
  exists id,
    pending s' = [id] /\
    page (on_timer id st loc s') = (_options_get_saved st loc (page s)).1 /\
    pending (on_timer id st loc s') = [] /\
    forall id' st' loc',
      on_timer id' st' loc' (on_timer id st loc s') = on_timer id st loc s'.
Proof.
  intros Hfirst Hm Hadd s s'.
  pose proof (run_inv before _ (inv_init first w Hfirst)) as Hinv. fold s in Hinv.
  destruct (run_burst burst s Hinv Hm) as [Hpage Hpend]. fold s' in Hpage, Hpend.
  destruct (Hpend (or_introl Hadd)) as [id Hid].
  split; [done|]. exists id.
  destruct (on_timer_fire id st loc s' Hid) as [Hp Hpg].
  split; [done|]. split; [by rewrite Hpg, Hpage|]. split; [done|].
  intros id' st' loc'. by apply on_timer_idle.
Qed.

Lemma debounce_burst_witness :
  page (run [Mutations [{| addedNodes := 2 |}]; Mutations [{| addedNodes := 1 |}]]
            (run [] (_dom_changes_observe 1 Cases.listing_of_two)))
  = Cases.listing_of_two.
Proof.
  exact (proj1 (debounce_burst 1 Cases.listing_of_two []
           [Mutations [{| addedNodes := 2 |}]; Mutations [{| addedNodes := 1 |}]]
           Examples.nothing_saved Examples.listing (le_n 1) eq_refl eq_refl)).
Defined.

End WatcherProperties.

(** ** The badge *)

Section BadgeProperties.
Import Dom Content Background.

Lemma map_NoDup_inj {A B} (f : A -> B) (l : list A) x y :
  NoDup (map f l) -> In x l -> In y l -> f x = f y -> x = y.
Proof.
  induction l as [|a l IH]; [done|]. simpl. intros Hnd.
  apply NoDup_cons in Hnd as [Ha Hnd].
  intros [->|Hx] [->|Hy] Hf; [done| | |by apply IH].
  - exfalso. apply Ha. rewrite Hf. by apply list_elem_of_In, in_map.
  - exfalso. apply Ha. rewrite <- Hf. by apply list_elem_of_In, in_map.
Qed.

Lemma small_counts_distinct : NoDup (map badge_text (seq 0 1000)).
Proof. apply (bool_decide_unpack _). by vm_compute. Qed.

Lemma small_counts_shape :
  forallb (fun n => Bool.eqb (String.eqb (badge_text n) EmptyString) (n =? 0) &&
                    (String.length (badge_text n) <=? 3)) (seq 0 1000) = true.
Proof. by vm_compute. Qed.

Lemma large_count n : 999 < n -> badge_text n = "999+".
Proof.
  intros H. unfold badge_text.
  assert ((0 <? n) = true) as -> by (apply Nat.ltb_lt; lia).
  assert ((999 <? n) = true) as -> by (by apply Nat.ltb_lt).
  done.
Qed.

(** X23: the badge is empty exactly for the count 0; its text has at most
    four characters; every count above 999 shows [999+]; and two different
    counts up to 999 show different texts. *)
Theorem badge_text_shape (n m : nat) :
  (badge_text n = EmptyString <-> n = 0) /\
  String.length (badge_text n) <= 4 /\
  (999 < n -> badge_text n = "999+") /\
  (n <= 999 -> m <= 999 -> badge_text n = badge_text m -> n = m).
Proof.
  assert (n <= 999 \/ 999 < n) as [Hn|Hn] by lia.
  - assert (In n (seq 0 1000)) as Hin by (apply in_seq; lia).
    pose proof (proj1 (forallb_forall _ _) small_counts_shape n Hin) as Hshape.
    apply andb_prop in Hshape as [Hz Hl].
    apply Bool.eqb_prop in Hz. apply Nat.leb_le in Hl.
    split; [|split; [lia|split; [lia|]]].
    + rewrite <- Nat.eqb_eq, <- Hz. apply iff_sym, String.eqb_eq.
    + intros _ Hm Heq.
      apply (map_NoDup_inj badge_text (seq 0 1000)); try done.
      * apply small_counts_distinct.
      * apply in_seq. lia.
  - rewrite (large_count n Hn). split; [split; [done|lia]|].
    split; [simpl; lia|]. split; [done|lia].
Qed.

Lemma badge_text_shape_witness : badge_text 1000 = "999+".
Proof.
  exact (proj1 (proj2 (proj2 (badge_text_shape 1000 0)))
           ltac:(lia)).
Defined.

Lemma deliver_snoc l c t b :
  deliver (l ++ [c]) t b = <[t := badge_text c]> (deliver l t b).
Proof. unfold deliver. by rewrite fold_left_app. Qed.

Lemma deliver_other l t t' (b : gmap nat string) :
  t' <> t -> deliver l t b !! t' = b !! t'.
Proof.
  intros Hne. revert b; induction l as [|c l IH]; intros b; [done|].
  unfold deliver in *. simpl. rewrite IH. by apply lookup_insert_ne.
Qed.

(** X24: once the badge messages of a reload that completed are delivered
    to the background worker, the badge of the tab shows the text of the
    counter as the reload left it, and the badges of the other tabs are
    untouched. *)
Theorem badge_shows_count (r : storage_result) (loc : location) (w : world)
    (t : nat) (b : gmap nat string) :
  (_options_process r loc w).2 = Normal ->
  let W := (_options_process r loc w).1 in
  deliver (badge W) t b !! t = Some (badge_text (__filtered_count (vars W))) /\
  (forall t', t' <> t -> deliver (badge W) t b !! t' = b !! t').
Proof.
  intros Hc W. subst W.
  rewrite (proj1 (_options_process_badge r loc w) Hc), deliver_snoc.
  split; [apply lookup_insert_eq|].
  intros t' Hne. rewrite lookup_insert_ne by done. by apply deliver_other.
Qed.

Lemma badge_shows_count_witness :
  deliver (badge (_options_process Cases.funny_and_sale_stored Examples.listing
                    Cases.listing_of_two).1) 7 ∅ !! 7 = Some "1".
Proof.
  exact (proj1 (badge_shows_count Cases.funny_and_sale_stored Examples.listing
                  Cases.listing_of_two 7 ∅ eq_refl)).
Defined.

End BadgeProperties.


(** ** Collectors at work *)

Section CollectorWitnesses.
Import Str Dom Content.

Lemma cleanup_get_users_collects_witness :
  In "carol" (_cleanup_get_users Cases.thread_of_three).
Proof.
  apply (proj2 (proj2 (cleanup_get_users_collects Cases.thread_of_three "carol"))).
  exists 2, (Examples.comment (Some "carol")).
  split; [reflexivity|]. split; [reflexivity|]. split; [discriminate|reflexivity].
Defined.

Lemma cleanup_get_keywords_found_witness :
  In "sale" (_cleanup_get_keywords Cases.listing_of_two).
Proof.
  apply (proj2 (proj2 (cleanup_get_keywords_found Cases.listing_of_two "sale"))).
  exists "sale", 0,
    (Examples.post (Some "r/Funny") (Some "Big Sale Today") (Some "bob") (Some "i.redd.it")),
    "Big Sale Today".
  split; [by left|]. split; [reflexivity|]. split; [reflexivity|].
  split; [reflexivity|]. split; [reflexivity|]. split; [discriminate|reflexivity].
Defined.

Lemma cleanup_get_subreddits_found_witness :
  In "funny" (_cleanup_get_subreddits Cases.listing_of_two).
Proof.
  apply (proj2 (proj2 (cleanup_get_subreddits_found Cases.listing_of_two "funny"))).
  exists "funny", 0,
    (Examples.post (Some "r/Funny") (Some "Big Sale Today") (Some "bob") (Some "i.redd.it")),
    "r/Funny".
  split; [by left|]. split; [reflexivity|]. split; [reflexivity|].
  split; [reflexivity|]. split; [reflexivity|]. split; [discriminate|reflexivity].
Defined.

End CollectorWitnesses.

(** * The matcher in the pass *)

Section PassEffects.
Import Dom Content Scan Report.










End PassEffects.

(** * The matcher at work *)

Section VerdictFacts.
Import Str Dom Content Matcher Scan Report.







End VerdictFacts.

(** * The order of the categories *)

Section MatcherClaims.
Import Str Dom Content Matcher Scan.



End MatcherClaims.

(** * Stored rules and the matcher together *)

Section StoredRuleProperties.
Import Str Normalizer Dom Content Scan.





End StoredRuleProperties.
